(** * Chat backend: message lifecycle, content moderation and the
    streaming-session registries, embedded in Rocq.

    The JavaScript sources are embedded shallowly:
    - Mongo collections are finite maps ([gmap]) from document ids to
      records, the unique compound index of [ChannelMember] being the key
      of its collection;
    - a service operation is a function [Db -> Db * result _], written in
      a small state-and-exception monad so that it reads like the
      [async] function it embeds;
    - a JavaScript string is the list of its UTF-16 code units;
    - a [Date] is its time value, the integer number of milliseconds
      since the epoch;
    - the three module-level [Map]s of the socket handler are finite maps
      of finite sets, and every [socket.on] handler is a transition of
      one state machine. *)

From stdpp Require Import gmap strings list fin_maps.
From Stdlib Require Import ZArith Lia.


Local Open Scope Z_scope.

(* ===================================================================== *)
(** ** JavaScript strings and the two regular-expression facts we need    *)
(* ===================================================================== *)

Module JS.

(** A string is a sequence of UTF-16 code units; [length] is [.length]. *)
Abbreviation jsstring := (list N).

Definition of_ascii (s : string) : jsstring :=
  map Ascii.N_of_ascii (String.list_ascii_of_string s).

(** ECMAScript LineTerminator: LF, CR, LS, PS. The atom [.] of a regular
    expression without the [s] flag matches any code unit but these. *)
Definition isLineTerminator (c : N) : bool :=
  ((c =? 10) || (c =? 13) || (c =? 8232) || (c =? 8233))%N.

(** ECMAScript WhiteSpace (TAB, VT, FF, SP, NBSP, ZWNBSP and category Zs). *)
Definition isWhiteSpace (c : N) : bool :=
  ((c =? 9) || (c =? 11) || (c =? 12) || (c =? 32) || (c =? 160) ||
   (c =? 5760) || ((8192 <=? c) && (c <=? 8202)) || (c =? 8239) ||
   (c =? 8287) || (c =? 12288) || (c =? 65279))%N.

Definition isTrimmable (c : N) : bool := isWhiteSpace c || isLineTerminator c.

Fixpoint trimStart (s : jsstring) : jsstring :=
  match s with
  | [] => []
  | c :: r => if isTrimmable c then trimStart r else s
  end.

Definition trimEnd (s : jsstring) : jsstring := rev (trimStart (rev s)).

(** [String.prototype.trim] *)
Definition trim (s : jsstring) : jsstring := trimEnd (trimStart s).

(** Number of leading code units of [s] equal to [c]: what the greedy
    quantifier over the back-reference [\1] consumes. *)
Fixpoint backref_run (c : N) (s : jsstring) : nat :=
  match s with
  | [] => O
  | x :: r => if (x =? c)%N then S (backref_run c r) else O
  end.

(** [/(.)\1{10,}/] anchored at the head of [s]: the group captures one
    code unit that is not a line terminator, and the back-reference must
    then match at least ten more times. *)
Definition repeatedChars_match_here (s : jsstring) : bool :=
  match s with
  | [] => false
  | c :: r => negb (isLineTerminator c) && (10 <=? backref_run c r)%nat
  end.

(** [repeatedChars.test(s)]: the pattern is tried at every start index. *)
Fixpoint repeatedChars_test (s : jsstring) : bool :=
  repeatedChars_match_here s ||
  match s with
  | [] => false
  | _ :: r => repeatedChars_test r
  end.

End JS.

(* ===================================================================== *)
(** ** Results and the error taxonomy                                     *)
(* ===================================================================== *)

Inductive result (E A : Type) : Type :=
| Ok (a : A)
| Err (e : E).
Arguments Ok {E A} a.
Arguments Err {E A} e.

(** One constructor per [throw new Error(...)] of the message service and
    per ['error'] message of the socket handlers, plus the Mongoose
    errors [save] and a query can raise. *)
Inductive ServiceError : Type :=
| ChannelNotFound        (* 'Channel not found' *)
| AccessDenied           (* 'Access denied. You are not a member of this channel.' *)
| InvalidReplyMessage    (* 'Invalid reply message' *)
| MessageNotFound        (* 'Message not found' *)
| EditOwnOnly            (* 'You can only edit your own messages' *)
| EditWindowPassed       (* 'Messages can only be edited within 5 minutes of posting' *)
| DeleteNotAllowed       (* 'You can only delete your own messages or need moderator privileges' *)
| AlreadyFlagged         (* 'Message is already flagged' *)
| NotFlagged             (* 'Message is not flagged' *)
| NotDeleted             (* 'Message is not deleted' *)
| SearchQueryRequired    (* 'Search query is required' *)
| ModeratorRequired      (* 'Moderator privileges required' (socket handler) *)
| ChannelAccessDenied    (* 'Access denied to channel' (socket handler) *)
| HandlerFailed          (* 'Failed to ...', the catch block of a socket handler *)
| ValidationFailed       (* Mongoose ValidationError raised by save() *)
| CastFailed             (* Mongoose CastError: a query value is no ObjectId *)
| QueryFailed            (* the store rejects the query (negative skip) *)
| NullDereference.       (* TypeError: a property of null is read *)

(** The error kinds of the specification. *)
Inductive ErrorKind : Type :=
| NotFound | Forbidden | InvalidState | InvalidReference | WindowExpired
| BadRequest | StoreError | InternalError.

Definition kind (e : ServiceError) : ErrorKind :=
  match e with
  | ChannelNotFound | MessageNotFound => NotFound
  | AccessDenied | EditOwnOnly | DeleteNotAllowed | ModeratorRequired
  | ChannelAccessDenied => Forbidden
  | InvalidReplyMessage => InvalidReference
  | EditWindowPassed => WindowExpired
  | AlreadyFlagged | NotFlagged | NotDeleted => InvalidState
  | SearchQueryRequired => BadRequest
  | ValidationFailed | CastFailed | QueryFailed => StoreError
  | NullDereference | HandlerFailed => InternalError
  end.

(* ===================================================================== *)
(** ** Documents                                                          *)
(* ===================================================================== *)

(** Object ids in their canonical string form, the 24 lower-case
    hexadecimal digits [toString()] prints, and dates as time values. A
    document is stored under its [_id], which is the key of its
    collection and not repeated inside the record. *)
Abbreviation ObjectId := string.
Abbreviation Date := Z.

(** Where the code hands a string to Mongoose in the place of an
    ObjectId, Mongoose casts it with the driver's [ObjectId]
    constructor: 24 hexadecimal digits, in either case, denote the id
    that [toString()] prints in lower case, and any other string is
    refused, the empty string included. This is the constructor of
    bson 6; earlier versions also read a string of twelve characters as
    twelve bytes. *)
Module ObjectIds.

Definition isHexDigit (a : Ascii.ascii) : bool :=
  let n := Ascii.N_of_ascii a in
  (((48 <=? n) && (n <=? 57)) || ((65 <=? n) && (n <=? 70))
   || ((97 <=? n) && (n <=? 102)))%N.

Definition toLower (a : Ascii.ascii) : Ascii.ascii :=
  let n := Ascii.N_of_ascii a in
  if ((65 <=? n) && (n <=? 90))%N then Ascii.ascii_of_N (n + 32) else a.

Fixpoint lower (s : string) : string :=
  match s with
  | EmptyString => EmptyString
  | String a r => String (toLower a) (lower r)
  end.

Fixpoint allHex (s : string) : bool :=
  match s with
  | EmptyString => true
  | String a r => isHexDigit a && allHex r
  end.

Definition cast (raw : string) : option ObjectId :=
  if (String.length raw =? 24)%nat && allHex raw then Some (lower raw) else None.

(** [id.toString()] *)
Definition toString (id : ObjectId) : string := id.

End ObjectIds.

Module User.

Inductive Role : Type := user | moderator | admin.

Record t : Type := mk { username : string; role : Role; avatar : option string }.

End User.

Module Channel.

Record t : Type := mk { name : string; is_private : bool }.

End Channel.

Module ChannelMember.

Inductive Role : Type := member | moderator | admin.

Record t : Type := mk {
  role : Role;
  is_active : bool
}.

(** The literal [roleHierarchy] of [hasRole]. *)
Definition roleHierarchy (r : Role) : Z :=
  match r with
  | member => 1
  | moderator => 2
  | admin => 3
  end.

End ChannelMember.

Module Message.

Inductive MessageType : Type := text | image | file | system.
Inductive FlagReason : Type := inappropriate | spam | harassment | other.

(** An element of the [attachments] array. *)
Record Attachment : Type := mkAttachment {
  filename : option JS.jsstring;
  original_name : option JS.jsstring;
  mime_type : option JS.jsstring;
  size : option Z;
  url : option JS.jsstring
}.

(** The nested path [metadata]. *)
Record Metadata : Type := mkMetadata {
  ip_address : option JS.jsstring;
  user_agent : option JS.jsstring;
  location : option JS.jsstring
}.

Definition no_metadata : Metadata :=
  {| ip_address := None; user_agent := None; location := None |}.

Record t : Type := mk {
  channel_id : ObjectId;
  user_id : ObjectId;
  content : JS.jsstring;
  message_type : MessageType;
  is_flagged : bool;
  flag_reason : option FlagReason;
  flagged_by : option ObjectId;
  flagged_at : option Date;
  is_deleted : bool;
  deleted_by : option ObjectId;
  deleted_at : option Date;
  reply_to : option ObjectId;
  attachments : list Attachment;
  metadata : Metadata;
  created_at : Date;
  updated_at : Date
}.

(** What [populate('user_id', 'username avatar')] puts in the place of
    the id: the selected fields of the user. *)
Record UserPreview : Type := mkUserPreview {
  up_id : ObjectId;
  up_username : string;
  up_avatar : option string
}.

(** What [populate('reply_to', 'content user_id')] puts in the place of
    the id: the selected fields of the message replied to. *)
Record ReplyPreview : Type := mkReplyPreview {
  rp_id : ObjectId;
  rp_content : JS.jsstring;
  rp_user_id : ObjectId
}.

(** A message whose paths [user_id] and [reply_to] have been populated:
    each holds the preview of the document it refers to, or [None]
    ([null]) when it refers to nothing that is stored or, for
    [reply_to], when the message is no reply. The other paths are those
    of [pop_doc]. *)
Record Populated : Type := mkPopulated {
  pop_id : ObjectId;
  pop_doc : t;
  pop_user_id : option UserPreview;
  pop_reply_to : option ReplyPreview
}.

(** What [getPublicInfo] exposes of a populated message. *)
Record PublicInfo : Type := mkPublic {
  p_id : ObjectId;
  p_channel_id : ObjectId;
  p_user_id : option UserPreview;
  p_content : JS.jsstring;
  p_message_type : MessageType;
  p_is_flagged : bool;
  p_flag_reason : option FlagReason;
  p_is_deleted : bool;
  p_reply_to : option ReplyPreview;
  p_attachments : list Attachment;
  p_created_at : Date;
  p_updated_at : Date
}.

Definition getPublicInfo (d : Populated) : PublicInfo :=
  let m := pop_doc d in
  {| p_id := pop_id d; p_channel_id := channel_id m; p_user_id := pop_user_id d;
     p_content := content m; p_message_type := message_type m;
     p_is_flagged := is_flagged m; p_flag_reason := flag_reason m;
     p_is_deleted := is_deleted m; p_reply_to := pop_reply_to d;
     p_attachments := attachments m;
     p_created_at := created_at m; p_updated_at := updated_at m |}.

(** The field assignments of the four instance methods; each method then
    calls [save], which is [Store.save_message] below. *)
Definition set_flag (reason : FlagReason) (flaggedBy : ObjectId) (now : Date) (m : t) : t :=
  {| channel_id := channel_id m; user_id := user_id m;
     content := content m; message_type := message_type m;
     is_flagged := true; flag_reason := Some reason;
     flagged_by := Some flaggedBy; flagged_at := Some now;
     is_deleted := is_deleted m; deleted_by := deleted_by m;
     deleted_at := deleted_at m; reply_to := reply_to m;
     attachments := attachments m; metadata := metadata m;
     created_at := created_at m; updated_at := updated_at m |}.

Definition set_unflag (m : t) : t :=
  {| channel_id := channel_id m; user_id := user_id m;
     content := content m; message_type := message_type m;
     is_flagged := false; flag_reason := None;
     flagged_by := None; flagged_at := None;
     is_deleted := is_deleted m; deleted_by := deleted_by m;
     deleted_at := deleted_at m; reply_to := reply_to m;
     attachments := attachments m; metadata := metadata m;
     created_at := created_at m; updated_at := updated_at m |}.

Definition set_softDelete (deletedBy : ObjectId) (now : Date) (m : t) : t :=
  {| channel_id := channel_id m; user_id := user_id m;
     content := content m; message_type := message_type m;
     is_flagged := is_flagged m; flag_reason := flag_reason m;
     flagged_by := flagged_by m; flagged_at := flagged_at m;
     is_deleted := true; deleted_by := Some deletedBy;
     deleted_at := Some now; reply_to := reply_to m;
     attachments := attachments m; metadata := metadata m;
     created_at := created_at m; updated_at := updated_at m |}.

Definition set_restore (m : t) : t :=
  {| channel_id := channel_id m; user_id := user_id m;
     content := content m; message_type := message_type m;
     is_flagged := is_flagged m; flag_reason := flag_reason m;
     flagged_by := flagged_by m; flagged_at := flagged_at m;
     is_deleted := false; deleted_by := None;
     deleted_at := None; reply_to := reply_to m;
     attachments := attachments m; metadata := metadata m;
     created_at := created_at m; updated_at := updated_at m |}.

(** [message.content = c]: the schema's [trim: true] setter applies. *)
Definition set_content (c : JS.jsstring) (m : t) : t :=
  {| channel_id := channel_id m; user_id := user_id m;
     content := JS.trim c; message_type := message_type m;
     is_flagged := is_flagged m; flag_reason := flag_reason m;
     flagged_by := flagged_by m; flagged_at := flagged_at m;
     is_deleted := is_deleted m; deleted_by := deleted_by m;
     deleted_at := deleted_at m; reply_to := reply_to m;
     attachments := attachments m; metadata := metadata m;
     created_at := created_at m; updated_at := updated_at m |}.

Definition set_updated_at (now : Date) (m : t) : t :=
  {| channel_id := channel_id m; user_id := user_id m;
     content := content m; message_type := message_type m;
     is_flagged := is_flagged m; flag_reason := flag_reason m;
     flagged_by := flagged_by m; flagged_at := flagged_at m;
     is_deleted := is_deleted m; deleted_by := deleted_by m;
     deleted_at := deleted_at m; reply_to := reply_to m;
     attachments := attachments m; metadata := metadata m;
     created_at := created_at m; updated_at := now |}.

(** [metadata: { ip_address, user_agent }] given to the constructor. *)
Definition set_metadata (ip userAgent : option JS.jsstring) (m : t) : t :=
  {| channel_id := channel_id m; user_id := user_id m;
     content := content m; message_type := message_type m;
     is_flagged := is_flagged m; flag_reason := flag_reason m;
     flagged_by := flagged_by m; flagged_at := flagged_at m;
     is_deleted := is_deleted m; deleted_by := deleted_by m;
     deleted_at := deleted_at m; reply_to := reply_to m;
     attachments := attachments m;
     metadata := {| ip_address := ip; user_agent := userAgent; location := None |};
     created_at := created_at m; updated_at := updated_at m |}.

(** [new Message({channel_id, user_id, content, reply_to, message_type})]
    with the schema defaults, the ids being ObjectIds already; the
    timestamps are set by the first save. *)
Definition create (channelId userId : ObjectId) (c : JS.jsstring)
    (replyTo : option ObjectId) (ty : MessageType) (now : Date) : t :=
  {| channel_id := channelId; user_id := userId;
     content := JS.trim c; message_type := ty;
     is_flagged := false; flag_reason := None;
     flagged_by := None; flagged_at := None;
     is_deleted := false; deleted_by := None; deleted_at := None;
     reply_to := replyTo; attachments := []; metadata := no_metadata;
     created_at := now; updated_at := now |}.

(** The same constructor given the ids as strings, [replyTo] being
    [None] for [undefined] and [null]. Each id is cast; [None] when one
    of them does not cast (the empty string does not), in which case the
    document is invalid and [save] throws. *)
Definition new_ (channelId userId : string) (c : JS.jsstring)
    (replyTo : option string) (ty : MessageType) (now : Date) : option t :=
  match ObjectIds.cast channelId, ObjectIds.cast userId,
        match replyTo with
        | None => Some None
        | Some raw => Some <$> ObjectIds.cast raw
        end with
  | Some channelId, Some userId, Some replyTo =>
      Some (create channelId userId c replyTo ty now)
  | _, _, _ => None
  end.

(** The validators of the [content] path: [required] and
    [maxlength: 2000], run by [save] on the trimmed value. *)
Definition content_valid (c : JS.jsstring) : bool :=
  negb (length c =? 0)%nat && (length c <=? 2000)%nat.

End Message.

(* ===================================================================== *)
(** ** The document store and the monad of service operations             *)
(* ===================================================================== *)

Module Store.

(** The four collections. [ChannelMember] is keyed by its unique compound
    index [(channel_id, user_id)]; the other three by [_id]. *)
Record Db : Type := mkDb {
  users : gmap ObjectId User.t;
  channels : gmap ObjectId Channel.t;
  channelMembers : gmap (ObjectId * ObjectId) ChannelMember.t;
  messages : gmap ObjectId Message.t
}.

Definition with_messages (ms : gmap ObjectId Message.t) (db : Db) : Db :=
  {| users := users db; channels := channels db;
     channelMembers := channelMembers db; messages := ms |}.

(** An [async] function over the store: it returns, or it throws. *)
Definition M (A : Type) : Type := Db -> Db * result ServiceError A.

Definition ret {A} (a : A) : M A := fun db => (db, Ok a).

Definition throw {A} (e : ServiceError) : M A := fun db => (db, Err e).

Definition bind {A B} (c : M A) (k : A -> M B) : M B :=
  fun db =>
    match c db with
    | (db', Ok a) => k a db'
    | (db', Err e) => (db', Err e)
    end.

Definition read {A} (f : Db -> A) : M A := fun db => (db, Ok (f db)).

Definition throw_if (b : bool) (e : ServiceError) : M unit :=
  if b then throw e else ret tt.

End Store.

Notation "'let*' x ':=' c 'in' k" := (Store.bind c (fun x => k))
  (at level 10, x name, c at level 100, k at level 200).
Notation "c ';;' k" := (Store.bind c (fun _ : unit => k))
  (at level 100, k at level 200, right associativity).

Module Queries.
Import Store.

Definition User_findById (id : ObjectId) : M (option User.t) :=
  read (fun db => users db !! id).

Definition Channel_findById (id : ObjectId) : M (option Channel.t) :=
  read (fun db => channels db !! id).

Definition Message_findById (id : ObjectId) : M (option Message.t) :=
  read (fun db => messages db !! id).

(** A query given an id as a string casts it first and throws when it
    is no ObjectId. *)
Definition casting {A} (raw : string) (query : ObjectId -> M A) : M A :=
  match ObjectIds.cast raw with
  | Some id => query id
  | None => throw CastFailed
  end.

(** [populate('user_id', 'username avatar')] and
    [populate('reply_to', 'content user_id')] on one document: each
    reference is looked up, and is [null] when nothing is found. *)
Definition populate_user_id (db : Db) (userId : ObjectId) : option Message.UserPreview :=
  (fun u => Message.mkUserPreview userId (User.username u) (User.avatar u))
    <$> users db !! userId.

Definition populate_reply_to (db : Db) (replyTo : option ObjectId)
  : option Message.ReplyPreview :=
  match replyTo with
  | None => None
  | Some replyTo =>
      (fun m => Message.mkReplyPreview replyTo (Message.content m) (Message.user_id m))
        <$> messages db !! replyTo
  end.

Definition populated (db : Db) (d : ObjectId * Message.t) : Message.Populated :=
  {| Message.pop_id := d.1; Message.pop_doc := d.2;
     Message.pop_user_id := populate_user_id db (Message.user_id d.2);
     Message.pop_reply_to := populate_reply_to db (Message.reply_to d.2) |}.

Definition populate (l : list (ObjectId * Message.t)) : M (list Message.Populated) :=
  read (fun db => map (populated db) l).

(** [ChannelMember.findOne({channel_id, user_id, is_active: true})] *)
Definition ChannelMember_findOne_active (channelId userId : ObjectId)
  : M (option ChannelMember.t) :=
  read (fun db =>
    match channelMembers db !! (channelId, userId) with
    | Some m => if ChannelMember.is_active m then Some m else None
    | None => None
    end).

(** [channelMemberSchema.statics.isMember] *)
Definition isMember (channelId userId : ObjectId) : M bool :=
  let* member := ChannelMember_findOne_active channelId userId in
  ret (bool_decide (is_Some member)).

(** [channelMemberSchema.statics.getUserRole] *)
Definition getUserRole (channelId userId : ObjectId) : M (option ChannelMember.Role) :=
  let* member := ChannelMember_findOne_active channelId userId in
  ret (ChannelMember.role <$> member).

(** [channelMemberSchema.statics.hasRole] *)
Definition hasRole (channelId userId : ObjectId) (requiredRole : ChannelMember.Role)
  : M bool :=
  let* member := ChannelMember_findOne_active channelId userId in
  match member with
  | None => ret false
  | Some member =>
      ret (ChannelMember.roleHierarchy (ChannelMember.role member)
             >=? ChannelMember.roleHierarchy requiredRole)
  end.

(** [doc.save()]. The schema's [timestamps] option stamps [updated_at];
    the validators of [content] run when that path is new or modified
    ([validateContent]); the other paths written by the service are
    typed enumerations, object ids, booleans and dates, whose validators
    cannot fail. *)
Definition Message_save (validateContent : bool) (now : Date)
    (id : ObjectId) (m : Message.t) : M Message.t :=
  throw_if (validateContent && negb (Message.content_valid (Message.content m)))
           ValidationFailed ;;
  let saved := Message.set_updated_at now m in
  fun db => (with_messages (<[id := saved]> (messages db)) db, Ok saved).

End Queries.

(** Cursor operations of a [find] query. *)
Module Cursor.
Import Store.

Abbreviation doc := (ObjectId * Message.t)%type.

Fixpoint insert_desc (d : doc) (l : list doc) : list doc :=
  match l with
  | [] => [d]
  | x :: r =>
      if Message.created_at x.2 <=? Message.created_at d.2
      then d :: l
      else x :: insert_desc d r
  end.

(** [.sort({ created_at: -1 })] *)
Definition sort_created_desc (l : list doc) : list doc :=
  foldr insert_desc [] l.

(** [.skip(n)]: the store refuses a negative skip. *)
Definition skip (n : Z) (l : list doc) : M (list doc) :=
  if n <? 0 then throw QueryFailed else ret (drop (Z.to_nat n) l).

(** [.limit(n)]: zero means no limit, a negative limit is its absolute value. *)
Definition limit (n : Z) (l : list doc) : list doc :=
  if n =? 0 then l else take (Z.to_nat (Z.abs n)) l.

(** [Message.find(query)] over the whole collection. *)
Definition find (query : Message.t -> bool) : M (list doc) :=
  read (fun db => List.filter (fun d : doc => query d.2) (map_to_list (messages db))).

(** [Message.countDocuments(query)] *)
Definition countDocuments (query : Message.t -> bool) : M Z :=
  let* found := find query in
  ret (Z.of_nat (length found)).

(** [messageSchema.statics.getChannelMessages], which the socket handler
    [get_message_history] calls; [.lean()] returns the populated
    documents as plain objects. *)
Definition getChannelMessages (channelId : ObjectId) (page_ limit_ : option Z)
  : M (list Message.Populated) :=
  let page_ := default 1 page_ in
  let limit_ := default 50 limit_ in
  let skip_ := (page_ - 1) * limit_ in
  let* found :=
    find (fun m => bool_decide (Message.channel_id m = channelId)
                   && negb (Message.is_deleted m)) in
  let* skipped := skip skip_ (sort_created_desc found) in
  Queries.populate (limit limit_ skipped).

End Cursor.

(* ===================================================================== *)
(** ** services/messageService.js                                         *)
(* ===================================================================== *)

Module MessageService.
Import Store Queries.

(** The fields of [messageData]. The ids are the strings the caller
    hands over; [replyTo] is [None] for [undefined] and [null], and may
    be the empty string. *)
Record MessageData : Type := mkMessageData {
  channelId : string;
  userId : string;
  content : JS.jsstring;
  replyTo : option string;
  messageType : option Message.MessageType
}.

(** [if (replyTo)]: a string is truthy unless it is empty. *)
Definition truthy (replyTo : option string) : option string :=
  match replyTo with
  | Some raw => if bool_decide (raw = "") then None else Some raw
  | None => None
  end.

Definition sendMessage (newId : ObjectId) (now : Date) (messageData : MessageData)
  : M Message.Populated :=
  let channelId := channelId messageData in
  let userId := userId messageData in
  let messageType := default Message.text (messageType messageData) in
  (* Verify channel exists *)
  let* channel := casting channelId Channel_findById in
  match channel with
  | None => throw ChannelNotFound
  | Some channel =>
      (* Check if user is member (for private channels) *)
      let* denied :=
        (if Channel.is_private channel
         then let* member :=
                casting channelId (fun channel_id =>
                casting userId (fun user_id => isMember channel_id user_id)) in
              ret (negb member)
         else ret false) in
      throw_if denied AccessDenied ;;
      (* Validate reply message if provided *)
      match truthy (replyTo messageData) with
      | Some replyTo =>
          let* replyMessage := casting replyTo Message_findById in
          match replyMessage with
          | None => throw InvalidReplyMessage
          | Some replyMessage =>
              throw_if (negb (bool_decide
                          (ObjectIds.toString (Message.channel_id replyMessage)
                           = channelId)))
                       InvalidReplyMessage
          end
      | None => ret tt
      end ;;
      (* Create new message *)
      match Message.new_ channelId userId (content messageData)
                         (replyTo messageData) messageType now with
      | None => throw ValidationFailed (* a path did not cast: save throws *)
      | Some message =>
          let* saved := Message_save true now newId message in
          (* populate('user_id'), and populate('reply_to') of a reply *)
          read (fun db => populated db (newId, saved))
      end
  end.

Record Pagination : Type := mkPagination {
  pg_page : Z;
  pg_limit : Z;
  pg_total : Z;
  (** [Math.ceil(total / limit)]; [None] when the quotient is not a number *)
  pg_pages : option Z
}.

Record Listing : Type := mkListing {
  l_messages : list Message.PublicInfo;
  l_pagination : Pagination
}.

Definition ceil_div (a b : Z) : option Z :=
  if b =? 0 then None else Some (- ((- a) / b)).

Record ListOptions : Type := mkListOptions {
  o_page : option Z;
  o_limit : option Z;
  o_userId : ObjectId
}.

(** [messages.map(msg => msg.getPublicInfo())] on the populated result
    of a query over the store [db]. *)
Definition publicInfos (db : Db) (l : list Cursor.doc) : list Message.PublicInfo :=
  map Message.getPublicInfo (map (populated db) l).

Definition getChannelMessages (channelId : ObjectId) (options : ListOptions) : M Listing :=
  let page := default 1 (o_page options) in
  let limit := default 50 (o_limit options) in
  let skip := (page - 1) * limit in
  let* channel := Channel_findById channelId in
  match channel with
  | None => throw ChannelNotFound
  | Some channel =>
      let* denied :=
        (if Channel.is_private channel
         then let* member := isMember channelId (o_userId options) in ret (negb member)
         else ret false) in
      throw_if denied AccessDenied ;;
      let query := fun m : Message.t =>
        bool_decide (Message.channel_id m = channelId) && negb (Message.is_deleted m) in
      let* found := Cursor.find query in
      let* skipped := Cursor.skip skip (Cursor.sort_created_desc found) in
      let* messages := populate (Cursor.limit limit skipped) in
      let* total := Cursor.countDocuments query in
      ret {| l_messages := map Message.getPublicInfo messages;
             l_pagination := {| pg_page := page; pg_limit := limit;
                                pg_total := total; pg_pages := ceil_div total limit |} |}
  end.

(** A populated message: the document, the channel
    [populate('channel_id', 'name is_private')] found and the user
    [populate('user_id', 'username avatar')] found. *)
Definition getMessageById (messageId userId : ObjectId)
  : M (ObjectId * Message.t * option Channel.t * option Message.UserPreview) :=
  let* message := Message_findById messageId in
  match message with
  | None => throw MessageNotFound
  | Some message =>
      let* channel := Channel_findById (Message.channel_id message) in
      match channel with
      | None => throw NullDereference
      | Some channel =>
          let* denied :=
            (if Channel.is_private channel
             then let* member := isMember (Message.channel_id message) userId in
                  ret (negb member)
             else ret false) in
          throw_if denied AccessDenied ;;
          read (fun db => (messageId, message, Some channel,
                           populate_user_id db (Message.user_id message)))
      end
  end.

Definition updateMessage (now : Date) (messageId : ObjectId) (content : JS.jsstring)
    (userId : ObjectId) : M Message.t :=
  let* message := Message_findById messageId in
  match message with
  | None => throw MessageNotFound
  | Some message =>
      (* Check if user is the author *)
      throw_if (negb (bool_decide (Message.user_id message = userId))) EditOwnOnly ;;
      (* Check if message is too old (e.g., 5 minutes) *)
      let fiveMinutesAgo := now - 5 * 60 * 1000 in
      throw_if (Message.created_at message <? fiveMinutesAgo) EditWindowPassed ;;
      Message_save true now messageId
        (Message.set_updated_at now (Message.set_content content message))
  end.

Definition deleteMessage (now : Date) (messageId userId : ObjectId) : M bool :=
  let* message := Message_findById messageId in
  match message with
  | None => throw MessageNotFound
  | Some message =>
      (* .populate('channel_id') *)
      let* channel := Channel_findById (Message.channel_id message) in
      (* Check if user is the author or has moderator role *)
      let isAuthor := bool_decide (Message.user_id message = userId) in
      let isModerator := false in (* This should come from user context *)
      let* hasChannelModeratorRole :=
        (match channel with
         | Some _ => hasRole (Message.channel_id message) userId ChannelMember.moderator
         | None => ret false
         end) in
      throw_if (negb isAuthor && negb isModerator && negb hasChannelModeratorRole)
               DeleteNotAllowed ;;
      (* Soft delete the message *)
      let* _saved :=
        Message_save false now messageId (Message.set_softDelete userId now message) in
      ret true
  end.

Definition flagMessage (now : Date) (messageId : ObjectId)
    (reason : Message.FlagReason) (userId : ObjectId) : M Message.t :=
  let* message := Message_findById messageId in
  match message with
  | None => throw MessageNotFound
  | Some message =>
      throw_if (Message.is_flagged message) AlreadyFlagged ;;
      Message_save false now messageId (Message.set_flag reason userId now message)
  end.

Definition unflagMessage (now : Date) (messageId : ObjectId) : M Message.t :=
  let* message := Message_findById messageId in
  match message with
  | None => throw MessageNotFound
  | Some message =>
      throw_if (negb (Message.is_flagged message)) NotFlagged ;;
      Message_save false now messageId (Message.set_unflag message)
  end.

Definition restoreMessage (now : Date) (messageId userId : ObjectId) : M Message.t :=
  let* message := Message_findById messageId in
  match message with
  | None => throw MessageNotFound
  | Some message =>
      throw_if (negb (Message.is_deleted message)) NotDeleted ;;
      Message_save false now messageId (Message.set_restore message)
  end.

Section Search.

(** [{ $regex: query, $options: 'i' }]: the store's regular-expression
    engine, taken as given. *)
Variable regexMatch : JS.jsstring -> JS.jsstring -> bool.

Record SearchOptions : Type := mkSearchOptions {
  s_query : option JS.jsstring;
  s_page : option Z;
  s_limit : option Z;
  s_userId : ObjectId
}.

Definition searchMessages (channelId : ObjectId) (options : SearchOptions) : M Listing :=
  let page := default 1 (s_page options) in
  let limit := default 50 (s_limit options) in
  match s_query options with
  | None | Some [] => throw SearchQueryRequired
  | Some query =>
      (* Check if channel exists and user has access *)
      let* channel := Channel_findById channelId in
      match channel with
      | None => throw ChannelNotFound
      | Some channel =>
          let* denied :=
            (if Channel.is_private channel
             then let* member := isMember channelId (s_userId options) in ret (negb member)
             else ret false) in
          throw_if denied AccessDenied ;;
          let skip := (page - 1) * limit in
          let filter := fun m : Message.t =>
            bool_decide (Message.channel_id m = channelId)
            && regexMatch query (Message.content m)
            && negb (Message.is_deleted m) in
          let* found := Cursor.find filter in
          let* skipped := Cursor.skip skip (Cursor.sort_created_desc found) in
          let* messages := populate (Cursor.limit limit skipped) in
          let* total := Cursor.countDocuments filter in
          ret {| l_messages := map Message.getPublicInfo messages;
                 l_pagination := {| pg_page := page; pg_limit := limit;
                                    pg_total := total;
                                    pg_pages := ceil_div total limit |} |}
      end
  end.

End Search.

End MessageService.

(* ===================================================================== *)
(** ** middleware/validation.js and middleware/contentModeration.js       *)
(* ===================================================================== *)

Module Validation.

Inductive JoiError : Type :=
| ContentRequired    (* 'Message content is required' *)
| ContentEmpty       (* empty once trimmed: 'string.empty' / 'Message cannot be empty' *)
| ContentTooLong.    (* 'Message cannot exceed 2000 characters' *)

(** The [content] rule of [validateMessage]:
    [Joi.string().trim().min(1).max(2000).required()]. The length rules
    see the trimmed value; [req.body] itself is left as it was sent. *)
Definition validateMessage_content (content : option JS.jsstring) : option JoiError :=
  match content with
  | None => Some ContentRequired
  | Some c =>
      let trimmed := JS.trim c in
      if (length trimmed <? 1)%nat then Some ContentEmpty
      else if (2000 <? length trimmed)%nat then Some ContentTooLong
      else None
  end.

End Validation.

Module ContentModeration.

Inductive Rejection : Type :=
| TooLong              (* 'Message content is too long. Maximum length is 2000 characters.' *)
| RepeatedCharacters.  (* 'Message contains too many repeated characters. ...' *)

Inductive Outcome : Type :=
| Next                                       (* next() *)
| Respond (status : Z) (error : Rejection).  (* res.status(..).json({error}) *)

(** [contentLengthValidation]; [content] is [req.body.content], [None]
    when the body has none. *)
Definition contentLengthValidation (content : option JS.jsstring) : Outcome :=
  match content with
  | None | Some [] => Next
  | Some content =>
      (* Check for extremely long content (potential spam) *)
      if (2000 <? length content)%nat then Respond 400 TooLong
      (* Check for repeated characters (potential spam) *)
      else if JS.repeatedChars_test content then Respond 400 RepeatedCharacters
      else Next
  end.

End ContentModeration.

(* ===================================================================== *)
(** ** controllers/messageController.js (the handler used below)          *)
(* ===================================================================== *)

Module MessageController.
Import Store.

(** The authenticated principal the auth middleware attaches to [req]. *)
Record ReqUser : Type := mkReqUser { id : ObjectId; role : User.Role }.

(** [deleteMessage(req, res)]: the HTTP status of the response. *)
Definition deleteMessage (now : Date) (reqUser : ReqUser) (paramsId : ObjectId)
  : Db -> Db * Z :=
  fun db =>
    match MessageService.deleteMessage now paramsId (id reqUser) db with
    | (db', Ok _) => (db', 200)
    | (db', Err MessageNotFound) => (db', 404)
    | (db', Err DeleteNotAllowed) => (db', 403)
    | (db', Err _) => (db', 500)
    end.

End MessageController.

(* ===================================================================== *)
(** ** The socket handler: registries and event handlers                  *)
(* ===================================================================== *)

Module Socket.
Import Store Queries.

Abbreviation SocketId := string.

(** [sockets] and [rooms] belong to the transport: the open connections
    with the [userId] the authentication middleware stored on them, and
    the rooms [socket.join]/[socket.leave] maintain (a room holding no
    socket is the same as no room). The other three fields are the
    module-level [Map]s. Handlers run one at a time, each to its end;
    what they emit is not recorded, except the answer to the calling
    socket ([Reply]). *)
Record State : Type := mkState {
  db : Db;
  sockets : gmap SocketId ObjectId;
  rooms : gmap ObjectId (gset SocketId);
  connectedUsers : gmap ObjectId SocketId;       (* userId -> socket *)
  userChannels : gmap ObjectId (gset ObjectId);  (* userId -> Set of channelIds *)
  typingUsers : gmap ObjectId (gset ObjectId)    (* channelId -> Set of userIds *)
}.

Definition init (d : Db) : State :=
  {| db := d; sockets := ∅; rooms := ∅; connectedUsers := ∅;
     userChannels := ∅; typingUsers := ∅ |}.

Inductive Reply : Type :=
| Handled                        (* the handler ran to its end *)
| ErrorEvent (e : ServiceError)  (* socket.emit('error', { message }) *)
| Uncaught                       (* an exception left the handler *)
| NoSuchSocket.                  (* no open connection has this id *)

Definition with_db (d : Db) (st : State) : State :=
  {| db := d; sockets := sockets st; rooms := rooms st;
     connectedUsers := connectedUsers st; userChannels := userChannels st;
     typingUsers := typingUsers st |}.

Definition with_rooms (r : gmap ObjectId (gset SocketId)) (st : State) : State :=
  {| db := db st; sockets := sockets st; rooms := r;
     connectedUsers := connectedUsers st; userChannels := userChannels st;
     typingUsers := typingUsers st |}.

Definition with_userChannels (u : gmap ObjectId (gset ObjectId)) (st : State) : State :=
  {| db := db st; sockets := sockets st; rooms := rooms st;
     connectedUsers := connectedUsers st; userChannels := u;
     typingUsers := typingUsers st |}.

Definition with_typingUsers (t : gmap ObjectId (gset ObjectId)) (st : State) : State :=
  {| db := db st; sockets := sockets st; rooms := rooms st;
     connectedUsers := connectedUsers st; userChannels := userChannels st;
     typingUsers := t |}.

(** [socket.join(room)] and [socket.leave(room)] *)
Definition socket_join (socket : SocketId) (room : ObjectId)
    (r : gmap ObjectId (gset SocketId)) : gmap ObjectId (gset SocketId) :=
  <[room := {[socket]} ∪ default ∅ (r !! room)]> r.

Definition socket_leave (socket : SocketId) (room : ObjectId)
    (r : gmap ObjectId (gset SocketId)) : gmap ObjectId (gset SocketId) :=
  match r !! room with
  | Some members => <[room := members ∖ {[socket]}]> r
  | None => r
  end.

(** The block shared by [typing_stop], [new_message] and [disconnect]:
    [if (typingUsers.has(c)) { typingUsers.get(c).delete(u);
        if (typingUsers.get(c).size === 0) typingUsers.delete(c); }] *)
Definition typing_remove (channelId userId : ObjectId)
    (t : gmap ObjectId (gset ObjectId)) : gmap ObjectId (gset ObjectId) :=
  match t !! channelId with
  | Some users =>
      let users' := users ∖ {[userId]} in
      if decide (size users' = 0%nat) then delete channelId t
      else <[channelId := users']> t
  | None => t
  end.

(** An event of a socket reaches its handler with [socket.userId]. *)
Definition on_socket (socket : SocketId) (st : State)
    (handler : ObjectId -> State * Reply) : State * Reply :=
  match sockets st !! socket with
  | Some userId => handler userId
  | None => (st, NoSuchSocket)
  end.

(** [io.on('connection', ...)] up to the registration of the handlers;
    [userChannelsList] is what the membership query returned. *)
Definition join_listed (socket : SocketId) (userId : ObjectId)
    (st : State) (channelId : ObjectId) : State :=
  with_userChannels
    (<[userId := {[channelId]} ∪ default ∅ (userChannels st !! userId)]> (userChannels st))
    (with_rooms (socket_join socket channelId (rooms st)) st).

Definition on_connection (socket : SocketId) (userId : ObjectId)
    (userChannelsList : list ObjectId) (st : State) : State * Reply :=
  (* Store socket mapping *)
  let st1 :=
    {| db := db st;
       sockets := <[socket := userId]> (sockets st);
       rooms := rooms st;
       connectedUsers := <[userId := socket]> (connectedUsers st);
       userChannels := <[userId := ∅]> (userChannels st);
       typingUsers := typingUsers st |} in
  (* Join user to their channels *)
  (foldl (join_listed socket userId) st1 userChannelsList, Handled).

(** [join_channel]: the Channel schema defines no [isMember] method, so
    for an existing channel the call throws and the catch block answers. *)
Definition on_join_channel (socket : SocketId) (channelId : ObjectId) (st : State)
  : State * Reply :=
  on_socket socket st (fun userId =>
    match channels (db st) !! channelId with
    | None => (st, ErrorEvent ChannelAccessDenied)
    | Some _ => (st, ErrorEvent HandlerFailed)
    end).

Definition on_leave_channel (socket : SocketId) (channelId : ObjectId) (st : State)
  : State * Reply :=
  on_socket socket st (fun userId =>
    let st1 := with_rooms (socket_leave socket channelId (rooms st)) st in
    match userChannels st !! userId with
    | None => (st1, ErrorEvent HandlerFailed)
    | Some chans =>
        (with_userChannels (<[userId := chans ∖ {[channelId]}]> (userChannels st)) st1,
         Handled)
    end).

Definition on_typing_start (socket : SocketId) (channelId : ObjectId) (st : State)
  : State * Reply :=
  on_socket socket st (fun userId =>
    match userChannels st !! userId with
    | None => (st, Uncaught)
    | Some chans =>
        if decide (channelId ∈ chans)
        then (with_typingUsers
                (<[channelId := {[userId]} ∪ default ∅ (typingUsers st !! channelId)]>
                   (typingUsers st)) st,
              Handled)
        else (st, Handled)
    end).

Definition on_typing_stop (socket : SocketId) (channelId : ObjectId) (st : State)
  : State * Reply :=
  on_socket socket st (fun userId =>
    (with_typingUsers (typing_remove channelId userId (typingUsers st)) st, Handled)).

(** [new_message]; [channelId] and [replyTo] are the strings of the
    payload ([replyTo] is [None] for [undefined] and [null]). A query or
    a [save] that throws on a string that is no ObjectId is answered by
    the catch block. *)
Definition on_new_message (socket : SocketId) (newId : ObjectId) (now : Date)
    (channelId : string) (content : JS.jsstring) (replyTo : option string)
    (st : State) : State * Reply :=
  on_socket socket st (fun userId =>
    (* Verify user is member of the channel *)
    match ObjectIds.cast channelId with
    | None => (st, ErrorEvent HandlerFailed)
    | Some channel_id =>
        match channels (db st) !! channel_id, isMember channel_id userId (db st) with
        | Some _, (_, Ok true) =>
            (* Create new message *)
            match match replyTo with
                  | None => Some None
                  | Some raw => Some <$> ObjectIds.cast raw
                  end with
            | None => (st, ErrorEvent HandlerFailed)
            | Some reply_to =>
                let message :=
                  Message.create channel_id userId content reply_to Message.text now in
                match Message_save true now newId message (db st) with
                | (db', Ok _) =>
                    (* Stop typing indicator *)
                    (with_typingUsers (typing_remove channelId userId (typingUsers st))
                                      (with_db db' st),
                     Handled)
                | (_, Err _) => (st, ErrorEvent HandlerFailed)
                end
            end
        | _, _ => (st, ErrorEvent ChannelAccessDenied)
        end
    end).

Definition isGlobalModerator (r : User.Role) : bool :=
  match r with
  | User.moderator | User.admin => true
  | User.user => false
  end.

Definition on_delete_message (socket : SocketId) (now : Date) (messageId : ObjectId)
    (st : State) : State * Reply :=
  on_socket socket st (fun userId =>
    match messages (db st) !! messageId with
    | None => (st, ErrorEvent MessageNotFound)
    | Some message =>
        let channel := channels (db st) !! Message.channel_id message in
        (* Check if user is the author or has moderator role *)
        let isAuthor := bool_decide (Message.user_id message = userId) in
        match users (db st) !! userId with
        | None => (st, ErrorEvent HandlerFailed)
        | Some user =>
            let isModerator := isGlobalModerator (User.role user) in
            let hasChannelModeratorRole :=
              match channel with
              | Some _ =>
                  match hasRole (Message.channel_id message) userId
                                ChannelMember.moderator (db st) with
                  | (_, Ok b) => b
                  | (_, Err _) => false
                  end
              | None => false
              end in
            if negb isAuthor && negb isModerator && negb hasChannelModeratorRole
            then (st, ErrorEvent DeleteNotAllowed)
            else
              (* Soft delete the message *)
              match Message_save false now messageId
                      (Message.set_softDelete userId now message) (db st) with
              | (db', Ok _) =>
                  match channel with
                  | Some _ => (with_db db' st, Handled)
                  | None => (with_db db' st, ErrorEvent HandlerFailed)
                  end
              | (_, Err _) => (st, ErrorEvent HandlerFailed)
              end
        end
    end).

(** [unflag_message] (moderator only) *)
Definition on_unflag_message (socket : SocketId) (now : Date) (messageId : ObjectId)
    (st : State) : State * Reply :=
  on_socket socket st (fun userId =>
    match users (db st) !! userId with
    | None => (st, ErrorEvent HandlerFailed)
    | Some user =>
        if negb (isGlobalModerator (User.role user))
        then (st, ErrorEvent ModeratorRequired)
        else
          match messages (db st) !! messageId with
          | None => (st, ErrorEvent MessageNotFound)
          | Some message =>
              if negb (Message.is_flagged message)
              then (st, ErrorEvent NotFlagged)
              else
                match Message_save false now messageId
                        (Message.set_unflag message) (db st) with
                | (db', Ok _) => (with_db db' st, Handled)
                | (_, Err _) => (st, ErrorEvent HandlerFailed)
                end
          end
    end).

(** [disconnect]: the transport has closed the connection and taken the
    socket out of every room; then the handler cleans the registries. *)
Definition on_disconnect (socket : SocketId) (st : State) : State * Reply :=
  on_socket socket st (fun userId =>
    (* Remove from typing indicators *)
    let typing :=
      match userChannels st !! userId with
      | Some chans =>
          foldr (fun channelId t => typing_remove channelId userId t)
                (typingUsers st) (elements chans)
      | None => typingUsers st
      end in
    (* Clean up socket mappings *)
    ({| db := db st;
        sockets := delete socket (sockets st);
        rooms := (fun members => members ∖ {[socket]}) <$> rooms st;
        connectedUsers := delete userId (connectedUsers st);
        userChannels := delete userId (userChannels st);
        typingUsers := typing |},
     Handled)).

(** The events whose handlers are embedded above. Of the handlers left
    out, [create_channel], [delete_channel] and [remove_channel_member]
    also write to [userChannels] and the rooms; the others touch none of
    the registries. *)
Inductive Event : Type :=
| connection (socket : SocketId) (userId : ObjectId) (userChannelsList : list ObjectId)
| join_channel (socket : SocketId) (channelId : ObjectId)
| leave_channel (socket : SocketId) (channelId : ObjectId)
| typing_start (socket : SocketId) (channelId : ObjectId)
| typing_stop (socket : SocketId) (channelId : ObjectId)
| new_message (socket : SocketId) (newId : ObjectId) (now : Date)
    (channelId : string) (content : JS.jsstring) (replyTo : option string)
| delete_message (socket : SocketId) (now : Date) (messageId : ObjectId)
| unflag_message (socket : SocketId) (now : Date) (messageId : ObjectId)
| disconnect (socket : SocketId).

Definition step (st : State) (e : Event) : State * Reply :=
  match e with
  | connection s u l => on_connection s u l st
  | join_channel s c => on_join_channel s c st
  | leave_channel s c => on_leave_channel s c st
  | typing_start s c => on_typing_start s c st
  | typing_stop s c => on_typing_stop s c st
  | new_message s i t c b r => on_new_message s i t c b r st
  | delete_message s t m => on_delete_message s t m st
  | unflag_message s t m => on_unflag_message s t m st
  | disconnect s => on_disconnect s st
  end.

Definition run (st : State) (es : list Event) : State :=
  foldl (fun st e => (step st e).1) st es.

(** The typing invariant of the data model: whoever is in a channel's
    typing set holds a subscription to that channel. *)
Definition typing_subscribed (st : State) : Prop :=
  ∀ channelId userId,
    userId ∈ default ∅ (typingUsers st !! channelId) →
    channelId ∈ default ∅ (userChannels st !! userId).

End Socket.

(* ===================================================================== *)
(** ** Vocabulary of the statements                                       *)
(* ===================================================================== *)

Import Store Queries.

(** The call returned [a]. *)
Definition returns {A} (r : Db * result ServiceError A) (a : A) : Prop :=
  r.2 = Ok a.

(** The call threw an error of kind [k]. *)
Definition failsWith {A} (r : Db * result ServiceError A) (k : ErrorKind) : Prop :=
  ∃ e, r.2 = Err e ∧ kind e = k.

(** The order [member < moderator < admin], as the specification words it. *)
Inductive role_lt : ChannelMember.Role → ChannelMember.Role → Prop :=
| member_lt_moderator : role_lt ChannelMember.member ChannelMember.moderator
| moderator_lt_admin : role_lt ChannelMember.moderator ChannelMember.admin
| member_lt_admin : role_lt ChannelMember.member ChannelMember.admin.

Definition role_le (r1 r2 : ChannelMember.Role) : Prop := r1 = r2 ∨ role_lt r1 r2.

(** [userId] is an active member of [channelId] whose role is at least [r]. *)
Definition active_member_at_least (db : Db) (channelId userId : ObjectId)
    (r : ChannelMember.Role) : Prop :=
  ∃ m, channelMembers db !! (channelId, userId) = Some m
       ∧ ChannelMember.is_active m = true
       ∧ role_le r (ChannelMember.role m).

(** The store after [messageId] was saved as [m] at time [now]. *)
Definition saved_as (now : Date) (messageId : ObjectId) (m : Message.t) (db : Db) : Db :=
  with_messages (<[messageId := Message.set_updated_at now m]> (messages db)) db.


(** [userId] holds a global moderator or admin role. *)
Definition global_moderator (db : Db) (userId : ObjectId) : Prop :=
  ∃ u, users db !! userId = Some u ∧ Socket.isGlobalModerator (User.role u) = true.

(** [s] contains [n] consecutive copies of the code unit [c]. *)
Definition has_run (c : N) (n : nat) (s : JS.jsstring) : Prop :=
  ∃ pre post, s = pre ++ repeat c n ++ post.

(** The channel is open to the user: it exists, and if it is private the
    user is an active member. These are the two guards at the head of
    [sendMessage], [getChannelMessages] and [searchMessages]. *)
Definition channel_open_to (db : Db) (channelId userId : ObjectId) : Prop :=
  ∃ ch, channels db !! channelId = Some ch
        ∧ (Channel.is_private ch = true →
           active_member_at_least db channelId userId ChannelMember.member).


(** The string denotes the id: it is one of its spellings, which a
    query casts to it. *)
Definition denotes (raw : string) (id : ObjectId) : Prop :=
  ObjectIds.cast raw = Some id.


(** The typing set of a channel, empty when the map has no entry. *)
Abbreviation typing_in t channelId := (default (∅ : gset ObjectId) (t !! channelId)).

(** The registrations of one identity, as events. *)
Definition registrations (userId : ObjectId)
    (handles : list (Socket.SocketId * list ObjectId)) : list Socket.Event :=
  map (fun h => Socket.connection h.1 userId h.2) handles.

(** The single-session property as the specification words it: after the
    registrations [handles] of one identity, the registry binds the
    identity to one handle and every earlier handle has been closed. *)
Definition prior_handles_closed (st : Socket.State) (userId : ObjectId)
    (handles : list Socket.SocketId) : Prop :=
  Socket.connectedUsers st !! userId = last handles
  ∧ ∀ h, h ∈ removelast handles → Socket.sockets st !! h = None.

(* ===================================================================== *)
(** ** A small deployment used by the concrete statements                 *)
(* ===================================================================== *)

Module Example.

Definition alice : ObjectId := "66a1f0000000000000000a01".
Definition bob   : ObjectId := "66a1f0000000000000000a02".
Definition carol : ObjectId := "66a1f0000000000000000a03".
Definition root  : ObjectId := "66a1f0000000000000000a04".

Definition general : ObjectId := "66a1f0000000000000000c01".
Definition staff   : ObjectId := "66a1f0000000000000000c02".

Definition m_hello   : ObjectId := "66a1f0000000000000000e01".
Definition m_flagged : ObjectId := "66a1f0000000000000000e02".
Definition m_deleted : ObjectId := "66a1f0000000000000000e03".
Definition m_staff   : ObjectId := "66a1f0000000000000000e04".
Definition m_new     : ObjectId := "66a1f0000000000000000e05".

(** 2024-07-25T08:00:00.000Z *)
Definition t0 : Date := 1721894400000.

Definition text_message (channelId userId : ObjectId) (body : string) (at_ : Date)
  : Message.t :=
  Message.create channelId userId (JS.of_ascii body) None Message.text at_.

(** alice and bob are plain users and plain members of the public channel
    [general]; carol moderates [general] and is the only member of the
    private channel [staff]; root is a global admin and member of no
    channel. *)
Definition db : Db :=
  {| users :=
       {[ alice := User.mk "alice" User.user None;
          bob := User.mk "bob" User.user None;
          carol := User.mk "carol" User.user None;
          root := User.mk "root" User.admin None ]};
     channels :=
       {[ general := Channel.mk "general" false;
          staff := Channel.mk "staff" true ]};
     channelMembers :=
       {[ (general, alice) := ChannelMember.mk ChannelMember.member true;
          (general, bob) := ChannelMember.mk ChannelMember.member true;
          (general, carol) := ChannelMember.mk ChannelMember.admin true;
          (staff, carol) := ChannelMember.mk ChannelMember.admin true ]};
     messages :=
       {[ m_hello := text_message general alice "hello" t0;
          m_flagged :=
            Message.set_flag Message.spam bob (t0 + 2000)
              (text_message general alice "buy now" (t0 + 1000));
          m_deleted :=
            Message.set_softDelete alice (t0 + 4000)
              (text_message general alice "oops" (t0 + 3000));
          m_staff := text_message staff carol "minutes" (t0 + 5000) ]} |}.

Definition s1 : Socket.SocketId := "Zx3kQ9aP1sVb7LmNAAAB".
Definition s2 : Socket.SocketId := "Q7dLr2TnX0uYc5WeAAAD".


(** alice replies in [general] to a message of [general]. *)
Definition reply_in_channel : MessageService.MessageData :=
  {| MessageService.channelId := general;
     MessageService.userId := alice;
     MessageService.content := JS.of_ascii "re: hello";
     MessageService.replyTo := Some m_hello;
     MessageService.messageType := None |}.


(** bob reads the first page of [general] with the default options. *)
Definition first_page : MessageService.ListOptions :=
  {| MessageService.o_page := None;
     MessageService.o_limit := None;
     MessageService.o_userId := bob |}.

(** bob searches [general] for "o" on an engine that matches any body. *)
Definition search_o : MessageService.SearchOptions :=
  {| MessageService.s_query := Some (JS.of_ascii "o");
     MessageService.s_page := None;
     MessageService.s_limit := None;
     MessageService.s_userId := bob |}.

Definition eleven_newlines : JS.jsstring :=
  JS.of_ascii "a" ++ repeat 10%N 11 ++ JS.of_ascii "b".

End Example.


From Stdlib Require Import Sorted.

(* ===================================================================== *)
(** ** middleware/contentModeration.js: the other filters and the chain    *)
(* ===================================================================== *)

Module Moderation.
Import Store.

(** [!process.env.X || process.env.X === 'false']: a filter is off when
    its variable is unset, empty or the string [false]. *)
Definition disabled (v : option string) : bool :=
  match v with
  | None => true
  | Some s => bool_decide (s = "") || bool_decide (s = "false")
  end.

Inductive Rejection : Type :=
| Profane        (* 'Message contains inappropriate content. ...' *)
| Cooldown       (* 'Please wait before sending another message to prevent spam.' *)
| Duplicate      (* 'Duplicate message detected. ...' *)
| BadLength (r : ContentModeration.Rejection)
| TooManyUrls.   (* 'Too many URLs in message. Please limit to 3 URLs per message.' *)

Inductive Outcome : Type :=
| Next
| Respond (status : Z) (error : Rejection).

(** What the filters read of the request. [paramsId] is [req.params.id],
    [bodyChannelId] is [req.body.channel_id]; [None] stands for a falsy
    value. *)
Record Req : Type := mkReq {
  userId : option ObjectId;
  paramsId : option ObjectId;
  bodyChannelId : option ObjectId;
  content : option JS.jsstring
}.

(** [Message.findOne(query)] only tested for a result. *)
Definition Message_exists (query : Message.t -> bool) (db : Db) : bool :=
  existsb (fun d : ObjectId * Message.t => query d.2) (map_to_list (messages db)).

(** [spamPrevention]; [enabled] is [SPAM_PREVENTION_ENABLED]. [cast] is
    what Mongoose makes of the [content] of the duplicate query before
    it is sent: the body as it is, or trimmed where the version in use
    runs the schema's setters on queries. *)
Definition spamPrevention (cast : JS.jsstring -> JS.jsstring)
    (enabled : option string) (now : Date) (req : Req) (db : Db)
  : Outcome :=
  if disabled enabled then Next
  else
    match userId req,
          match paramsId req with Some p => Some p | None => bodyChannelId req end with
    | Some userId, Some channelId =>
        (* Check for recent messages from the same user in the same channel *)
        if Message_exists (fun m =>
             bool_decide (Message.user_id m = userId)
             && bool_decide (Message.channel_id m = channelId)
             && (Message.created_at m >=? now - 5 * 60 * 1000)) db
        then Respond 429 Cooldown
        (* Check for duplicate content *)
        else if Message_exists (fun m =>
             bool_decide (Message.user_id m = userId)
             && bool_decide (Message.channel_id m = channelId)
             && bool_decide (Some (Message.content m) = cast <$> content req)
             && (Message.created_at m >=? now - 60 * 60 * 1000)) db
        then Respond 400 Duplicate
        else Next
    | _, _ => Next
    end.

Fixpoint strip_prefix (p s : JS.jsstring) : option JS.jsstring :=
  match p, s with
  | [], _ => Some s
  | a :: p', b :: s' => if (a =? b)%N then strip_prefix p' s' else None
  | _ :: _, [] => None
  end.

(** [:\/\/[^\s]+] at the head of [s]; [\s] is white space or a line
    terminator. *)
Definition after_scheme (s : JS.jsstring) : bool :=
  match strip_prefix (JS.of_ascii "://") s with
  | Some (c :: _) => negb (JS.isTrimmable c)
  | _ => false
  end.

(** [/(https?:\/\/[^\s]+)/] anchored at the head of [s]: the optional
    [s] is tried first and given up when the rest does not match. *)
Definition url_match_here (s : JS.jsstring) : bool :=
  match strip_prefix (JS.of_ascii "http") s with
  | Some (115%N :: r) => after_scheme r || after_scheme (115%N :: r)
  | Some r => after_scheme r
  | None => false
  end.

(** The number of matches [content.match(urlRegex)] returns with the [g]
    flag: a match runs to the next white space ([inside] is [true] while
    the scan is still within the last match), and the search resumes
    after it. *)
Fixpoint url_matches (inside : bool) (s : JS.jsstring) : nat :=
  match s with
  | [] => O
  | c :: r =>
      if inside
      then url_matches (negb (JS.isTrimmable c)) r
      else if url_match_here s then S (url_matches true r)
      else url_matches false r
  end.

(** [urlValidation] *)
Definition urlValidation (req : Req) : Outcome :=
  match content req with
  | None | Some [] => Next
  | Some content =>
      if (3 <? url_matches false content)%nat then Respond 400 TooManyUrls else Next
  end.

(** [contentLengthValidation], as a member of the chain. *)
Definition contentLengthValidation (req : Req) : Outcome :=
  match ContentModeration.contentLengthValidation (content req) with
  | ContentModeration.Next => Next
  | ContentModeration.Respond status r => Respond status (BadLength r)
  end.

Section Chain.

(** [filter.isProfane] of the [bad-words] package, taken as given. *)
Variable isProfane : JS.jsstring -> bool.

(** [profanityFilter]; [enabled] is [PROFANITY_FILTER_ENABLED]. *)
Definition profanityFilter (enabled : option string) (req : Req) : Outcome :=
  if disabled enabled then Next
  else
    match content req with
    | None | Some [] => Next
    | Some content => if isProfane content then Respond 400 Profane else Next
    end.

(** A middleware either answers or hands over to the next one. *)
Definition and_then (o : Outcome) (next : Outcome) : Outcome :=
  match o with
  | Next => next
  | Respond status error => Respond status error
  end.

(** [contentModeration = [profanityFilter, spamPrevention,
    contentLengthValidation, urlValidation]] *)
Definition contentModeration (cast : JS.jsstring -> JS.jsstring)
    (profanityEnabled spamEnabled : option string)
    (now : Date) (req : Req) (db : Db) : Outcome :=
  and_then (profanityFilter profanityEnabled req)
    (and_then (spamPrevention cast spamEnabled now req db)
       (and_then (contentLengthValidation req)
          (urlValidation req))).

End Chain.

End Moderation.

(* ===================================================================== *)
(** ** models/ChannelMember.js: the statics that write                    *)
(* ===================================================================== *)

Module ChannelMemberStatics.
Import Store Queries.

Definition with_channelMembers (cm : gmap (ObjectId * ObjectId) ChannelMember.t)
    (db : Db) : Db :=
  {| users := users db; channels := channels db;
     channelMembers := cm; messages := messages db |}.

(** [addMember(channelId, userId, role = 'member', invitedBy)]. Of the
    membership document the record keeps [role] and [is_active], the two
    fields the queries above read; [joined_at], [invited_by] and
    [last_activity], which [addMember] also writes, are outside it. *)
Definition addMember (channelId userId : ObjectId) (role : option ChannelMember.Role)
  : M ChannelMember.t :=
  let role := default ChannelMember.member role in
  fun db =>
    match channelMembers db !! (channelId, userId) with
    | Some existingMember =>
        (* Update existing member *)
        let updated := {| ChannelMember.role := role; ChannelMember.is_active := true |} in
        (with_channelMembers (<[(channelId, userId) := updated]> (channelMembers db)) db,
         Ok updated)
    | None =>
        (* Create new member *)
        let created := {| ChannelMember.role := role; ChannelMember.is_active := true |} in
        (with_channelMembers (<[(channelId, userId) := created]> (channelMembers db)) db,
         Ok created)
    end.

(** [removeMember]: [findOneAndDelete] returns the document it removed. *)
Definition removeMember (channelId userId : ObjectId) : M (option ChannelMember.t) :=
  fun db =>
    (with_channelMembers (delete (channelId, userId) (channelMembers db)) db,
     Ok (channelMembers db !! (channelId, userId))).

(** [getMemberCount]: [countDocuments({ channel_id, is_active: true })] *)
Definition getMemberCount (channelId : ObjectId) : M Z :=
  read (fun db =>
    Z.of_nat (size (filter (fun kv : (ObjectId * ObjectId) * ChannelMember.t =>
                              kv.1.1 = channelId ∧ ChannelMember.is_active kv.2 = true)
                           (channelMembers db)))).

End ChannelMemberStatics.

(* ===================================================================== *)
(** ** The moderation queue: getFlaggedMessages                           *)
(* ===================================================================== *)

Module Flagged.
Import Store Queries.

(** Dates as a sort key: a missing date sorts below every date. *)
Definition date_le (a b : option Date) : bool :=
  match a, b with
  | None, _ => true
  | Some _, None => false
  | Some x, Some y => x <=? y
  end.

Fixpoint insert_flagged_desc (d : Cursor.doc) (l : list Cursor.doc) : list Cursor.doc :=
  match l with
  | [] => [d]
  | x :: r =>
      if date_le (Message.flagged_at x.2) (Message.flagged_at d.2)
      then d :: l
      else x :: insert_flagged_desc d r
  end.

(** [.sort({ flagged_at: -1 })] *)
Definition sort_flagged_desc (l : list Cursor.doc) : list Cursor.doc :=
  foldr insert_flagged_desc [] l.

Definition in_queue (m : Message.t) : bool :=
  Message.is_flagged m && negb (Message.is_deleted m).

(** What [populate(path, 'username')] and [populate('channel_id',
    'name')] put in the place of an id: the selected field of the
    document referred to. *)
Record NamePreview : Type := mkNamePreview {
  np_id : ObjectId;
  np_name : string
}.

(** An entry of the queue: the document with its paths [user_id],
    [flagged_by] and [channel_id] populated, each [None] ([null]) when
    it refers to nothing that is stored; the other paths are those of
    [fd_doc]. *)
Record FlaggedDoc : Type := mkFlaggedDoc {
  fd_id : ObjectId;
  fd_doc : Message.t;
  fd_user_id : option NamePreview;
  fd_flagged_by : option NamePreview;
  fd_channel_id : option NamePreview
}.

Definition populate_username (db : Db) (userId : ObjectId) : option NamePreview :=
  (fun u => mkNamePreview userId (User.username u)) <$> users db !! userId.

Definition populate_channel_name (db : Db) (channelId : ObjectId) : option NamePreview :=
  (fun c => mkNamePreview channelId (Channel.name c)) <$> channels db !! channelId.

Definition populated_flagged (db : Db) (d : Cursor.doc) : FlaggedDoc :=
  {| fd_id := d.1; fd_doc := d.2;
     fd_user_id := populate_username db (Message.user_id d.2);
     fd_flagged_by :=
       match Message.flagged_by d.2 with
       | Some flaggedBy => populate_username db flaggedBy
       | None => None
       end;
     fd_channel_id := populate_channel_name db (Message.channel_id d.2) |}.

(** [messageSchema.statics.getFlaggedMessages(page = 1, limit = 20)] *)
Definition Message_getFlaggedMessages (page_ limit_ : option Z) : M (list FlaggedDoc) :=
  let page_ := default 1 page_ in
  let limit_ := default 20 limit_ in
  let skip_ := (page_ - 1) * limit_ in
  let* found := Cursor.find in_queue in
  let* skipped := Cursor.skip skip_ (sort_flagged_desc found) in
  read (fun db => map (populated_flagged db) (Cursor.limit limit_ skipped)).

Record FlaggedListing : Type := mkFlaggedListing {
  f_messages : list FlaggedDoc;
  f_pagination : MessageService.Pagination
}.

(** [messageService.getFlaggedMessages(options)] *)
Definition getFlaggedMessages (page_ limit_ : option Z) : M FlaggedListing :=
  let page_ := default 1 page_ in
  let limit_ := default 20 limit_ in
  let* found := Message_getFlaggedMessages (Some page_) (Some limit_) in
  let* total := Cursor.countDocuments in_queue in
  ret {| f_messages := found;
         f_pagination :=
           {| MessageService.pg_page := page_; MessageService.pg_limit := limit_;
              MessageService.pg_total := total;
              MessageService.pg_pages := MessageService.ceil_div total limit_ |} |}.

End Flagged.

(* ===================================================================== *)
(** ** routes/messages.js: the handlers written in the router             *)
(* ===================================================================== *)

Module MessageRoutes.
Import Store Queries.

(** The handler answers with a status, or throws into [asyncHandler]. *)
Inductive Response : Type :=
| Json (status : Z)
| Thrown (e : ServiceError).

(** [router.post('/channel/:id')], after its middleware. [channelId]
    is [req.params.id] and [reply_to] is [req.body.reply_to], both as
    sent; [ip] and [userAgent] are [req.ip] and
    [req.get('User-Agent')]. A query given a string that is no ObjectId
    throws. *)
Definition post_channel_message (newId : ObjectId) (now : Date)
    (reqUser : MessageController.ReqUser) (ip userAgent : option JS.jsstring)
    (channelId : string) (content : JS.jsstring) (reply_to : option string)
    (message_type : option Message.MessageType) (db : Db) : Db * Response :=
  let message_type := default Message.text message_type in
  (* Convert empty string reply_to to null *)
  let normalizedReplyTo := MessageService.truthy reply_to in
  (* Check if channel exists *)
  match ObjectIds.cast channelId with
  | None => (db, Thrown CastFailed)
  | Some channel_id =>
      match channels db !! channel_id with
      | None => (db, Json 404)
      | Some _ =>
          (* Check if user is member *)
          match isMember channel_id (MessageController.id reqUser) db with
          | (_, Ok true) =>
              (* Check if replying to a valid message *)
              let reply : Response + option ObjectId :=
                match normalizedReplyTo with
                | Some raw =>
                    match ObjectIds.cast raw with
                    | None => inl (Thrown CastFailed)
                    | Some replyId =>
                        match messages db !! replyId with
                        | None => inl (Json 400)
                        | Some replyMessage =>
                            if bool_decide
                                 (ObjectIds.toString (Message.channel_id replyMessage)
                                  = channelId)
                            then inr (Some replyId)
                            else inl (Json 400)
                        end
                    end
                | None => inr None
                end in
              match reply with
              | inl response => (db, response)
              | inr replyId =>
                  (* Create new message *)
                  match Message_save true now newId
                          (Message.set_metadata ip userAgent
                             (Message.create channel_id (MessageController.id reqUser)
                                content replyId message_type now)) db with
                  | (db', Ok _) => (db', Json 201)
                  | (_, Err e) => (db, Thrown e)
                  end
              end
          | _ => (db, Json 403)
          end
      end
  end.

(** [router.put('/:id')] (author only), after its middleware *)
Definition put_message (now : Date) (reqUser : MessageController.ReqUser)
    (paramsId : ObjectId) (content : JS.jsstring) (db : Db) : Db * Response :=
  match messages db !! paramsId with
  | None => (db, Json 404)
  | Some message =>
      if negb (bool_decide (Message.user_id message = MessageController.id reqUser))
      then (db, Json 403)
      else if Message.created_at message <? now - 5 * 60 * 1000
      then (db, Json 400)
      else
        match Message_save true now paramsId
                (Message.set_updated_at now (Message.set_content content message)) db with
        | (db', Ok _) => (db', Json 200)
        | (_, Err e) => (db, Thrown e)
        end
  end.

(** [router.delete('/:id')] (author or moderator only) *)
Definition delete_message (now : Date) (reqUser : MessageController.ReqUser)
    (paramsId : ObjectId) (db : Db) : Db * Response :=
  match messages db !! paramsId with
  | None => (db, Json 404)
  | Some message =>
      (* Check if user can delete the message *)
      let canDelete :=
        bool_decide (Message.user_id message = MessageController.id reqUser)
        || match MessageController.role reqUser with
           | User.moderator | User.admin => true
           | User.user => false
           end in
      if negb canDelete then (db, Json 403)
      else
        (* Soft delete the message *)
        match Message_save false now paramsId
                (Message.set_softDelete (MessageController.id reqUser) now message) db with
        | (db', Ok _) => (db', Json 200)
        | (_, Err e) => (db, Thrown e)
        end
  end.

End MessageRoutes.

(* ===================================================================== *)
(** ** The socket handlers update_message and flag_message                *)
(* ===================================================================== *)

Module SocketMessages.
Import Store Queries.

(** [update_message] *)
Definition on_update_message (socket : Socket.SocketId) (now : Date)
    (messageId : ObjectId) (content : JS.jsstring) (st : Socket.State)
  : Socket.State * Socket.Reply :=
  Socket.on_socket socket st (fun userId =>
    match messages (Socket.db st) !! messageId with
    | None => (st, Socket.ErrorEvent MessageNotFound)
    | Some message =>
        (* Check if user is the author *)
        if negb (bool_decide (Message.user_id message = userId))
        then (st, Socket.ErrorEvent EditOwnOnly)
        (* Check if message is too old (e.g., 5 minutes) *)
        else if Message.created_at message <? now - 5 * 60 * 1000
        then (st, Socket.ErrorEvent EditWindowPassed)
        else
          match Message_save true now messageId
                  (Message.set_updated_at now (Message.set_content content message))
                  (Socket.db st) with
          | (db', Ok _) => (Socket.with_db db' st, Socket.Handled)
          | (_, Err _) => (st, Socket.ErrorEvent HandlerFailed)
          end
    end).

(** [flag_message] answers 'Valid flag reason is required' before it
    looks at anything else; [reason] is [None] when the payload has no
    reason or one outside the enumeration. *)
Inductive FlagReply : Type :=
| ReasonRequired
| Replied (r : Socket.Reply).

Definition on_flag_message (socket : Socket.SocketId) (now : Date)
    (messageId : ObjectId) (reason : option Message.FlagReason) (st : Socket.State)
  : Socket.State * FlagReply :=
  match Socket.sockets st !! socket with
  | None => (st, Replied Socket.NoSuchSocket)
  | Some userId =>
      match reason with
      | None => (st, ReasonRequired)
      | Some reason =>
          match messages (Socket.db st) !! messageId with
          | None => (st, Replied (Socket.ErrorEvent MessageNotFound))
          | Some message =>
              (* Check if message is already flagged *)
              if Message.is_flagged message
              then (st, Replied (Socket.ErrorEvent AlreadyFlagged))
              else
                (* Flag the message *)
                match Message_save false now messageId
                        (Message.set_flag reason userId now message) (Socket.db st) with
                | (db', Ok _) => (Socket.with_db db' st, Replied Socket.Handled)
                | (_, Err _) => (st, Replied (Socket.ErrorEvent HandlerFailed))
                end
          end
      end
  end.

End SocketMessages.

(* ===================================================================== *)
(** ** Vocabulary of the further statements                               *)
(* ===================================================================== *)

(** The actor moderates the channel of the message, which exists. *)
Definition moderates_channel_of (db : Db) (m : Message.t) (userId : ObjectId) : Prop :=
  is_Some (channels db !! Message.channel_id m)
  ∧ active_member_at_least db (Message.channel_id m) userId ChannelMember.moderator.


(** The documents of the collection that satisfy a query. *)
Definition matching (query : Message.t -> bool) (db : Db) : list Cursor.doc :=
  List.filter (fun d : Cursor.doc => query d.2) (map_to_list (messages db)).

(** The query of [getChannelMessages]. *)
Definition in_channel_history (channelId : ObjectId) (m : Message.t) : bool :=
  bool_decide (Message.channel_id m = channelId) && negb (Message.is_deleted m).

(** No listed message is followed by a more recent one. *)
Definition newest_first (l : list Message.PublicInfo) : Prop :=
  StronglySorted (fun a b => Message.p_created_at b <= Message.p_created_at a) l.

(** What page [page_] of the history of a channel shows a reader, with
    [limit_] messages a page; nothing when the call throws. *)
Definition history_page (db : Db) (channelId userId : ObjectId) (limit_ : Z)
    (page_ : nat) : list Message.PublicInfo :=
  match MessageService.getChannelMessages channelId
          {| MessageService.o_page := Some (Z.of_nat page_);
             MessageService.o_limit := Some limit_;
             MessageService.o_userId := userId |} db with
  | (_, Ok listing) => MessageService.l_messages listing
  | (_, Err _) => []
  end.

(** All the messages of a channel that are not deleted, newest first. *)
Definition whole_history (db : Db) (channelId : ObjectId) : list Message.PublicInfo :=
  MessageService.publicInfos db
    (Cursor.sort_created_desc (matching (in_channel_history channelId) db)).

(** Every stored message has a body the schema accepts: not empty and
    of at most 2000 code units. *)
Definition contents_valid (db : Db) : Prop :=
  ∀ id m, messages db !! id = Some m →
          Message.content_valid (Message.content m) = true.

(** The reply target, when one is given, is a well-formed id of a stored
    message whose channel id is printed as the string [channelId]. *)
Definition reply_resolves (db : Db) (channelId : string) (replyTo : option string)
  : Prop :=
  match replyTo with
  | None => True
  | Some raw =>
      ∃ replyId rm, ObjectIds.cast raw = Some replyId
                    ∧ messages db !! replyId = Some rm
                    ∧ ObjectIds.toString (Message.channel_id rm) = channelId
  end.

(** The id a reply target is stored as. *)
Definition reply_id (replyTo : option string) : option ObjectId :=
  match replyTo with
  | None => None
  | Some raw => ObjectIds.cast raw
  end.

(** The number of code units of [s] that [\s] matches. *)
Definition white_space_count (s : JS.jsstring) : nat :=
  length (List.filter JS.isTrimmable s).

(** A word: code units none of which is white space, at least one. *)
Definition is_word (w : JS.jsstring) : Prop :=
  w ≠ [] ∧ Forall (fun c => JS.isTrimmable c = false) w.

(** The words, each behind [http://] and followed by one space. *)
Definition links (ws : list JS.jsstring) : JS.jsstring :=
  concat (map (fun w => JS.of_ascii "http://" ++ w ++ [32%N]) ws).

(** [userId] posted in [channelId] a message created no more than
    [window] milliseconds before [now]. *)
Definition posted_within (db : Db) (userId channelId : ObjectId) (now window : Z)
  : Prop :=
  ∃ id m, messages db !! id = Some m
          ∧ Message.user_id m = userId
          ∧ Message.channel_id m = channelId
          ∧ now - Message.created_at m <= window.

(** No listed document is followed by one flagged more recently. *)
Definition latest_flag_first (l : list Cursor.doc) : Prop :=
  StronglySorted (fun a b : Cursor.doc =>
    Flagged.date_le (Message.flagged_at b.2) (Message.flagged_at a.2) = true) l.

(** The stored document of an entry of the queue. *)
Definition stored_part (d : Flagged.FlaggedDoc) : Cursor.doc :=
  (Flagged.fd_id d, Flagged.fd_doc d).
(* ===================================================================== *)
(** ** ChannelMember.hasRole                                              *)
(* ===================================================================== *)

Ltac unfold_m :=
  unfold MessageService.sendMessage, MessageService.updateMessage,
    MessageService.deleteMessage, MessageService.flagMessage,
    MessageService.unflagMessage, MessageService.restoreMessage,
    MessageService.getMessageById,
    hasRole, isMember, getUserRole, ChannelMember_findOne_active,
    Message_findById, Channel_findById, User_findById, Message_save,
    casting, populate, throw_if, bind, read, ret, throw in *.

Lemma role_le_hierarchy (r1 r2 : ChannelMember.Role) :
  role_le r1 r2 ↔ ChannelMember.roleHierarchy r1 <= ChannelMember.roleHierarchy r2.
Proof.
  split.
  - intros [-> | H]; [lia | destruct H; simpl; lia].
  - destruct r1, r2; simpl; intros H; try lia;
      first [ left; reflexivity | right; constructor ].
Qed.

Lemma role_le_refl r : role_le r r.
Proof. by left. Qed.

Lemma role_le_trans r1 r2 r3 : role_le r1 r2 → role_le r2 r3 → role_le r1 r3.
Proof. rewrite !role_le_hierarchy. lia. Qed.

Lemma role_le_antisym r1 r2 : role_le r1 r2 → role_le r2 r1 → r1 = r2.
Proof. rewrite !role_le_hierarchy. destruct r1, r2; simpl; (reflexivity || lia). Qed.

Lemma role_le_total r1 r2 : role_le r1 r2 ∨ role_le r2 r1.
Proof. rewrite !role_le_hierarchy. lia. Qed.

Lemma hasRole_reads (db : Db) (channelId userId : ObjectId) (r : ChannelMember.Role) :
  hasRole channelId userId r db =
  (db, Ok match channelMembers db !! (channelId, userId) with
          | Some m =>
              ChannelMember.is_active m &&
              (ChannelMember.roleHierarchy (ChannelMember.role m)
                 >=? ChannelMember.roleHierarchy r)
          | None => false
          end).
Proof.
  unfold_m. destruct (channelMembers db !! (channelId, userId)) as [m|]; [|done].
  by destruct (ChannelMember.is_active m).
Qed.

Lemma hasRole_true_iff (db : Db) (channelId userId : ObjectId) (r : ChannelMember.Role) :
  hasRole channelId userId r db = (db, Ok true)
  ↔ active_member_at_least db channelId userId r.
Proof.
  rewrite hasRole_reads. unfold active_member_at_least. split.
  - destruct (channelMembers db !! (channelId, userId)) as [m|] eqn:Hm; [|done].
    intros [= H]. apply andb_true_iff in H as [Ha Hr].
    exists m. split_and!; [done | done |].
    apply role_le_hierarchy. lia.
  - intros (m & -> & Ha & Hr). apply role_le_hierarchy in Hr.
    rewrite Ha. simpl. do 2 f_equal. lia.
Qed.

(* ===================================================================== *)
(** ** Delete and restore                                                 *)
(* ===================================================================== *)

Lemma deleteMessage_absent (db : Db) (now : Date) (messageId userId : ObjectId) :
  messages db !! messageId = None →
  MessageService.deleteMessage now messageId userId db = (db, Err MessageNotFound).
Proof. intros Hm. unfold_m. by rewrite Hm. Qed.

Lemma hasRole_total (db : Db) (channelId userId : ObjectId) (r : ChannelMember.Role) :
  ∃ b, hasRole channelId userId r db = (db, Ok b).
Proof. rewrite hasRole_reads. by eexists. Qed.

Lemma deleteMessage_allowed (db : Db) (now : Date) (messageId userId : ObjectId)
    (m : Message.t) :
  messages db !! messageId = Some m →
  Message.user_id m = userId
  ∨ (is_Some (channels db !! Message.channel_id m)
     ∧ active_member_at_least db (Message.channel_id m) userId ChannelMember.moderator) →
  MessageService.deleteMessage now messageId userId db
  = (saved_as now messageId (Message.set_softDelete userId now m) db, Ok true).
Proof.
  intros Hm Hallowed.
  destruct (hasRole_total db (Message.channel_id m) userId ChannelMember.moderator)
    as [b Hb].
  unfold MessageService.deleteMessage.
  unfold bind at 1. unfold Message_findById, read. rewrite Hm.
  unfold bind at 1. unfold Channel_findById, read.
  destruct Hallowed as [Hauthor | [[ch Hch] Hact]].
  - rewrite bool_decide_true by done.
    destruct (channels db !! Message.channel_id m);
      [unfold bind at 1; rewrite Hb|]; by unfold_m.
  - rewrite Hch. unfold bind at 1.
    apply hasRole_true_iff in Hact. rewrite Hact.
    rewrite andb_false_r. by unfold_m.
Qed.

Lemma deleteMessage_refused (db : Db) (now : Date) (messageId userId : ObjectId)
    (m : Message.t) :
  messages db !! messageId = Some m →
  Message.user_id m ≠ userId →
  ¬ (is_Some (channels db !! Message.channel_id m)
     ∧ active_member_at_least db (Message.channel_id m) userId ChannelMember.moderator) →
  MessageService.deleteMessage now messageId userId db = (db, Err DeleteNotAllowed).
Proof.
  intros Hm Hauthor Hnot.
  destruct (hasRole_total db (Message.channel_id m) userId ChannelMember.moderator)
    as [b Hb].
  unfold MessageService.deleteMessage.
  unfold bind at 1. unfold Message_findById, read. rewrite Hm.
  unfold bind at 1. unfold Channel_findById, read.
  rewrite bool_decide_false by done.
  destruct (channels db !! Message.channel_id m) as [ch|] eqn:Hch.
  - unfold bind at 1. rewrite Hb. destruct b.
    + exfalso. apply Hnot. split; [by eexists|]. by apply hasRole_true_iff.
    + by unfold_m.
  - by unfold_m.
Qed.

(** A channel admin passes the moderator check of [deleteMessage]. *)
Lemma deleteMessage_channel_admin (db : Db) (now : Date) (messageId userId : ObjectId)
    (m : Message.t) :
  messages db !! messageId = Some m →
  is_Some (channels db !! Message.channel_id m) →
  active_member_at_least db (Message.channel_id m) userId ChannelMember.admin →
  MessageService.deleteMessage now messageId userId db
  = (saved_as now messageId (Message.set_softDelete userId now m) db, Ok true).
Proof.
  intros Hm Hch (cm & Hcm & Ha & Hr). eapply deleteMessage_allowed; [done|].
  right. split; [done|]. exists cm. split_and!; [done | done |].
  eapply role_le_trans; [|exact Hr]. right. constructor.
Qed.

(** C10. [ChannelMember.hasRole] always answers, without touching the
    store, and its answer is [true] exactly when the user is an active
    member of the channel whose role is at least [requiredRole] in the
    order member < moderator < admin. Hence a channel admin passes every
    check for moderator: [hasRole] for moderator answers [true], and
    [deleteMessage] lets the admin delete any message of the channel. *)
Theorem hasRole_exactly_role_at_least
    (db : Db) (channelId userId : ObjectId) (requiredRole : ChannelMember.Role) :
  (∃ b, hasRole channelId userId requiredRole db = (db, Ok b)
        ∧ (b = true ↔ active_member_at_least db channelId userId requiredRole))
  ∧ (active_member_at_least db channelId userId ChannelMember.admin →
     hasRole channelId userId ChannelMember.moderator db = (db, Ok true)
     ∧ ∀ now messageId m,
         messages db !! messageId = Some m →
         Message.channel_id m = channelId →
         is_Some (channels db !! channelId) →
         MessageService.deleteMessage now messageId userId db
         = (saved_as now messageId (Message.set_softDelete userId now m) db, Ok true)).
Proof.
  split.
  - pose proof (hasRole_true_iff db channelId userId requiredRole) as Hiff.
    rewrite hasRole_reads in *. eexists. split; [reflexivity|].
    rewrite <- Hiff. split; [by intros -> | by intros [= ->]].
  - intros Hadmin. split.
    + destruct Hadmin as (m & Hm & Ha & Hr). apply hasRole_true_iff.
      exists m. split_and!; [done | done |].
      eapply role_le_trans; [|exact Hr]. right. constructor.
    + intros now messageId m Hm <- Hch. by apply deleteMessage_channel_admin.
Qed.

Lemma hasRole_exactly_role_at_least_witness :
  hasRole Example.general Example.carol ChannelMember.moderator Example.db
  = (Example.db, Ok true)
  ∧ (MessageService.deleteMessage (Example.t0 + 60000) Example.m_hello Example.carol
       Example.db).2 = Ok true.
Proof.
  destruct (hasRole_exactly_role_at_least Example.db Example.general Example.carol
              ChannelMember.admin) as [_ Hadmin].
  destruct Hadmin as [Hmoderator Hdelete].
  - exists (ChannelMember.mk ChannelMember.admin true).
    split_and!; [by vm_compute | done | by left].
  - split; [exact Hmoderator|].
    rewrite (Hdelete (Example.t0 + 60000) Example.m_hello
               (Example.text_message Example.general Example.alice "hello" Example.t0));
      [reflexivity | by vm_compute | reflexivity
      | exists (Channel.mk "general" false); by vm_compute].
Defined.

Lemma restoreMessage_reads (db : Db) (now : Date) (messageId userId : ObjectId) :
  MessageService.restoreMessage now messageId userId db =
  match messages db !! messageId with
  | None => (db, Err MessageNotFound)
  | Some m =>
      if Message.is_deleted m
      then (saved_as now messageId (Message.set_restore m) db,
            Ok (Message.set_updated_at now (Message.set_restore m)))
      else (db, Err NotDeleted)
  end.
Proof.
  unfold_m. destruct (messages db !! messageId) as [m|]; [|done].
  by destruct (Message.is_deleted m).
Qed.

(** C2. In the store of [Example], root holds the global admin role and
    asks the service to delete alice's message: the service answers
    Forbidden and the store is unchanged, while the socket handler lets
    the same actor delete the same message. And bob, who is neither the
    author nor a moderator of any kind, restores alice's deleted message
    through the service. *)
Theorem deleteMessage_ignores_global_role :
  global_moderator Example.db Example.root
  ∧ MessageService.deleteMessage (Example.t0 + 60000) Example.m_hello Example.root
      Example.db
    = (Example.db, Err DeleteNotAllowed)
  ∧ kind DeleteNotAllowed = Forbidden
  ∧ (let st := (Socket.on_connection Example.s1 Example.root [] (Socket.init Example.db)).1 in
     let r := Socket.on_delete_message Example.s1 (Example.t0 + 60000) Example.m_hello st in
     r.2 = Socket.Handled
     ∧ Message.is_deleted <$> messages (Socket.db r.1) !! Example.m_hello = Some true)
  ∧ (let r := MessageService.restoreMessage (Example.t0 + 60000) Example.m_deleted
                Example.bob Example.db in
     (∃ restored, r.2 = Ok restored ∧ Message.is_deleted restored = false)
     ∧ Message.is_deleted <$> messages r.1 !! Example.m_deleted = Some false).
Proof.
  split_and!.
  - exists (User.mk "root" User.admin None). split; by vm_compute.
  - by vm_compute.
  - done.
  - cbv zeta. split; by vm_compute.
  - cbv zeta. split.
    + eexists. split; by vm_compute.
    + by vm_compute.
Qed.

(* ===================================================================== *)
(** ** Flag and unflag                                                    *)
(* ===================================================================== *)

Lemma flagMessage_reads (db : Db) (now : Date) (messageId : ObjectId)
    (reason : Message.FlagReason) (userId : ObjectId) :
  MessageService.flagMessage now messageId reason userId db =
  match messages db !! messageId with
  | None => (db, Err MessageNotFound)
  | Some m =>
      if Message.is_flagged m then (db, Err AlreadyFlagged)
      else (saved_as now messageId (Message.set_flag reason userId now m) db,
            Ok (Message.set_updated_at now (Message.set_flag reason userId now m)))
  end.
Proof.
  unfold_m. destruct (messages db !! messageId) as [m|]; [|done].
  by destruct (Message.is_flagged m).
Qed.

Lemma unflagMessage_reads (db : Db) (now : Date) (messageId : ObjectId) :
  MessageService.unflagMessage now messageId db =
  match messages db !! messageId with
  | None => (db, Err MessageNotFound)
  | Some m =>
      if Message.is_flagged m
      then (saved_as now messageId (Message.set_unflag m) db,
            Ok (Message.set_updated_at now (Message.set_unflag m)))
      else (db, Err NotFlagged)
  end.
Proof.
  unfold_m. destruct (messages db !! messageId) as [m|]; [|done].
  by destruct (Message.is_flagged m).
Qed.

(** The service operation takes no actor: it fails with NotFound on a
    missing message and with InvalidState on one that is not flagged. *)
Lemma unflagMessage_not_flagged (db : Db) (now : Date) (messageId : ObjectId)
    (m : Message.t) :
  messages db !! messageId = Some m → Message.is_flagged m = false →
  MessageService.unflagMessage now messageId db = (db, Err NotFlagged)
  ∧ kind NotFlagged = InvalidState.
Proof. intros Hm Hf. rewrite unflagMessage_reads, Hm, Hf. done. Qed.





(** C8. On a message that is not flagged, the first of two [Flag] calls
    returns and stores the message flagged with its reason, reporter and
    time; the second, whoever makes it and with whatever reason, fails
    with InvalidState and leaves the store as the first call left it. *)
Theorem flagMessage_twice
    (db : Db) (messageId : ObjectId) (m : Message.t)
    (now1 now2 : Date) (reason1 reason2 : Message.FlagReason)
    (reporter1 reporter2 : ObjectId) :
  messages db !! messageId = Some m →
  Message.is_flagged m = false →
  let first := MessageService.flagMessage now1 messageId reason1 reporter1 db in
  let second := MessageService.flagMessage now2 messageId reason2 reporter2 first.1 in
  (∃ flagged,
      first.2 = Ok flagged
      ∧ messages first.1 !! messageId = Some flagged
      ∧ flagged = Message.set_updated_at now1 (Message.set_flag reason1 reporter1 now1 m)
      ∧ Message.is_flagged flagged = true
      ∧ Message.flag_reason flagged = Some reason1
      ∧ Message.flagged_by flagged = Some reporter1
      ∧ Message.flagged_at flagged = Some now1)
  ∧ second = (first.1, Err AlreadyFlagged)
  ∧ kind AlreadyFlagged = InvalidState.
Proof.
  intros Hm Hf first second. subst first second.
  rewrite (flagMessage_reads db), Hm, Hf. simpl.
  split_and!.
  - eexists. split_and!; try done. unfold saved_as, with_messages. simpl.
    by rewrite lookup_insert_eq.
  - rewrite flagMessage_reads. unfold saved_as, with_messages. simpl.
    by rewrite lookup_insert_eq.
  - done.
Qed.

Lemma flagMessage_twice_witness :
  let first := MessageService.flagMessage (Example.t0 + 60000) Example.m_hello
                 Message.spam Example.bob Example.db in
  let second := MessageService.flagMessage (Example.t0 + 61000) Example.m_hello
                  Message.harassment Example.carol first.1 in
  (∃ flagged, first.2 = Ok flagged ∧ Message.flag_reason flagged = Some Message.spam)
  ∧ second = (first.1, Err AlreadyFlagged).
Proof.
  destruct (flagMessage_twice Example.db Example.m_hello
              (Example.text_message Example.general Example.alice "hello" Example.t0)
              (Example.t0 + 60000) (Example.t0 + 61000)
              Message.spam Message.harassment Example.bob Example.carol)
    as [(flagged & H1 & _ & _ & _ & H2 & _) [H3 _]].
  - by vm_compute.
  - reflexivity.
  - split; [exists flagged; split; assumption | exact H3].
Defined.

(* ===================================================================== *)
(** ** The edit window                                                    *)
(* ===================================================================== *)

Lemma updateMessage_reads (db : Db) (now : Date) (messageId : ObjectId)
    (content : JS.jsstring) (userId : ObjectId) :
  MessageService.updateMessage now messageId content userId db =
  match messages db !! messageId with
  | None => (db, Err MessageNotFound)
  | Some m =>
      if negb (bool_decide (Message.user_id m = userId)) then (db, Err EditOwnOnly)
      else if Message.created_at m <? now - 5 * 60 * 1000 then (db, Err EditWindowPassed)
      else if negb (Message.content_valid (JS.trim content))
      then (db, Err ValidationFailed)
      else (saved_as now messageId (Message.set_content content m) db,
            Ok (Message.set_updated_at now (Message.set_content content m)))
  end.
Proof.
  unfold_m. destruct (messages db !! messageId) as [m|]; [|done].
  destruct (bool_decide (Message.user_id m = userId)); simpl; [|done].
  destruct (Message.created_at m <? now - 5 * 60 * 1000); simpl; [done|].
  by destruct (Message.content_valid (JS.trim content)).
Qed.

(** A body the validation middleware lets through passes the validators
    of the schema. *)
Lemma validated_content_saves (content : JS.jsstring) :
  Validation.validateMessage_content (Some content) = None →
  Message.content_valid (JS.trim content) = true.
Proof.
  unfold Validation.validateMessage_content, Message.content_valid.
  destruct (length (JS.trim content) <? 1)%nat eqn:H1; [done|].
  destruct (2000 <? length (JS.trim content))%nat eqn:H2; [done|].
  intros _. apply Nat.ltb_ge in H1, H2.
  apply andb_true_iff. split.
  - apply negb_true_iff, Nat.eqb_neq. lia.
  - by apply Nat.leb_le.
Qed.

(** C3. For a message edited by its author with a body the validation
    middleware accepts, [Edit] fails with WindowExpired exactly when
    [now - createdAt] exceeds five minutes, and otherwise returns and
    stores the edited message; at createdAt + 4:59 it succeeds, at
    createdAt + 5:01 it fails with WindowExpired. *)
Theorem updateMessage_edit_window
    (db : Db) (now : Date) (messageId userId : ObjectId)
    (content : JS.jsstring) (m : Message.t) :
  messages db !! messageId = Some m →
  Message.user_id m = userId →
  Validation.validateMessage_content (Some content) = None →
  let edit := fun at_ => MessageService.updateMessage at_ messageId content userId db in
  let edited := fun at_ => Message.set_updated_at at_ (Message.set_content content m) in
  (failsWith (edit now) WindowExpired ↔ now - Message.created_at m > 5 * 60 * 1000)
  ∧ (now - Message.created_at m <= 5 * 60 * 1000 →
     edit now = (saved_as now messageId (Message.set_content content m) db,
                 Ok (edited now)))
  ∧ returns (edit (Message.created_at m + (4 * 60 + 59) * 1000))
            (edited (Message.created_at m + (4 * 60 + 59) * 1000))
  ∧ edit (Message.created_at m + (5 * 60 + 1) * 1000) = (db, Err EditWindowPassed).
Proof.
  intros Hm Hauthor Hvalid edit edited. subst edit edited.
  apply validated_content_saves in Hvalid.
  assert (Hrun : ∀ at_,
    MessageService.updateMessage at_ messageId content userId db =
    if Message.created_at m <? at_ - 5 * 60 * 1000 then (db, Err EditWindowPassed)
    else (saved_as at_ messageId (Message.set_content content m) db,
          Ok (Message.set_updated_at at_ (Message.set_content content m)))).
  { intros at_. rewrite updateMessage_reads, Hm, Hvalid.
    by rewrite bool_decide_true by done. }
  split_and!.
  - rewrite Hrun. unfold failsWith.
    destruct (Message.created_at m <? now - 5 * 60 * 1000) eqn:Hlt; simpl.
    + apply Z.ltb_lt in Hlt. split; [lia|]. intros _. by eexists.
    + apply Z.ltb_ge in Hlt. split; [|lia]. by intros (e & [=] & _).
  - intros Hin. rewrite Hrun.
    destruct (Message.created_at m <? now - 5 * 60 * 1000) eqn:Hlt; [|done].
    apply Z.ltb_lt in Hlt. lia.
  - unfold returns. rewrite Hrun.
    destruct (Message.created_at m
              <? Message.created_at m + (4 * 60 + 59) * 1000 - 5 * 60 * 1000) eqn:Hlt;
      [|done].
    apply Z.ltb_lt in Hlt. lia.
  - rewrite Hrun.
    destruct (Message.created_at m
              <? Message.created_at m + (5 * 60 + 1) * 1000 - 5 * 60 * 1000) eqn:Hlt;
      [done|].
    apply Z.ltb_ge in Hlt. lia.
Qed.

Lemma updateMessage_edit_window_witness :
  let edit := fun at_ =>
    MessageService.updateMessage at_ Example.m_hello (JS.of_ascii "hello, all")
      Example.alice Example.db in
  (∃ saved, (edit (Example.t0 + 299000)).2 = Ok saved
            ∧ Message.content saved = JS.of_ascii "hello, all")
  ∧ edit (Example.t0 + 301000) = (Example.db, Err EditWindowPassed).
Proof.
  destruct (updateMessage_edit_window Example.db Example.t0 Example.m_hello
              Example.alice (JS.of_ascii "hello, all")
              (Example.text_message Example.general Example.alice "hello" Example.t0))
    as (_ & _ & H459 & H501).
  - by vm_compute.
  - reflexivity.
  - by vm_compute.
  - split; [|exact H501].
    eexists. split; [exact H459 | by vm_compute].
Defined.

(* ===================================================================== *)
(** ** Reply integrity                                                    *)
(* ===================================================================== *)

Lemma isMember_reads (db : Db) (channelId userId : ObjectId) :
  isMember channelId userId db =
  (db, Ok match channelMembers db !! (channelId, userId) with
          | Some m => ChannelMember.is_active m
          | None => false
          end).
Proof.
  unfold_m. destruct (channelMembers db !! (channelId, userId)) as [m|]; [|done].
  by destruct (ChannelMember.is_active m).
Qed.

Lemma isMember_true_iff (db : Db) (channelId userId : ObjectId) :
  isMember channelId userId db = (db, Ok true)
  ↔ active_member_at_least db channelId userId ChannelMember.member.
Proof.
  rewrite isMember_reads. unfold active_member_at_least. split.
  - destruct (channelMembers db !! (channelId, userId)) as [m|]; [|done].
    intros [= Ha]. exists m. split_and!; [done | done |].
    apply role_le_hierarchy. destruct (ChannelMember.role m); simpl; lia.
  - intros (m & -> & -> & _). done.
Qed.

(** [sendMessage] read as one decision: the casts and the guards in the
    order of the code, then the reply check, then the save. *)
Lemma sendMessage_reads (db : Db) (newId : ObjectId) (now : Date)
    (d : MessageService.MessageData) :
  MessageService.sendMessage newId now d db =
  let store :=
    match Message.new_ (MessageService.channelId d) (MessageService.userId d)
            (MessageService.content d) (MessageService.replyTo d)
            (default Message.text (MessageService.messageType d)) now with
    | None => (db, Err ValidationFailed)
    | Some message =>
        if Message.content_valid (Message.content message)
        then (saved_as now newId message db,
              Ok (populated (saved_as now newId message db)
                    (newId, Message.set_updated_at now message)))
        else (db, Err ValidationFailed)
    end in
  let reply :=
    match MessageService.truthy (MessageService.replyTo d) with
    | None => store
    | Some raw =>
        match ObjectIds.cast raw with
        | None => (db, Err CastFailed)
        | Some replyId =>
            match messages db !! replyId with
            | None => (db, Err InvalidReplyMessage)
            | Some replyMessage =>
                if bool_decide (ObjectIds.toString (Message.channel_id replyMessage)
                                = MessageService.channelId d)
                then store
                else (db, Err InvalidReplyMessage)
            end
        end
    end in
  match ObjectIds.cast (MessageService.channelId d) with
  | None => (db, Err CastFailed)
  | Some channelId =>
      match channels db !! channelId with
      | None => (db, Err ChannelNotFound)
      | Some ch =>
          if Channel.is_private ch
          then match ObjectIds.cast (MessageService.userId d) with
               | None => (db, Err CastFailed)
               | Some userId =>
                   if match channelMembers db !! (channelId, userId) with
                      | Some m => ChannelMember.is_active m
                      | None => false
                      end
                   then reply
                   else (db, Err AccessDenied)
               end
          else reply
      end
  end.
Proof.
  cbv zeta. unfold MessageService.sendMessage.
  unfold bind at 1. unfold casting at 1, Channel_findById, read, throw.
  destruct (ObjectIds.cast (MessageService.channelId d)) as [c|] eqn:Hc; [|done].
  destruct (channels db !! c) as [ch|]; [|done].
  assert (Hrest :
    (match MessageService.truthy (MessageService.replyTo d) with
     | Some replyTo =>
         let* replyMessage := casting replyTo Message_findById in
         match replyMessage with
         | Some replyMessage =>
             throw_if (negb (bool_decide
                         (ObjectIds.toString (Message.channel_id replyMessage)
                          = MessageService.channelId d))) InvalidReplyMessage
         | None => throw InvalidReplyMessage
         end
     | None => ret ()
     end;;
     match Message.new_ (MessageService.channelId d) (MessageService.userId d)
             (MessageService.content d) (MessageService.replyTo d)
             (default Message.text (MessageService.messageType d)) now with
     | Some message =>
         let* saved := Message_save true now newId message in
         read (λ db0 : Db, populated db0 (newId, saved))
     | None => throw ValidationFailed
     end) db
    = match MessageService.truthy (MessageService.replyTo d) with
      | None =>
          match Message.new_ (MessageService.channelId d) (MessageService.userId d)
                  (MessageService.content d) (MessageService.replyTo d)
                  (default Message.text (MessageService.messageType d)) now with
          | None => (db, Err ValidationFailed)
          | Some message =>
              if Message.content_valid (Message.content message)
              then (saved_as now newId message db,
                    Ok (populated (saved_as now newId message db)
                          (newId, Message.set_updated_at now message)))
              else (db, Err ValidationFailed)
          end
      | Some raw =>
          match ObjectIds.cast raw with
          | None => (db, Err CastFailed)
          | Some replyId =>
              match messages db !! replyId with
              | None => (db, Err InvalidReplyMessage)
              | Some replyMessage =>
                  if bool_decide (ObjectIds.toString (Message.channel_id replyMessage)
                                  = MessageService.channelId d)
                  then
                    match Message.new_ (MessageService.channelId d)
                            (MessageService.userId d) (MessageService.content d)
                            (MessageService.replyTo d)
                            (default Message.text (MessageService.messageType d)) now with
                    | None => (db, Err ValidationFailed)
                    | Some message =>
                        if Message.content_valid (Message.content message)
                        then (saved_as now newId message db,
                              Ok (populated (saved_as now newId message db)
                                    (newId, Message.set_updated_at now message)))
                        else (db, Err ValidationFailed)
                    end
                  else (db, Err InvalidReplyMessage)
              end
          end
      end).
  { destruct (Message.new_ _ _ _ _ _ _) as [message|];
      destruct (MessageService.truthy (MessageService.replyTo d)) as [raw|];
      unfold_m;
      repeat match goal with
      | |- context [ObjectIds.cast raw] => destruct (ObjectIds.cast raw) as [replyId|]
      | |- context [messages db !! ?r] => destruct (messages db !! r) as [rm|]
      | |- context [bool_decide ?P] => destruct (bool_decide P)
      | |- context [Message.content_valid ?c] => destruct (Message.content_valid c)
      end; cbn; done. }
  destruct (Channel.is_private ch).
  - unfold bind at 1. unfold bind at 1. unfold casting at 1. rewrite Hc.
    unfold casting at 1, throw at 1.
    destruct (ObjectIds.cast (MessageService.userId d)) as [u|]; [|done].
    rewrite isMember_reads. unfold ret at 1.
    destruct (match channelMembers db !! (c, u) with
              | Some m => ChannelMember.is_active m
              | None => false
              end); cbn [negb].
    + unfold bind at 1. unfold throw_if at 1, ret at 1. exact Hrest.
    + done.
  - unfold bind at 1. unfold ret at 1.
    unfold bind at 1. unfold throw_if at 1, ret at 1. exact Hrest.
Qed.

(** The id strings of a message that is stored, the casts having
    succeeded. *)
Lemma Message_new_denoted (channelId userId : string) (c u : ObjectId)
    (content : JS.jsstring) (replyTo : option string)
    (ty : Message.MessageType) (now : Date) :
  denotes channelId c → denotes userId u →
  Message.new_ channelId userId content replyTo ty now
  = match replyTo with
    | None => Some (Message.create c u content None ty now)
    | Some raw =>
        (fun r => Message.create c u content (Some r) ty now) <$> ObjectIds.cast raw
    end.
Proof.
  unfold denotes, Message.new_. intros -> ->.
  destruct replyTo as [raw|]; [|done]. by destruct (ObjectIds.cast raw).
Qed.

Lemma truthy_Some (replyTo : string) :
  replyTo ≠ "" → MessageService.truthy (Some replyTo) = Some replyTo.
Proof. intros H. unfold MessageService.truthy. by rewrite bool_decide_false. Qed.





(* ===================================================================== *)
(** ** The length and repetition filter                                   *)
(* ===================================================================== *)

Lemma backref_run_split (c : N) (s : JS.jsstring) :
  s = repeat c (JS.backref_run c s) ++ drop (JS.backref_run c s) s.
Proof.
  induction s as [|x r IH]; [done|]. simpl.
  destruct (x =? c)%N eqn:Hx; [|done].
  apply N.eqb_eq in Hx as ->. simpl. by rewrite <- IH.
Qed.

Lemma backref_run_repeat (c : N) (n : nat) (post : JS.jsstring) :
  (n <= JS.backref_run c (repeat c n ++ post))%nat.
Proof.
  induction n as [|n IH]; simpl; [lia|].
  rewrite N.eqb_refl. lia.
Qed.

Lemma match_here_run (s : JS.jsstring) :
  JS.repeatedChars_match_here s = true
  ↔ ∃ c post, JS.isLineTerminator c = false ∧ s = repeat c 11 ++ post.
Proof.
  split.
  - destruct s as [|c r]; [done|]. unfold JS.repeatedChars_match_here.
    intros [Hlt Hrun]%andb_true_iff.
    apply negb_true_iff in Hlt. apply Nat.leb_le in Hrun.
    exists c, (repeat c (JS.backref_run c r - 10) ++ drop (JS.backref_run c r) r).
    split; [done|].
    rewrite (backref_run_split c r) at 1.
    replace (JS.backref_run c r) with (10 + (JS.backref_run c r - 10))%nat at 1 by lia.
    rewrite repeat_app, <- app_assoc. done.
  - intros (c & post & Hlt & ->).
    change (repeat c 11 ++ post) with (c :: (repeat c 10 ++ post)).
    unfold JS.repeatedChars_match_here. rewrite Hlt. simpl negb. rewrite andb_true_l.
    apply Nat.leb_le, backref_run_repeat.
Qed.

(** [/(.)\1{10,}/.test(s)] holds exactly when [s] contains eleven
    consecutive copies of a code unit that is not a line terminator. *)
Lemma repeatedChars_test_iff (s : JS.jsstring) :
  JS.repeatedChars_test s = true
  ↔ ∃ c, JS.isLineTerminator c = false ∧ has_run c 11 s.
Proof.
  unfold has_run. split.
  - induction s as [|x r IH].
    + simpl. done.
    + cbn [JS.repeatedChars_test]. intros [H | H]%orb_true_iff.
      * apply match_here_run in H as (c & post & Hlt & Hs).
        exists c. split; [done|]. by exists [], post.
      * destruct (IH H) as (c & Hlt & pre & post & ->).
        exists c. split; [done|]. by exists (x :: pre), post.
  - intros (c & Hlt & pre & post & ->).
    induction pre as [|x pre IH].
    + assert (Hm : JS.repeatedChars_match_here (repeat c 11 ++ post) = true)
        by (apply match_here_run; by exists c, post).
      change ([] ++ repeat c 11 ++ post) with (c :: (repeat c 10 ++ post)).
      change (repeat c 11 ++ post) with (c :: (repeat c 10 ++ post)) in Hm.
      cbn [JS.repeatedChars_test]. by rewrite Hm.
    + change ((x :: pre) ++ repeat c 11 ++ post)
        with (x :: (pre ++ repeat c 11 ++ post)).
      cbn [JS.repeatedChars_test]. rewrite IH. apply orb_true_r.
Qed.

(** C7, as the code has it. The filter answers 400 'too long' to every
    body of more than 2000 UTF-16 code units; to a body of at most 2000
    code units it answers 400 'repeated characters' exactly when the
    body holds eleven consecutive copies of one code unit that is not a
    line terminator; the two error kinds differ; every other body
    passes. *)
Theorem contentLengthValidation_rejects (content : JS.jsstring) :
  let check := ContentModeration.contentLengthValidation (Some content) in
  ((2000 < length content)%nat →
     check = ContentModeration.Respond 400 ContentModeration.TooLong)
  ∧ ((length content <= 2000)%nat →
     (check = ContentModeration.Respond 400 ContentModeration.RepeatedCharacters
      ↔ ∃ c, JS.isLineTerminator c = false ∧ has_run c 11 content))
  ∧ ContentModeration.TooLong ≠ ContentModeration.RepeatedCharacters
  ∧ (check = ContentModeration.Next
     ↔ (length content <= 2000)%nat
       ∧ ¬ ∃ c, JS.isLineTerminator c = false ∧ has_run c 11 content).
Proof.
  intros check. subst check.
  pose proof (repeatedChars_test_iff content) as Htest.
  assert (Hrun :
    ContentModeration.contentLengthValidation (Some content) =
    if (2000 <? length content)%nat
    then ContentModeration.Respond 400 ContentModeration.TooLong
    else if JS.repeatedChars_test content
    then ContentModeration.Respond 400 ContentModeration.RepeatedCharacters
    else ContentModeration.Next).
  { destruct content; done. }
  rewrite Hrun.
  destruct (2000 <? length content)%nat eqn:Hlen.
  - apply Nat.ltb_lt in Hlen. split_and!; [done | lia | done |].
    split; [done | lia].
  - apply Nat.ltb_ge in Hlen.
    destruct (JS.repeatedChars_test content).
    + split_and!; [lia | | done |].
      * intros _. split; [intros _; by apply Htest | done].
      * split; [done|]. intros [_ Hno]. destruct Hno. by apply Htest.
    + split_and!; [lia | | done |].
      * intros _. split; [done|]. intros H. by apply Htest in H.
      * split; [|done]. intros _. split; [done|]. intros H. by apply Htest in H.
Qed.

Lemma contentLengthValidation_rejects_witness :
  ContentModeration.contentLengthValidation (Some (repeat 97%N 2001))
  = ContentModeration.Respond 400 ContentModeration.TooLong
  ∧ ContentModeration.contentLengthValidation (Some (JS.of_ascii "nooooooooooo"))
    = ContentModeration.Respond 400 ContentModeration.RepeatedCharacters.
Proof.
  split.
  - destruct (contentLengthValidation_rejects (repeat 97%N 2001)) as (Hlong & _).
    apply Hlong. rewrite repeat_length. lia.
  - destruct (contentLengthValidation_rejects (JS.of_ascii "nooooooooooo"))
      as (_ & Hrepeated & _).
    apply Hrepeated.
    + simpl. lia.
    + exists 111%N. split; [reflexivity|]. by exists [110%N], [].
Defined.

(** C7, as it is worded, fails: a body holding eleven consecutive line
    feeds between two letters is within the length bound and contains a
    single character repeated eleven times, yet it passes the validation
    middleware and the filter. *)
Lemma contentLengthValidation_counterexample :
  has_run 10%N 11 Example.eleven_newlines
  ∧ Validation.validateMessage_content (Some Example.eleven_newlines) = None
  ∧ ContentModeration.contentLengthValidation (Some Example.eleven_newlines)
    = ContentModeration.Next.
Proof.
  split_and!.
  - by exists (JS.of_ascii "a"), (JS.of_ascii "b").
  - by vm_compute.
  - by vm_compute.
Qed.

(** A character outside the Basic Multilingual Plane is two code units:
    eleven copies of U+1F600, the surrogate pair D83D DE00, repeat no
    code unit and pass the filter as well. *)
Lemma contentLengthValidation_surrogate_pairs :
  ContentModeration.contentLengthValidation
    (Some (concat (repeat [55357; 56832]%N 11)))
  = ContentModeration.Next.
Proof. by vm_compute. Qed.

(* ===================================================================== *)
(** ** Listings and soft-deleted messages                                 *)
(* ===================================================================== *)

Lemma private_guard_total (db : Db) (ch : Channel.t) (channelId userId : ObjectId) :
  ∃ b, (if Channel.is_private ch
        then let* member := isMember channelId userId in ret (negb member)
        else ret false) db = (db, Ok b).
Proof.
  destruct (Channel.is_private ch); [|by eexists].
  unfold bind. rewrite isMember_reads. by eexists.
Qed.

Section Window.

Variable P : Cursor.doc → Prop.

Lemma insert_desc_Forall (d : Cursor.doc) (l : list Cursor.doc) :
  P d → Forall P l → Forall P (Cursor.insert_desc d l).
Proof.
  intros Hd Hl. induction Hl as [|x r Hx Hr IH]; simpl.
  - by constructor.
  - destruct (Message.created_at x.2 <=? Message.created_at d.2);
      repeat constructor; done.
Qed.

Lemma sort_created_desc_Forall (l : list Cursor.doc) :
  Forall P l → Forall P (Cursor.sort_created_desc l).
Proof.
  unfold Cursor.sort_created_desc.
  induction 1; simpl; [constructor | by apply insert_desc_Forall].
Qed.

Lemma limit_Forall (n : Z) (l : list Cursor.doc) :
  Forall P l → Forall P (Cursor.limit n l).
Proof. unfold Cursor.limit. destruct (n =? 0); [done | apply Forall_take]. Qed.

Lemma find_Forall (query : Message.t → bool) (db : Db) :
  (∀ d, query d.2 = true → P d) →
  Forall P (List.filter (fun d : Cursor.doc => query d.2) (map_to_list (messages db))).
Proof.
  intros Hq. apply Forall_forall. intros d Hd%list_elem_of_In%filter_In.
  apply Hq, Hd.
Qed.

(** A page of a query holds only documents that match the query. *)
Lemma page_Forall (query : Message.t → bool) (skip limit : Z) (db db' : Db)
    (page : list Cursor.doc) :
  (∀ d, query d.2 = true → P d) →
  (let* found := Cursor.find query in
   let* skipped := Cursor.skip skip (Cursor.sort_created_desc found) in
   ret (Cursor.limit limit skipped)) db = (db', Ok page) →
  Forall P page.
Proof.
  intros Hq. unfold Cursor.find, Cursor.skip. unfold_m.
  destruct (skip <? 0); [done|]. intros [= _ <-].
  by apply limit_Forall, Forall_drop, sort_created_desc_Forall, find_Forall.
Qed.

End Window.

Lemma publicInfos_not_deleted (db : Db) (page : list Cursor.doc) :
  Forall (fun d : Cursor.doc => Message.is_deleted d.2 = false) page →
  Forall (fun p => Message.p_is_deleted p = false) (MessageService.publicInfos db page).
Proof.
  unfold MessageService.publicInfos. intros H.
  apply Forall_map, Forall_map. eapply Forall_impl; [exact H|]. done.
Qed.

Lemma getChannelMessages_not_deleted (db db' : Db) (channelId : ObjectId)
    (options : MessageService.ListOptions) (listing : MessageService.Listing) :
  MessageService.getChannelMessages channelId options db = (db', Ok listing) →
  Forall (fun p => Message.p_is_deleted p = false) (MessageService.l_messages listing).
Proof.
  unfold MessageService.getChannelMessages.
  unfold bind at 1. unfold Channel_findById, read.
  destruct (channels db !! channelId) as [ch|]; [|done].
  destruct (private_guard_total db ch channelId (MessageService.o_userId options))
    as [b Hb].
  unfold bind at 1. rewrite Hb. destruct b; [done|].
  unfold bind at 1. unfold throw_if at 1, ret at 1.
  set (query := fun m : Message.t =>
         bool_decide (Message.channel_id m = channelId) && negb (Message.is_deleted m)).
  set (skip := (default 1 (MessageService.o_page options) - 1)
               * default 50 (MessageService.o_limit options)).
  set (limit := default 50 (MessageService.o_limit options)).
  pose proof (page_Forall (fun d => Message.is_deleted d.2 = false)
                query skip limit db) as Hpage.
  unfold Cursor.find, Cursor.skip, Cursor.countDocuments in *. unfold_m.
  destruct (skip <? 0); [done|]. intros [= _ <-]. simpl.
  apply (publicInfos_not_deleted db). eapply Hpage; [|done].
  intros d [_ Hd%negb_true_iff]%andb_true_iff. done.
Qed.

Lemma searchMessages_not_deleted (regexMatch : JS.jsstring → JS.jsstring → bool)
    (db db' : Db) (channelId : ObjectId)
    (options : MessageService.SearchOptions) (listing : MessageService.Listing) :
  MessageService.searchMessages regexMatch channelId options db = (db', Ok listing) →
  Forall (fun p => Message.p_is_deleted p = false) (MessageService.l_messages listing).
Proof.
  unfold MessageService.searchMessages.
  destruct (MessageService.s_query options) as [[|q0 q]|]; [done| |done].
  unfold bind at 1. unfold Channel_findById, read.
  destruct (channels db !! channelId) as [ch|]; [|done].
  destruct (private_guard_total db ch channelId (MessageService.s_userId options))
    as [b Hb].
  unfold bind at 1. rewrite Hb. destruct b; [done|].
  unfold bind at 1. unfold throw_if at 1, ret at 1.
  set (filter := fun m : Message.t =>
         bool_decide (Message.channel_id m = channelId)
         && regexMatch (q0 :: q) (Message.content m)
         && negb (Message.is_deleted m)).
  set (skip := (default 1 (MessageService.s_page options) - 1)
               * default 50 (MessageService.s_limit options)).
  set (limit := default 50 (MessageService.s_limit options)).
  pose proof (page_Forall (fun d => Message.is_deleted d.2 = false)
                filter skip limit db) as Hpage.
  unfold Cursor.find, Cursor.skip, Cursor.countDocuments in *. unfold_m.
  destruct (skip <? 0); [done|]. intros [= _ <-]. simpl.
  apply (publicInfos_not_deleted db). eapply Hpage; [|done].
  intros d [_ Hd%negb_true_iff]%andb_true_iff. done.
Qed.

(** The static of the model populates the page it found. *)
Lemma Cursor_getChannelMessages_not_deleted (db db' : Db) (channelId : ObjectId)
    (page limit : option Z) (docs : list Message.Populated) :
  Cursor.getChannelMessages channelId page limit db = (db', Ok docs) →
  Forall (fun d => Message.is_deleted (Message.pop_doc d) = false) docs.
Proof.
  unfold Cursor.getChannelMessages.
  set (query := fun m : Message.t =>
         bool_decide (Message.channel_id m = channelId) && negb (Message.is_deleted m)).
  set (skip := (default 1 page - 1) * default 50 limit).
  pose proof (page_Forall (fun d => Message.is_deleted d.2 = false)
                query skip (default 50 limit) db) as Hpage.
  unfold Cursor.find, Cursor.skip in *. unfold_m.
  destruct (skip <? 0); [done|]. intros [= _ <-].
  apply Forall_map. eapply Forall_impl; [eapply Hpage; [|done]|done].
  intros d [_ Hd%negb_true_iff]%andb_true_iff. done.
Qed.

(** The listing does return: on a channel the reader may read and from a
    page number of at least one with a limit that is not negative. *)
Lemma getChannelMessages_returns (db : Db) (channelId : ObjectId)
    (options : MessageService.ListOptions) :
  channel_open_to db channelId (MessageService.o_userId options) →
  1 <= default 1 (MessageService.o_page options) →
  0 <= default 50 (MessageService.o_limit options) →
  ∃ listing, MessageService.getChannelMessages channelId options db = (db, Ok listing).
Proof.
  intros (ch & Hch & Hmember) Hpage Hlimit.
  unfold MessageService.getChannelMessages.
  unfold bind at 1. unfold Channel_findById, read. rewrite Hch.
  assert (Hguard :
    (if Channel.is_private ch
     then let* member := isMember channelId (MessageService.o_userId options)
          in ret (negb member)
     else ret false) db = (db, Ok false)).
  { destruct (Channel.is_private ch); [|done].
    unfold bind. by rewrite (proj2 (isMember_true_iff _ _ _) (Hmember eq_refl)). }
  unfold bind at 1. rewrite Hguard.
  unfold Cursor.find, Cursor.skip, Cursor.countDocuments. unfold_m.
  destruct (_ <? 0) eqn:Hneg; [apply Z.ltb_lt in Hneg; nia|].
  by eexists.
Qed.

Lemma getMessageById_returns_deleted (db : Db) (messageId userId : ObjectId)
    (m : Message.t) (ch : Channel.t) :
  messages db !! messageId = Some m →
  channels db !! Message.channel_id m = Some ch →
  Channel.is_private ch = false →
  MessageService.getMessageById messageId userId db
  = (db, Ok (messageId, m, Some ch, populate_user_id db (Message.user_id m))).
Proof. intros Hm Hch Hp. unfold_m. by rewrite Hm, Hch, Hp. Qed.

(** C9. Whatever the store, the channel, the options and the regular
    expression engine, every message of a listing returned by
    [getChannelMessages] (the service operation and the static of the
    model) or by [searchMessages] has [is_deleted = false]; and
    [getMessageById] applies no such filter: it returns a message of a
    public channel whether soft-deleted or not. *)
Theorem listings_hide_soft_deleted (db : Db) :
  (∀ channelId options db' listing,
     MessageService.getChannelMessages channelId options db = (db', Ok listing) →
     Forall (fun p => Message.p_is_deleted p = false)
            (MessageService.l_messages listing))
  ∧ (∀ channelId page limit db' docs,
     Cursor.getChannelMessages channelId page limit db = (db', Ok docs) →
     Forall (fun d => Message.is_deleted (Message.pop_doc d) = false) docs)
  ∧ (∀ regexMatch channelId options db' listing,
     MessageService.searchMessages regexMatch channelId options db = (db', Ok listing) →
     Forall (fun p => Message.p_is_deleted p = false)
            (MessageService.l_messages listing))
  ∧ (∀ messageId userId m ch,
     messages db !! messageId = Some m →
     channels db !! Message.channel_id m = Some ch →
     Channel.is_private ch = false →
     MessageService.getMessageById messageId userId db
     = (db, Ok (messageId, m, Some ch, populate_user_id db (Message.user_id m)))).
Proof.
  split_and!.
  - intros. by eapply getChannelMessages_not_deleted.
  - intros. by eapply Cursor_getChannelMessages_not_deleted.
  - intros. by eapply searchMessages_not_deleted.
  - intros. by eapply getMessageById_returns_deleted.
Qed.

Lemma listings_hide_soft_deleted_witness :
  (∃ listing,
    MessageService.getChannelMessages Example.general Example.first_page Example.db
    = (Example.db, Ok listing)
    ∧ map Message.p_id (MessageService.l_messages listing)
      = [Example.m_flagged; Example.m_hello]
    ∧ Forall (fun p => Message.p_is_deleted p = false)
             (MessageService.l_messages listing))
  ∧ (∃ found,
      (MessageService.searchMessages (fun _ _ => true) Example.general
         Example.search_o Example.db).2 = Ok found
      ∧ Forall (fun p => Message.p_is_deleted p = false)
               (MessageService.l_messages found)).
Proof.
  destruct (listings_hide_soft_deleted Example.db) as (Hhistory & _ & Hsearch & _).
  split.
  - destruct (getChannelMessages_returns Example.db Example.general Example.first_page)
      as [listing Hlisting].
    + exists (Channel.mk "general" false). split; [by vm_compute | done].
    + by vm_compute.
    + by vm_compute.
    + exists listing. split; [exact Hlisting|]. split.
      * pose proof Hlisting as Hvalue. vm_compute in Hvalue.
        injection Hvalue as <-. by vm_compute.
      * exact (Hhistory _ _ _ _ Hlisting).
  - destruct (MessageService.searchMessages (fun _ _ => true) Example.general
                Example.search_o Example.db) as [db' [found|e]] eqn:Hfound.
    + exists found. split; [done|]. exact (Hsearch _ _ _ _ _ Hfound).
    + exfalso. vm_compute in Hfound. discriminate Hfound.
Defined.

(* ===================================================================== *)
(** ** Sessions: what a new connection does to an earlier one             *)
(* ===================================================================== *)

Lemma join_listed_fold_keeps (socket : Socket.SocketId) (userId : ObjectId)
    (l : list ObjectId) (st : Socket.State) :
  let st' := foldl (Socket.join_listed socket userId) st l in
  Socket.sockets st' = Socket.sockets st
  ∧ Socket.connectedUsers st' = Socket.connectedUsers st
  ∧ Socket.typingUsers st' = Socket.typingUsers st
  ∧ Socket.db st' = Socket.db st.
Proof.
  revert st. induction l as [|c l IH]; intros st; simpl; [done|].
  destruct (IH (Socket.join_listed socket userId st c)) as (-> & -> & -> & ->).
  done.
Qed.

Lemma on_connection_sockets (socket : Socket.SocketId) (userId : ObjectId)
    (l : list ObjectId) (st : Socket.State) :
  Socket.sockets (Socket.on_connection socket userId l st).1
  = <[socket := userId]> (Socket.sockets st).
Proof.
  unfold Socket.on_connection. cbn [fst].
  by destruct (join_listed_fold_keeps socket userId l
    {| Socket.db := Socket.db st;
       Socket.sockets := <[socket := userId]> (Socket.sockets st);
       Socket.rooms := Socket.rooms st;
       Socket.connectedUsers := <[userId := socket]> (Socket.connectedUsers st);
       Socket.userChannels := <[userId := ∅]> (Socket.userChannels st);
       Socket.typingUsers := Socket.typingUsers st |}) as (-> & _).
Qed.

Lemma on_connection_connectedUsers (socket : Socket.SocketId) (userId : ObjectId)
    (l : list ObjectId) (st : Socket.State) :
  Socket.connectedUsers (Socket.on_connection socket userId l st).1
  = <[userId := socket]> (Socket.connectedUsers st).
Proof.
  unfold Socket.on_connection. cbn [fst].
  by destruct (join_listed_fold_keeps socket userId l
    {| Socket.db := Socket.db st;
       Socket.sockets := <[socket := userId]> (Socket.sockets st);
       Socket.rooms := Socket.rooms st;
       Socket.connectedUsers := <[userId := socket]> (Socket.connectedUsers st);
       Socket.userChannels := <[userId := ∅]> (Socket.userChannels st);
       Socket.typingUsers := Socket.typingUsers st |}) as (_ & -> & _).
Qed.

Lemma run_app (st : Socket.State) (es1 es2 : list Socket.Event) :
  Socket.run st (es1 ++ es2) = Socket.run (Socket.run st es1) es2.
Proof. unfold Socket.run. apply foldl_app. Qed.

Lemma registrations_keep_open (userId : ObjectId)
    (handles : list (Socket.SocketId * list ObjectId))
    (st : Socket.State) (socket : Socket.SocketId) :
  Socket.sockets st !! socket = Some userId →
  Socket.sockets (Socket.run st (registrations userId handles)) !! socket = Some userId.
Proof.
  revert st. induction handles as [|[s l] handles IH]; intros st Hopen; [done|].
  apply IH. cbn [Socket.step fst snd]. rewrite on_connection_sockets.
  destruct (decide (s = socket)) as [->|Hne].
  - by rewrite lookup_insert_eq.
  - by rewrite lookup_insert_ne.
Qed.

Lemma registrations_all_open (userId : ObjectId)
    (handles : list (Socket.SocketId * list ObjectId)) (st : Socket.State) :
  ∀ h, h ∈ handles →
    Socket.sockets (Socket.run st (registrations userId handles)) !! h.1 = Some userId.
Proof.
  revert st. induction handles as [|[s l] handles IH]; intros st h Hin.
  - by apply elem_of_nil in Hin.
  - apply elem_of_cons in Hin as [-> | Hin].
    + apply (registrations_keep_open userId handles). cbn [Socket.step fst snd].
      rewrite on_connection_sockets. by rewrite lookup_insert_eq.
    + by apply (IH ((Socket.step st (Socket.connection s userId l)).1)).
Qed.

(** C4, as the code has it. After any number of registrations of one
    identity, the registry binds the identity to the handle registered
    last, and no handle registered before it has been closed: each one
    is still an open connection of that identity. *)
Theorem connection_rebinds_without_closing
    (st : Socket.State) (userId : ObjectId)
    (prior : list (Socket.SocketId * list ObjectId))
    (socket : Socket.SocketId) (userChannelsList : list ObjectId) :
  let st' := Socket.run st (registrations userId (prior ++ [(socket, userChannelsList)])) in
  Socket.connectedUsers st' !! userId = Some socket
  ∧ Socket.sockets st' !! socket = Some userId
  ∧ ∀ h, h ∈ prior → Socket.sockets st' !! h.1 = Some userId.
Proof.
  intros st'. subst st'. split_and!.
  - unfold registrations. rewrite map_app, run_app. cbn [map Socket.run foldl].
    cbn [Socket.step fst snd]. rewrite on_connection_connectedUsers.
    by rewrite lookup_insert_eq.
  - apply (registrations_all_open userId _ st (socket, userChannelsList)).
    apply elem_of_app. right. by apply list_elem_of_singleton.
  - intros h Hin. apply (registrations_all_open userId _ st h).
    apply elem_of_app. by left.
Qed.

Lemma connection_rebinds_without_closing_witness :
  let st' := Socket.run (Socket.init Example.db)
               [Socket.connection Example.s1 Example.alice [Example.general];
                Socket.connection Example.s2 Example.alice [Example.general]] in
  Socket.connectedUsers st' !! Example.alice = Some Example.s2
  ∧ Socket.sockets st' !! Example.s1 = Some Example.alice.
Proof.
  destruct (connection_rebinds_without_closing (Socket.init Example.db) Example.alice
              [(Example.s1, [Example.general])] Example.s2 [Example.general])
    as (Hbound & _ & Hopen).
  split; [exact Hbound|].
  apply (Hopen (Example.s1, [Example.general])). by apply list_elem_of_singleton.
Defined.

(** C4, as it is worded, fails: after alice registers a second
    connection, the first one has not been closed. *)
Lemma prior_handles_closed_counterexample :
  ¬ prior_handles_closed
      (Socket.run (Socket.init Example.db)
         [Socket.connection Example.s1 Example.alice [Example.general];
          Socket.connection Example.s2 Example.alice [Example.general]])
      Example.alice [Example.s1; Example.s2].
Proof.
  intros [_ Hclosed].
  specialize (Hclosed Example.s1).
  assert (Hin : Example.s1 ∈ removelast [Example.s1; Example.s2])
    by (by apply list_elem_of_singleton).
  apply Hclosed in Hin. by vm_compute in Hin.
Qed.

(* ===================================================================== *)
(** ** Typing entries and subscriptions                                   *)
(* ===================================================================== *)

Ltac decide_by_computation :=
  apply (bool_decide_unpack _); vm_compute; exact I.

Lemma typing_remove_elem (channelId userId : ObjectId)
    (t : gmap ObjectId (gset ObjectId)) (c u : ObjectId) :
  u ∈ typing_in (Socket.typing_remove channelId userId t) c →
  u ∈ typing_in t c ∧ (c = channelId → u ≠ userId).
Proof.
  unfold Socket.typing_remove.
  destruct (t !! channelId) as [users|] eqn:Ht.
  - destruct (decide (size (users ∖ {[userId]}) = 0%nat)) as [Hempty|Hne].
    + destruct (decide (c = channelId)) as [->|Hc].
      * rewrite lookup_delete_eq. simpl. set_solver.
      * rewrite lookup_delete_ne by done. intros H. split; [done|]. by intros ->.
    + destruct (decide (c = channelId)) as [->|Hc].
      * rewrite lookup_insert_eq, Ht. simpl.
        intros [H1 H2]%elem_of_difference. split; [done|].
        intros _ ->. apply H2. by apply elem_of_singleton.
      * rewrite lookup_insert_ne by done. intros H. split; [done|]. by intros ->.
  - intros H. split; [done|]. intros -> ->. rewrite Ht in H. simpl in H. set_solver.
Qed.

(** The shared block removes the user's entry for the channel. *)
Lemma typing_remove_removes (channelId userId : ObjectId)
    (t : gmap ObjectId (gset ObjectId)) :
  userId ∉ typing_in (Socket.typing_remove channelId userId t) channelId.
Proof. intros H. apply typing_remove_elem in H as [_ H]. by apply H. Qed.

Lemma typing_remove_fold_elem (userId : ObjectId) (l : list ObjectId)
    (t : gmap ObjectId (gset ObjectId)) (c u : ObjectId) :
  u ∈ typing_in (foldr (fun channelId t => Socket.typing_remove channelId userId t) t l) c →
  u ∈ typing_in t c ∧ (c ∈ l → u ≠ userId).
Proof.
  induction l as [|x l IH]; simpl.
  - intros H. split; [done|]. by intros ?%elem_of_nil.
  - intros [H1 H2]%typing_remove_elem. destruct (IH H1) as [H3 H4].
    split; [done|]. intros [-> | Hin]%elem_of_cons; auto.
Qed.

(** [typing_stop] removes the sender's entry for the channel. *)
Lemma typing_stop_removes (st : Socket.State) (socket : Socket.SocketId)
    (channelId userId : ObjectId) :
  Socket.sockets st !! socket = Some userId →
  userId ∉ typing_in (Socket.typingUsers (Socket.on_typing_stop socket channelId st).1)
                     channelId.
Proof.
  intros Hs. unfold Socket.on_typing_stop, Socket.on_socket. rewrite Hs.
  apply typing_remove_removes.
Qed.

(** A [new_message] that is stored removes the sender's entry. *)
Lemma new_message_removes (st : Socket.State) (socket : Socket.SocketId)
    (newId : ObjectId) (now : Date) (channelId userId : ObjectId)
    (content : JS.jsstring) (replyTo : option ObjectId) :
  Socket.sockets st !! socket = Some userId →
  (Socket.on_new_message socket newId now channelId content replyTo st).2
    = Socket.Handled →
  userId ∉ typing_in
    (Socket.typingUsers
       (Socket.on_new_message socket newId now channelId content replyTo st).1)
    channelId.
Proof.
  intros Hs. unfold Socket.on_new_message, Socket.on_socket. rewrite Hs.
  destruct (ObjectIds.cast channelId) as [c|]; [|done].
  destruct (channels (Socket.db st) !! c); [|done].
  rewrite isMember_reads.
  destruct (match channelMembers (Socket.db st) !! (c, userId) with
            | Some m => ChannelMember.is_active m | None => false end); [|done].
  destruct (match replyTo with
            | Some raw => Some <$> ObjectIds.cast raw
            | None => Some None
            end) as [r|]; [|done].
  destruct (Message_save _ _ _ _ _) as [db' [saved|e]]; [|done].
  intros _. apply typing_remove_removes.
Qed.

(** [disconnect] removes the user's entries for the channels the user is
    still subscribed to. *)
Lemma disconnect_removes (st : Socket.State) (socket : Socket.SocketId)
    (userId channelId : ObjectId) :
  Socket.sockets st !! socket = Some userId →
  channelId ∈ default ∅ (Socket.userChannels st !! userId) →
  userId ∉ typing_in (Socket.typingUsers (Socket.on_disconnect socket st).1) channelId.
Proof.
  intros Hs Hsub. unfold Socket.on_disconnect, Socket.on_socket. rewrite Hs.
  cbn [fst Socket.typingUsers].
  destruct (Socket.userChannels st !! userId) as [chans|]; [|set_solver].
  intros [_ H]%typing_remove_fold_elem. apply H; [|done]. by apply elem_of_elements.
Qed.

(** Every embedded handler other than [leave_channel] keeps the typing
    invariant, a [connection] doing so when the identity has no registry
    entry yet. *)
Lemma typing_subscribed_step (st : Socket.State) (e : Socket.Event) :
  Socket.typing_subscribed st →
  (∀ s c, e ≠ Socket.leave_channel s c) →
  (∀ s u l, e = Socket.connection s u l → Socket.userChannels st !! u = None) →
  Socket.typing_subscribed (Socket.step st e).1.
Proof.
  intros Hinv Hleave Hconn. unfold Socket.typing_subscribed in *.
  destruct e as [s u l | s c | s c | s c | s c | s i t c b r | s t m | s t m | s];
    cbn [Socket.step].
  - (* connection *)
    specialize (Hconn s u l eq_refl).
    unfold Socket.on_connection. cbn [fst].
    set (st1 := {| Socket.db := _ |}).
    assert (Hfold : ∀ l' st0,
      Socket.typingUsers st0 = Socket.typingUsers st →
      (∀ u', u' ≠ u → Socket.userChannels st0 !! u' = Socket.userChannels st !! u') →
      let st' := foldl (Socket.join_listed s u) st0 l' in
      Socket.typingUsers st' = Socket.typingUsers st
      ∧ ∀ u', u' ≠ u → Socket.userChannels st' !! u' = Socket.userChannels st !! u').
    { induction l' as [|c' l' IH]; intros st0 Ht Hu; simpl; [by eauto|].
      apply IH; [done|]. intros u' Hne. simpl.
      rewrite lookup_insert_ne by done. by apply Hu. }
    destruct (Hfold l st1) as [Ht Hu]; [done | |].
    { intros u' Hne. simpl. by rewrite lookup_insert_ne. }
    intros c' u' Hin. rewrite Ht in Hin. pose proof (Hinv c' u' Hin) as Hsub.
    destruct (decide (u' = u)) as [->|Hne].
    + rewrite Hconn in Hsub. set_solver.
    + by rewrite Hu.
  - (* join_channel *)
    unfold Socket.on_join_channel, Socket.on_socket.
    destruct (Socket.sockets st !! s); [|done].
    by destruct (channels (Socket.db st) !! c).
  - by destruct (Hleave s c).
  - (* typing_start *)
    unfold Socket.on_typing_start, Socket.on_socket.
    destruct (Socket.sockets st !! s) as [u|]; [|done].
    destruct (Socket.userChannels st !! u) as [chans|] eqn:Hu; [|done].
    destruct (decide (c ∈ chans)) as [Hc|Hc]; [|done].
    cbn [fst Socket.with_typingUsers Socket.typingUsers Socket.userChannels].
    intros c' u'. destruct (decide (c' = c)) as [->|Hne].
    + rewrite lookup_insert_eq. simpl.
      intros [->%elem_of_singleton | Hin]%elem_of_union.
      * by rewrite Hu.
      * by apply Hinv.
    + rewrite lookup_insert_ne by done. apply Hinv.
  - (* typing_stop *)
    unfold Socket.on_typing_stop, Socket.on_socket.
    destruct (Socket.sockets st !! s) as [u|]; [|done].
    cbn [fst Socket.with_typingUsers Socket.typingUsers Socket.userChannels].
    intros c' u' [Hin _]%typing_remove_elem. by apply Hinv.
  - (* new_message *)
    unfold Socket.on_new_message, Socket.on_socket.
    destruct (Socket.sockets st !! s) as [u|]; [|done].
    destruct (ObjectIds.cast c) as [c0|]; [|done].
    destruct (channels (Socket.db st) !! c0); [|done].
    destruct (isMember c0 u (Socket.db st)) as [? [[|]|?]]; [|done|done].
    destruct (match r with
              | Some raw => Some <$> ObjectIds.cast raw
              | None => Some None
              end) as [r0|]; [|done].
    destruct (Message_save _ _ _ _ _) as [db' [saved|?]]; [|done].
    cbn [fst Socket.with_typingUsers Socket.with_db Socket.typingUsers
         Socket.userChannels].
    intros c' u' [Hin _]%typing_remove_elem. by apply Hinv.
  - (* delete_message *)
    unfold Socket.on_delete_message, Socket.on_socket.
    destruct (Socket.sockets st !! s) as [u|]; [|done].
    destruct (messages (Socket.db st) !! m) as [msg|]; [|done].
    destruct (users (Socket.db st) !! u) as [usr|]; [|done].
    destruct (negb _ && negb _ && negb _); [done|].
    destruct (Message_save _ _ _ _ _) as [db' [saved|?]]; [|done].
    by destruct (channels (Socket.db st) !! Message.channel_id msg).
  - (* unflag_message *)
    unfold Socket.on_unflag_message, Socket.on_socket.
    destruct (Socket.sockets st !! s) as [u|]; [|done].
    destruct (users (Socket.db st) !! u) as [usr|]; [|done].
    destruct (negb (Socket.isGlobalModerator _)); [done|].
    destruct (messages (Socket.db st) !! m) as [msg|]; [|done].
    destruct (negb (Message.is_flagged msg)); [done|].
    by destruct (Message_save _ _ _ _ _) as [db' [saved|?]].
  - (* disconnect *)
    unfold Socket.on_disconnect, Socket.on_socket.
    destruct (Socket.sockets st !! s) as [u|]; [|done].
    cbn [fst Socket.typingUsers Socket.userChannels].
    intros c' u' Hin.
    assert (Hold : u' ∈ typing_in (Socket.typingUsers st) c'
                   ∧ (c' ∈ default ∅ (Socket.userChannels st !! u) → u' ≠ u)).
    { destruct (Socket.userChannels st !! u) as [chans|].
      - apply typing_remove_fold_elem in Hin as [H1 H2]. split; [done|].
        intros Hc. apply H2. by apply elem_of_elements.
      - split; [done|]. simpl. set_solver. }
    destruct Hold as [Hin' Hne]. pose proof (Hinv c' u' Hin') as Hsub.
    destruct (decide (u' = u)) as [->|Hdiff].
    + by destruct (Hne Hsub).
    + by rewrite lookup_delete_ne.
Qed.

(** C6. alice connects as a member of [general], starts typing there and
    leaves the channel: her typing entry stays although she holds no
    subscription any more, in the registry or in the transport's room;
    the typing invariant is broken, and her later disconnect does not
    remove the entry either. *)
Theorem leave_channel_keeps_typing_entry :
  let events := [Socket.connection Example.s1 Example.alice [Example.general];
                 Socket.typing_start Example.s1 Example.general;
                 Socket.leave_channel Example.s1 Example.general] in
  let st := Socket.run (Socket.init Example.db) events in
  let st' := Socket.run (Socket.init Example.db)
               (events ++ [Socket.disconnect Example.s1]) in
  Socket.typing_subscribed
    (Socket.run (Socket.init Example.db)
       [Socket.connection Example.s1 Example.alice [Example.general];
        Socket.typing_start Example.s1 Example.general])
  ∧ Example.alice ∈ default ∅ (Socket.typingUsers st !! Example.general)
  ∧ (Example.general ∉ default ∅ (Socket.userChannels st !! Example.alice))
  ∧ (Example.s1 ∉ default ∅ (Socket.rooms st !! Example.general))
  ∧ ¬ Socket.typing_subscribed st
  ∧ Example.alice ∈ default ∅ (Socket.typingUsers st' !! Example.general).
Proof.
  cbv zeta.
  assert (Htyping : Example.alice ∈ default ∅
            (Socket.typingUsers
               (Socket.run (Socket.init Example.db)
                  [Socket.connection Example.s1 Example.alice [Example.general];
                   Socket.typing_start Example.s1 Example.general;
                   Socket.leave_channel Example.s1 Example.general])
             !! Example.general)).
  { decide_by_computation. }
  assert (Hsub : Example.general ∉ default ∅
            (Socket.userChannels
               (Socket.run (Socket.init Example.db)
                  [Socket.connection Example.s1 Example.alice [Example.general];
                   Socket.typing_start Example.s1 Example.general;
                   Socket.leave_channel Example.s1 Example.general])
             !! Example.alice)).
  { decide_by_computation. }
  split_and!.
  - unfold Socket.run. cbn [foldl].
    apply typing_subscribed_step; [|done|done].
    apply typing_subscribed_step; [|done|done].
    intros c u Hin. simpl in Hin. set_solver.
  - exact Htyping.
  - exact Hsub.
  - decide_by_computation.
  - intros Hinv. apply Hsub. by apply Hinv.
  - decide_by_computation.
Qed.

(* ===================================================================== *)
(** ** What the socket handler [new_message] does not check               *)
(* ===================================================================== *)

(** [new_message] neither resolves [replyTo] nor runs the content
    filters: alice, connected and a member of [general], stores there a
    reply to a message of [staff], and a body the repetition filter
    rejects. *)
Lemma new_message_checks_nothing :
  let st := (Socket.on_connection Example.s1 Example.alice [Example.general]
               (Socket.init Example.db)).1 in
  (let r := Socket.on_new_message Example.s1 Example.m_new (Example.t0 + 60000)
              Example.general (JS.of_ascii "re: minutes") (Some Example.m_staff) st in
   r.2 = Socket.Handled
   ∧ Message.reply_to <$> messages (Socket.db r.1) !! Example.m_new
     = Some (Some Example.m_staff))
  ∧ (let r := Socket.on_new_message Example.s1 Example.m_new (Example.t0 + 60000)
                Example.general (JS.of_ascii "nooooooooooo") None st in
     r.2 = Socket.Handled
     ∧ Message.content <$> messages (Socket.db r.1) !! Example.m_new
       = Some (JS.of_ascii "nooooooooooo")).
Proof. cbv zeta. split_and!; by vm_compute. Qed.

(* ===================================================================== *)
(** * Further properties of the code                                      *)
(* ===================================================================== *)

(* ===================================================================== *)
(** ** The two state axes of a message                                    *)
(* ===================================================================== *)

Lemma saved_as_lookup (now : Date) (id : ObjectId) (m : Message.t) (db : Db) :
  messages (saved_as now id m db) !! id = Some (Message.set_updated_at now m).
Proof. unfold saved_as, with_messages. simpl. by rewrite lookup_insert_eq. Qed.

Lemma saved_as_lookup_ne (now : Date) (id id' : ObjectId) (m : Message.t) (db : Db) :
  id ≠ id' → messages (saved_as now id m db) !! id' = messages db !! id'.
Proof. intros Hne. unfold saved_as, with_messages. simpl. by rewrite lookup_insert_ne. Qed.

Lemma saved_as_channels (now : Date) (id : ObjectId) (m : Message.t) (db : Db) :
  channels (saved_as now id m db) = channels db
  ∧ channelMembers (saved_as now id m db) = channelMembers db
  ∧ users (saved_as now id m db) = users db.
Proof. done. Qed.

(** What [new Message] builds when the ids cast. *)
Lemma Message_new_inv (channelId userId : string) (content : JS.jsstring)
    (replyTo : option string) (ty : Message.MessageType) (now : Date)
    (message : Message.t) :
  Message.new_ channelId userId content replyTo ty now = Some message →
  ∃ c u, denotes channelId c ∧ denotes userId u
         ∧ message = Message.create c u content (reply_id replyTo) ty now
         ∧ (replyTo = None ∨ is_Some (reply_id replyTo)).
Proof.
  unfold Message.new_, denotes, reply_id.
  destruct (ObjectIds.cast channelId) as [c|]; [|done].
  destruct (ObjectIds.cast userId) as [u|]; [|done].
  destruct replyTo as [raw|].
  - destruct (ObjectIds.cast raw) as [r|]; [|done]. intros [= <-].
    exists c, u. split_and!; [done | done | done | by right].
  - intros [= <-]. exists c, u. split_and!; [done | done | done | by left].
Qed.

(** [sendMessage] either throws and leaves the store as it was, or
    stores the message it built, whose body the schema accepts. *)
Lemma sendMessage_outcome (db : Db) (newId : ObjectId) (now : Date)
    (d : MessageService.MessageData) :
  (∃ e, MessageService.sendMessage newId now d db = (db, Err e))
  ∨ ∃ message,
      Message.new_ (MessageService.channelId d) (MessageService.userId d)
        (MessageService.content d) (MessageService.replyTo d)
        (default Message.text (MessageService.messageType d)) now = Some message
      ∧ Message.content_valid (Message.content message) = true
      ∧ MessageService.sendMessage newId now d db
        = (saved_as now newId message db,
           Ok (populated (saved_as now newId message db)
                 (newId, Message.set_updated_at now message))).
Proof.
  rewrite sendMessage_reads. cbv zeta.
  destruct (Message.new_ _ _ _ _ _ _) as [message|] eqn:Hnew;
    [destruct (Message.content_valid (Message.content message)) eqn:Hvalid|];
    repeat match goal with
    | |- context [match ?x with _ => _ end] => destruct x
    end;
    try (left; by eexists);
    right; exists message; done.
Qed.

(** [sendMessage] past its two guards. *)
Lemma sendMessage_past_guards (db : Db) (newId : ObjectId) (now : Date)
    (d : MessageService.MessageData) (c u : ObjectId) :
  denotes (MessageService.channelId d) c →
  denotes (MessageService.userId d) u →
  channel_open_to db c u →
  MessageService.sendMessage newId now d db =
  let message :=
    Message.create c u (MessageService.content d)
      (reply_id (MessageService.replyTo d))
      (default Message.text (MessageService.messageType d)) now in
  let store :=
    if bool_decide (MessageService.replyTo d = None
                    ∨ is_Some (reply_id (MessageService.replyTo d)))
       && Message.content_valid (Message.content message)
    then (saved_as now newId message db,
          Ok (populated (saved_as now newId message db)
                (newId, Message.set_updated_at now message)))
    else (db, Err ValidationFailed) in
  match MessageService.truthy (MessageService.replyTo d) with
  | None => store
  | Some raw =>
      match ObjectIds.cast raw with
      | None => (db, Err CastFailed)
      | Some replyId =>
          match messages db !! replyId with
          | None => (db, Err InvalidReplyMessage)
          | Some replyMessage =>
              if bool_decide (ObjectIds.toString (Message.channel_id replyMessage)
                              = MessageService.channelId d)
              then store
              else (db, Err InvalidReplyMessage)
          end
      end
  end.
Proof.
  intros Hc Hu (ch & Hch & Hmember).
  rewrite sendMessage_reads. cbv zeta.
  rewrite (Message_new_denoted _ _ c u) by done.
  unfold denotes in Hc, Hu. rewrite Hc, Hch.
  assert (Hstore :
    match
      match MessageService.replyTo d with
      | Some raw =>
          (fun r => Message.create c u (MessageService.content d) (Some r)
                      (default Message.text (MessageService.messageType d)) now)
            <$> ObjectIds.cast raw
      | None =>
          Some (Message.create c u (MessageService.content d) None
                  (default Message.text (MessageService.messageType d)) now)
      end
    with
    | Some message =>
        if Message.content_valid (Message.content message)
        then (saved_as now newId message db,
              Ok (populated (saved_as now newId message db)
                    (newId, Message.set_updated_at now message)))
        else (db, Err ValidationFailed)
    | None => (db, Err ValidationFailed)
    end
    = if bool_decide (MessageService.replyTo d = None
                      ∨ is_Some (reply_id (MessageService.replyTo d)))
         && Message.content_valid
              (Message.content
                 (Message.create c u (MessageService.content d)
                    (reply_id (MessageService.replyTo d))
                    (default Message.text (MessageService.messageType d)) now))
      then (saved_as now newId
              (Message.create c u (MessageService.content d)
                 (reply_id (MessageService.replyTo d))
                 (default Message.text (MessageService.messageType d)) now) db,
            Ok (populated
                  (saved_as now newId
                     (Message.create c u (MessageService.content d)
                        (reply_id (MessageService.replyTo d))
                        (default Message.text (MessageService.messageType d)) now) db)
                  (newId,
                   Message.set_updated_at now
                     (Message.create c u (MessageService.content d)
                        (reply_id (MessageService.replyTo d))
                        (default Message.text (MessageService.messageType d)) now))))
      else (db, Err ValidationFailed)).
  { unfold reply_id. destruct (MessageService.replyTo d) as [raw|].
    - destruct (ObjectIds.cast raw) as [r|]; cbn [fmap option_fmap option_map].
      + rewrite bool_decide_true by (right; by eexists). done.
      + rewrite bool_decide_false; [done|]. intros [|[? ?]]; done.
    - rewrite bool_decide_true by (by left). done. }
  rewrite Hstore. clear Hstore.
  destruct (Channel.is_private ch); [|done].
  destruct (Hmember eq_refl) as (cm & Hcm & Hactive & _).
  by rewrite Hu, Hcm, Hactive.
Qed.

(** X1. Flagging and soft deletion act on separate fields and each has
    an inverse: on a message that is neither flagged nor deleted, flag,
    delete (by the author), unflag and restore all succeed in this
    order; after the second step the message is flagged and deleted at
    once; after the last one it is stored as it was at the start, up to
    [updated_at] and with the flag and deletion fields cleared. *)
Theorem flag_delete_unflag_restore
    (db : Db) (messageId : ObjectId) (m : Message.t)
    (t1 t2 t3 t4 : Date) (reason : Message.FlagReason) (reporter actor : ObjectId) :
  messages db !! messageId = Some m →
  Message.is_flagged m = false →
  Message.is_deleted m = false →
  let author := Message.user_id m in
  let s1 := MessageService.flagMessage t1 messageId reason reporter db in
  let s2 := MessageService.deleteMessage t2 messageId author s1.1 in
  let s3 := MessageService.unflagMessage t3 messageId s2.1 in
  let s4 := MessageService.restoreMessage t4 messageId actor s3.1 in
  (∃ a, s1.2 = Ok a) ∧ s2.2 = Ok true ∧ (∃ c, s3.2 = Ok c) ∧ (∃ d, s4.2 = Ok d)
  ∧ (∃ both, messages s2.1 !! messageId = Some both
             ∧ Message.is_flagged both = true ∧ Message.is_deleted both = true
             ∧ Message.flag_reason both = Some reason
             ∧ Message.deleted_by both = Some author
             ∧ Message.content both = Message.content m)
  ∧ messages s4.1 !! messageId
    = Some (Message.set_updated_at t4 (Message.set_restore (Message.set_unflag m)))
  ∧ (∀ other, other ≠ messageId → messages s4.1 !! other = messages db !! other).
Proof.
  intros Hm Hf Hd author s1 s2 s3 s4. subst author s1 s2 s3 s4.
  rewrite (flagMessage_reads db), Hm, Hf. cbn [fst snd].
  set (m1 := Message.set_flag reason reporter t1 m).
  set (db1 := saved_as t1 messageId m1 db).
  assert (H1 : messages db1 !! messageId = Some (Message.set_updated_at t1 m1))
    by apply saved_as_lookup.
  rewrite (deleteMessage_allowed db1 t2 messageId (Message.user_id m)
             (Message.set_updated_at t1 m1) H1 (or_introl eq_refl)).
  cbn [fst snd].
  set (m2 := Message.set_softDelete (Message.user_id m) t2 (Message.set_updated_at t1 m1)).
  set (db2 := saved_as t2 messageId m2 db1).
  assert (H2 : messages db2 !! messageId = Some (Message.set_updated_at t2 m2))
    by apply saved_as_lookup.
  rewrite (unflagMessage_reads db2), H2. cbn [fst snd].
  change (Message.is_flagged (Message.set_updated_at t2 m2)) with true. cbn [fst snd].
  set (m3 := Message.set_unflag (Message.set_updated_at t2 m2)).
  set (db3 := saved_as t3 messageId m3 db2).
  assert (H3 : messages db3 !! messageId = Some (Message.set_updated_at t3 m3))
    by apply saved_as_lookup.
  rewrite (restoreMessage_reads db3), H3.
  change (Message.is_deleted (Message.set_updated_at t3 m3)) with true. cbn [fst snd].
  split_and!; try (by eexists); try (by rewrite saved_as_lookup).
  intros other Hne. subst db3 db2 db1. by rewrite !saved_as_lookup_ne.
Qed.

Lemma flag_delete_unflag_restore_witness :
  let s1 := MessageService.flagMessage (Example.t0 + 1000) Example.m_hello
              Message.other Example.bob Example.db in
  let s2 := MessageService.deleteMessage (Example.t0 + 2000) Example.m_hello
              Example.alice s1.1 in
  let s3 := MessageService.unflagMessage (Example.t0 + 3000) Example.m_hello s2.1 in
  let s4 := MessageService.restoreMessage (Example.t0 + 4000) Example.m_hello
              Example.bob s3.1 in
  messages s4.1 !! Example.m_hello
  = Some (Message.set_updated_at (Example.t0 + 4000)
            (Example.text_message Example.general Example.alice "hello" Example.t0)).
Proof.
  destruct (flag_delete_unflag_restore Example.db Example.m_hello
              (Example.text_message Example.general Example.alice "hello" Example.t0)
              (Example.t0 + 1000) (Example.t0 + 2000) (Example.t0 + 3000)
              (Example.t0 + 4000) Message.other Example.bob Example.bob)
    as (_ & _ & _ & _ & _ & Hback & _).
  - by vm_compute.
  - reflexivity.
  - reflexivity.
  - exact Hback.
Defined.

(* ===================================================================== *)
(** ** Editing                                                            *)
(* ===================================================================== *)

(** X2. [updateMessage] leaves the store untouched whenever it throws;
    a missing message gives NotFound and a foreign one Forbidden,
    whatever the age of the message and the new body; and when it
    returns, the caller is the author and the stored message differs
    from the old one in [content] (the new body, trimmed) and
    [updated_at] only: creation time, flag state and deletion state are
    kept, so that a soft-deleted message is edited like any other. *)
Theorem updateMessage_outcomes
    (db : Db) (now : Date) (messageId userId : ObjectId) (content : JS.jsstring) :
  let call := MessageService.updateMessage now messageId content userId db in
  (∀ e, call.2 = Err e → call.1 = db)
  ∧ (messages db !! messageId = None → call.2 = Err MessageNotFound)
  ∧ (∀ m, messages db !! messageId = Some m → Message.user_id m ≠ userId →
          call.2 = Err EditOwnOnly)
  ∧ (∀ saved, call.2 = Ok saved →
       ∃ m, messages db !! messageId = Some m
            ∧ Message.user_id m = userId
            ∧ saved = Message.set_updated_at now (Message.set_content content m)
            ∧ Message.content saved = JS.trim content
            ∧ Message.created_at saved = Message.created_at m
            ∧ Message.is_deleted saved = Message.is_deleted m
            ∧ Message.is_flagged saved = Message.is_flagged m
            ∧ messages call.1 = <[messageId := saved]> (messages db)).
Proof.
  intros call. subst call. rewrite updateMessage_reads.
  destruct (messages db !! messageId) as [m|] eqn:Hm.
  - destruct (bool_decide (Message.user_id m = userId)) eqn:Hauthor; cbn [negb].
    + apply bool_decide_eq_true in Hauthor.
      destruct (Message.created_at m <? now - 5 * 60 * 1000).
      { split_and!; [done | done | by intros ? [= <-] | done]. }
      destruct (Message.content_valid (JS.trim content)); cbn [negb].
      * split_and!; [done | done | by intros ? [= <-] |].
        intros saved [= <-]. exists m. by split_and!.
      * split_and!; [done | done | by intros ? [= <-] | done].
    + split_and!; [done | done | done | done].
  - split_and!; done.
Qed.

Lemma updateMessage_outcomes_witness :
  ∃ saved,
    (MessageService.updateMessage (Example.t0 + 5000) Example.m_deleted
       (JS.of_ascii " fixed ") Example.alice Example.db).2 = Ok saved
    ∧ Message.content saved = JS.of_ascii "fixed"
    ∧ Message.is_deleted saved = true.
Proof.
  destruct (updateMessage_outcomes Example.db (Example.t0 + 5000) Example.m_deleted
              Example.alice (JS.of_ascii " fixed ")) as (_ & _ & _ & Hsaved).
  destruct (MessageService.updateMessage (Example.t0 + 5000) Example.m_deleted
              (JS.of_ascii " fixed ") Example.alice Example.db) as [db' [saved|e]] eqn:Hcall.
  - exists saved. split; [done|].
    destruct (Hsaved saved eq_refl) as (m & Hm & _ & _ & Hc & _ & Hd & _).
    split; [exact Hc|]. rewrite Hd.
    vm_compute in Hm. by injection Hm as <-.
  - exfalso. vm_compute in Hcall. discriminate Hcall.
Defined.

(* ===================================================================== *)
(** ** Who may delete: the service, the route and the socket handler      *)
(* ===================================================================== *)

Lemma moderates_channel_of_dec (db : Db) (m : Message.t) (userId : ObjectId) :
  moderates_channel_of db m userId ∨ ¬ moderates_channel_of db m userId.
Proof.
  unfold moderates_channel_of.
  destruct (channels db !! Message.channel_id m) as [ch|];
    [|right; by intros [[? [=]] _]].
  destruct (hasRole_total db (Message.channel_id m) userId ChannelMember.moderator)
    as [[|] Hb].
  - left. split; [by eexists | by apply hasRole_true_iff].
  - right. intros [_ H]. apply hasRole_true_iff in H. congruence.
Qed.

(** X3. The service deletes a message that exists exactly for its author
    and for an active moderator or admin of its (existing) channel; it
    then stores the message soft-deleted by the actor with its content
    kept, and otherwise throws Forbidden and changes nothing. The global
    role of the actor plays no part. *)
Theorem deleteMessage_decision
    (db : Db) (now : Date) (messageId userId : ObjectId) (m : Message.t) :
  messages db !! messageId = Some m →
  let call := MessageService.deleteMessage now messageId userId db in
  let allowed := Message.user_id m = userId ∨ moderates_channel_of db m userId in
  (call.2 = Ok true ↔ allowed)
  ∧ (allowed →
     call.1 = saved_as now messageId (Message.set_softDelete userId now m) db
     ∧ ∃ stored, messages call.1 !! messageId = Some stored
                 ∧ Message.is_deleted stored = true
                 ∧ Message.deleted_by stored = Some userId
                 ∧ Message.deleted_at stored = Some now
                 ∧ Message.content stored = Message.content m)
  ∧ (¬ allowed → call = (db, Err DeleteNotAllowed)).
Proof.
  intros Hm call allowed. subst call allowed.
  destruct (decide (Message.user_id m = userId)) as [Hauthor|Hauthor];
    [|destruct (moderates_channel_of_dec db m userId) as [Hmod|Hmod]].
  - rewrite (deleteMessage_allowed db now messageId userId m Hm (or_introl Hauthor)).
    cbn [fst snd].
    split_and!; [by split; [left|] | | by intros []; left].
    intros _. split; [done|]. eexists. by rewrite saved_as_lookup.
  - rewrite (deleteMessage_allowed db now messageId userId m Hm (or_intror Hmod)).
    cbn [fst snd].
    split_and!; [by split; [right|] | | by intros []; right].
    intros _. split; [done|]. eexists. by rewrite saved_as_lookup.
  - rewrite (deleteMessage_refused db now messageId userId m Hm Hauthor Hmod).
    split_and!; [split; [done | by intros [|]] | by intros [|] | done].
Qed.

Lemma deleteMessage_decision_witness :
  (MessageService.deleteMessage (Example.t0 + 9000) Example.m_hello Example.carol
     Example.db).2 = Ok true
  ∧ MessageService.deleteMessage (Example.t0 + 9000) Example.m_hello Example.bob
      Example.db = (Example.db, Err DeleteNotAllowed).
Proof.
  split.
  - apply (deleteMessage_decision Example.db (Example.t0 + 9000) Example.m_hello
             Example.carol
             (Example.text_message Example.general Example.alice "hello" Example.t0)).
    + by vm_compute.
    + right. split; [exists (Channel.mk "general" false); by vm_compute|].
      exists (ChannelMember.mk ChannelMember.admin true).
      split_and!; [by vm_compute | done | right; constructor].
  - apply (deleteMessage_decision Example.db (Example.t0 + 9000) Example.m_hello
             Example.bob
             (Example.text_message Example.general Example.alice "hello" Example.t0)).
    + by vm_compute.
    + intros [Hauthor | [_ (cm & Hcm & _ & Hrole)]].
      * by vm_compute in Hauthor.
      * vm_compute in Hcm. injection Hcm as <-.
        destruct Hrole as [Heq | Hlt]; [discriminate Heq | inversion Hlt].
Defined.

(** The decision of the route on a message that exists. *)
Lemma route_delete_decision_aux
    (db : Db) (now : Date) (reqUser : MessageController.ReqUser)
    (paramsId : ObjectId) (m : Message.t) :
  messages db !! paramsId = Some m →
  (MessageRoutes.delete_message now reqUser paramsId db).2 = MessageRoutes.Json 200
  ↔ Message.user_id m = MessageController.id reqUser
    ∨ MessageController.role reqUser ≠ User.user.
Proof.
  intros Hm. unfold MessageRoutes.delete_message. rewrite Hm.
  destruct (decide (Message.user_id m = MessageController.id reqUser)) as [Ha|Ha].
  - rewrite bool_decide_true by done. cbn. by split; [left|].
  - rewrite bool_decide_false by done.
    destruct (MessageController.role reqUser) eqn:Hrole; cbn.
    + split; [done | by intros [|]].
    + by split; [right|].
    + by split; [right|].
Qed.

(** X4. The route [DELETE /:id] deletes a message that exists exactly
    for its author and for a caller whose global role is moderator or
    admin, and answers 403 without touching the store otherwise: unlike
    the service it never consults the caller's role in the channel. *)
Theorem route_delete_decision
    (db : Db) (now : Date) (reqUser : MessageController.ReqUser)
    (paramsId : ObjectId) (m : Message.t) :
  messages db !! paramsId = Some m →
  let call := MessageRoutes.delete_message now reqUser paramsId db in
  let allowed := Message.user_id m = MessageController.id reqUser
                 ∨ MessageController.role reqUser ≠ User.user in
  (call.2 = MessageRoutes.Json 200 ↔ allowed)
  ∧ (allowed →
     call.1 = saved_as now paramsId
                (Message.set_softDelete (MessageController.id reqUser) now m) db)
  ∧ (¬ allowed → call = (db, MessageRoutes.Json 403)).
Proof.
  intros Hm call allowed. subst call allowed.
  unfold MessageRoutes.delete_message. rewrite Hm.
  destruct (decide (Message.user_id m = MessageController.id reqUser)) as [Ha|Ha].
  - rewrite bool_decide_true by done. cbn.
    split_and!; [by split; [left|] | done | by intros []; left].
  - rewrite bool_decide_false by done.
    destruct (MessageController.role reqUser) eqn:Hrole; cbn.
    + split_and!; [split; [done | by intros [|]] | by intros [|] | done].
    + split_and!; [by split; [right|] | done | by intros []; right].
    + split_and!; [by split; [right|] | done | by intros []; right].
Qed.

Lemma route_delete_decision_witness :
  MessageRoutes.delete_message (Example.t0 + 9000)
    (MessageController.mkReqUser Example.carol User.user) Example.m_hello Example.db
  = (Example.db, MessageRoutes.Json 403)
  ∧ (MessageRoutes.delete_message (Example.t0 + 9000)
       (MessageController.mkReqUser Example.root User.admin) Example.m_hello
       Example.db).2 = MessageRoutes.Json 200.
Proof.
  split.
  - apply (route_delete_decision Example.db (Example.t0 + 9000)
             (MessageController.mkReqUser Example.carol User.user) Example.m_hello
             (Example.text_message Example.general Example.alice "hello" Example.t0)).
    + by vm_compute.
    + intros [Hauthor | Hrole]; [by vm_compute in Hauthor | by apply Hrole].
  - apply (route_delete_decision Example.db (Example.t0 + 9000)
             (MessageController.mkReqUser Example.root User.admin) Example.m_hello
             (Example.text_message Example.general Example.alice "hello" Example.t0)).
    + by vm_compute.
    + by right.
Defined.

(** X5. The socket handler [delete_message], for a caller found in the
    user collection, soft-deletes a message that exists exactly when the
    caller is its author, or holds the global role moderator or admin,
    or moderates its channel, and answers 'You can only delete your own
    messages ...' without changing anything otherwise. So it deletes
    exactly when the route (given the same global role) or the service
    would. *)
Theorem socket_delete_decision
    (st : Socket.State) (socket : Socket.SocketId) (now : Date)
    (messageId userId : ObjectId) (user : User.t) (m : Message.t) :
  Socket.sockets st !! socket = Some userId →
  users (Socket.db st) !! userId = Some user →
  messages (Socket.db st) !! messageId = Some m →
  let call := Socket.on_delete_message socket now messageId st in
  let reqUser := MessageController.mkReqUser userId (User.role user) in
  let allowed := Message.user_id m = userId
                 ∨ User.role user ≠ User.user
                 ∨ moderates_channel_of (Socket.db st) m userId in
  (allowed →
     Socket.db call.1
     = saved_as now messageId (Message.set_softDelete userId now m) (Socket.db st))
  ∧ (¬ allowed → call = (st, Socket.ErrorEvent DeleteNotAllowed))
  ∧ (allowed ↔
     (MessageRoutes.delete_message now reqUser messageId (Socket.db st)).2
       = MessageRoutes.Json 200
     ∨ (MessageService.deleteMessage now messageId userId (Socket.db st)).2 = Ok true).
Proof.
  intros Hs Hu Hm call reqUser allowed. subst call reqUser allowed.
  assert (Hsocket :
    Socket.on_delete_message socket now messageId st =
    let isAuthor := bool_decide (Message.user_id m = userId) in
    let isModerator := Socket.isGlobalModerator (User.role user) in
    let channelRole :=
      match channels (Socket.db st) !! Message.channel_id m with
      | Some _ => match hasRole (Message.channel_id m) userId ChannelMember.moderator
                          (Socket.db st) with
                  | (_, Ok b) => b
                  | (_, Err _) => false
                  end
      | None => false
      end in
    if negb isAuthor && negb isModerator && negb channelRole
    then (st, Socket.ErrorEvent DeleteNotAllowed)
    else match channels (Socket.db st) !! Message.channel_id m with
         | Some _ =>
             (Socket.with_db (saved_as now messageId
                                (Message.set_softDelete userId now m) (Socket.db st)) st,
              Socket.Handled)
         | None =>
             (Socket.with_db (saved_as now messageId
                                (Message.set_softDelete userId now m) (Socket.db st)) st,
              Socket.ErrorEvent HandlerFailed)
         end).
  { unfold Socket.on_delete_message, Socket.on_socket. rewrite Hs, Hm, Hu. cbv zeta.
    destruct (negb _ && negb _ && negb _); [done|].
    by destruct (channels (Socket.db st) !! Message.channel_id m). }
  assert (Hrole : Socket.isGlobalModerator (User.role user) = true
                  ↔ User.role user ≠ User.user) by (by destruct (User.role user)).
  assert (Hchan :
    match channels (Socket.db st) !! Message.channel_id m with
    | Some _ => match hasRole (Message.channel_id m) userId ChannelMember.moderator
                        (Socket.db st) with
                | (_, Ok b) => b
                | (_, Err _) => false
                end
    | None => false
    end = true ↔ moderates_channel_of (Socket.db st) m userId).
  { unfold moderates_channel_of.
    destruct (channels (Socket.db st) !! Message.channel_id m) as [ch|].
    - destruct (hasRole_total (Socket.db st) (Message.channel_id m) userId
                  ChannelMember.moderator) as [b Hb].
      rewrite <- hasRole_true_iff, Hb. split.
      + intros ->. split; [by eexists | done].
      + by intros [_ [= ->]].
    - split; [done | by intros [[? [=]] _]]. }
  assert (Hallowed :
    negb (bool_decide (Message.user_id m = userId))
    && negb (Socket.isGlobalModerator (User.role user))
    && negb match channels (Socket.db st) !! Message.channel_id m with
            | Some _ => match hasRole (Message.channel_id m) userId
                                ChannelMember.moderator (Socket.db st) with
                        | (_, Ok b) => b
                        | (_, Err _) => false
                        end
            | None => false
            end = false
    ↔ Message.user_id m = userId ∨ User.role user ≠ User.user
      ∨ moderates_channel_of (Socket.db st) m userId).
  { rewrite <- Hrole, <- Hchan, !andb_false_iff, !negb_false_iff, bool_decide_eq_true.
    tauto. }
  rewrite Hsocket. cbv zeta.
  destruct (negb _ && negb _ && negb _) eqn:Hguard.
  - assert (Hno : ¬ (Message.user_id m = userId ∨ User.role user ≠ User.user
                     ∨ moderates_channel_of (Socket.db st) m userId)).
    { intros H. apply Hallowed in H. congruence. }
    split_and!; [done | done |]. split; [done|]. intros [Hroute | Hservice].
    + apply (route_delete_decision_aux (Socket.db st) now
               (MessageController.mkReqUser userId (User.role user)) messageId m Hm)
        in Hroute. tauto.
    + destruct (decide (Message.user_id m = userId)) as [Ha|Ha]; [tauto|].
      destruct (moderates_channel_of_dec (Socket.db st) m userId) as [Hmod|Hmod];
        [tauto|].
      rewrite (deleteMessage_refused _ now messageId userId m Hm Ha Hmod) in Hservice.
      done.
  - pose proof (proj1 Hallowed eq_refl) as Hok.
    split_and!.
    + intros _. by destruct (channels (Socket.db st) !! Message.channel_id m).
    + done.
    + split; [|done]. intros _. destruct Hok as [Ha | [Hr | Hmod]].
      * right. by rewrite (deleteMessage_allowed _ now messageId userId m Hm (or_introl Ha)).
      * left. apply (route_delete_decision_aux (Socket.db st) now
                       (MessageController.mkReqUser userId (User.role user))
                       messageId m Hm). by right.
      * right. by rewrite (deleteMessage_allowed _ now messageId userId m Hm (or_intror Hmod)).
Qed.

Lemma socket_delete_decision_witness :
  let st := (Socket.on_connection Example.s1 Example.carol [Example.general]
               (Socket.init Example.db)).1 in
  Socket.db (Socket.on_delete_message Example.s1 (Example.t0 + 9000)
               Example.m_hello st).1
  = saved_as (Example.t0 + 9000) Example.m_hello
      (Message.set_softDelete Example.carol (Example.t0 + 9000)
         (Example.text_message Example.general Example.alice "hello" Example.t0))
      Example.db.
Proof.
  cbv zeta.
  destruct (socket_delete_decision
              (Socket.on_connection Example.s1 Example.carol [Example.general]
                 (Socket.init Example.db)).1
              Example.s1 (Example.t0 + 9000) Example.m_hello Example.carol
              (User.mk "carol" User.user None)
              (Example.text_message Example.general Example.alice "hello" Example.t0))
    as (Hallowed & _ & _).
  - by vm_compute.
  - by vm_compute.
  - by vm_compute.
  - apply Hallowed. right. right.
    split; [exists (Channel.mk "general" false); by vm_compute|].
    exists (ChannelMember.mk ChannelMember.admin true).
    split_and!; [by vm_compute | done | right; constructor].
Defined.

(* ===================================================================== *)
(** ** Listings: channel, order, size                                     *)
(* ===================================================================== *)

Lemma sort_created_desc_Permutation (l : list Cursor.doc) :
  Cursor.sort_created_desc l ≡ₚ l.
Proof.
  unfold Cursor.sort_created_desc. induction l as [|d l IH]; [done|]. simpl.
  rewrite <- IH at 2. generalize (foldr Cursor.insert_desc [] l). clear.
  intros l. induction l as [|x r IH]; simpl; [done|].
  destruct (Message.created_at x.2 <=? Message.created_at d.2); [done|].
  rewrite IH. apply Permutation_swap.
Qed.

Lemma insert_desc_sorted (d : Cursor.doc) (l : list Cursor.doc) :
  StronglySorted (fun a b : Cursor.doc => Message.created_at b.2 <= Message.created_at a.2) l →
  StronglySorted (fun a b : Cursor.doc => Message.created_at b.2 <= Message.created_at a.2)
    (Cursor.insert_desc d l).
Proof.
  induction 1 as [|x r Hr IH Hx]; simpl.
  - repeat constructor.
  - destruct (Message.created_at x.2 <=? Message.created_at d.2) eqn:Hle.
    + apply Z.leb_le in Hle. constructor; [by constructor|].
      constructor; [done|]. eapply Forall_impl; [exact Hx|]. simpl. intros; lia.
    + apply Z.leb_gt in Hle. constructor; [done|].
      assert (Hperm : Cursor.insert_desc d r ≡ₚ d :: r).
      { clear. induction r as [|y r IH]; simpl; [done|].
        destruct (Message.created_at y.2 <=? Message.created_at d.2); [done|].
        rewrite IH. apply Permutation_swap. }
      rewrite Hperm. constructor; [lia | done].
Qed.

Lemma sort_created_desc_sorted (l : list Cursor.doc) :
  StronglySorted (fun a b : Cursor.doc => Message.created_at b.2 <= Message.created_at a.2)
    (Cursor.sort_created_desc l).
Proof.
  unfold Cursor.sort_created_desc. induction l; simpl; [constructor|].
  by apply insert_desc_sorted.
Qed.

(** [getChannelMessages] when it returns: the page it computes. *)
Lemma getChannelMessages_reads (db db' : Db) (channelId : ObjectId)
    (options : MessageService.ListOptions) (listing : MessageService.Listing) :
  MessageService.getChannelMessages channelId options db = (db', Ok listing) →
  let page := default 1 (MessageService.o_page options) in
  let limit := default 50 (MessageService.o_limit options) in
  let found := matching (in_channel_history channelId) db in
  db' = db
  ∧ 0 <= (page - 1) * limit
  ∧ channel_open_to db channelId (MessageService.o_userId options)
  ∧ MessageService.l_messages listing
    = MessageService.publicInfos db
        (Cursor.limit limit
           (drop (Z.to_nat ((page - 1) * limit)) (Cursor.sort_created_desc found)))
  ∧ MessageService.l_pagination listing
    = {| MessageService.pg_page := page; MessageService.pg_limit := limit;
         MessageService.pg_total := Z.of_nat (length found);
         MessageService.pg_pages :=
           MessageService.ceil_div (Z.of_nat (length found)) limit |}.
Proof.
  unfold MessageService.getChannelMessages.
  unfold bind at 1. unfold Channel_findById, read.
  destruct (channels db !! channelId) as [ch|] eqn:Hch; [|done].
  unfold bind at 1.
  assert (Hguard : ∃ b,
    (if Channel.is_private ch
     then let* member := isMember channelId (MessageService.o_userId options)
          in ret (negb member)
     else ret false) db = (db, Ok b)
    ∧ (b = false → Channel.is_private ch = true →
       active_member_at_least db channelId (MessageService.o_userId options)
         ChannelMember.member)).
  { destruct (Channel.is_private ch); [|by eexists].
    unfold bind. rewrite isMember_reads. eexists. split; [done|].
    intros Hb _. apply isMember_true_iff. rewrite isMember_reads.
    apply negb_false_iff in Hb. by rewrite Hb. }
  destruct Hguard as (b & -> & Hb). destruct b; [done|].
  unfold bind at 1. unfold throw_if at 1, ret at 1.
  unfold Cursor.find, Cursor.skip, Cursor.countDocuments. unfold_m.
  destruct (_ <? 0) eqn:Hneg; [done|]. apply Z.ltb_ge in Hneg.
  intros [= <- <-]. cbv zeta. split_and!; try done.
  exists ch. split; [done|]. by apply Hb.
Qed.

Lemma matching_elem (query : Message.t → bool) (db : Db) (d : Cursor.doc) :
  d ∈ matching query db ↔ messages db !! d.1 = Some d.2 ∧ query d.2 = true.
Proof.
  unfold matching. rewrite list_elem_of_In, filter_In, <- list_elem_of_In.
  destruct d as [i m]. by rewrite elem_of_map_to_list.
Qed.

Lemma matching_NoDup (query : Message.t → bool) (db : Db) :
  NoDup (matching query db).*1.
Proof.
  unfold matching.
  assert (H : ∀ l : list Cursor.doc, NoDup l.*1 →
            NoDup (List.filter (fun d : Cursor.doc => query d.2) l).*1).
  { induction l as [|x l IH]; simpl; [done|].
    intros [Hx Hl]%NoDup_cons. destruct (query x.2); simpl; [|by apply IH].
    apply NoDup_cons. split; [|by apply IH].
    intros Hin. apply Hx. apply list_elem_of_fmap in Hin as (y & -> & Hy).
    apply list_elem_of_fmap. exists y. split; [done|].
    apply list_elem_of_In in Hy. apply filter_In in Hy as [Hy _].
    by apply list_elem_of_In. }
  apply H, NoDup_fst_map_to_list.
Qed.

Lemma limit_sublist (n : Z) (l : list Cursor.doc) : Cursor.limit n l `sublist_of` l.
Proof. unfold Cursor.limit. destruct (n =? 0); [done | apply sublist_take]. Qed.

Lemma limit_length (n : Z) (l : list Cursor.doc) :
  n ≠ 0 → (length (Cursor.limit n l) <= Z.to_nat (Z.abs n))%nat.
Proof.
  intros Hn. unfold Cursor.limit. destruct (n =? 0) eqn:H0; [lia|].
  rewrite length_take. lia.
Qed.

(** A page is a part of the sorted matches, in their order. *)
Lemma page_sublist (n skip : Z) (l : list Cursor.doc) :
  Cursor.limit n (drop (Z.to_nat skip) (Cursor.sort_created_desc l))
  `sublist_of` Cursor.sort_created_desc l.
Proof. etrans; [apply limit_sublist | apply sublist_drop]. Qed.

Lemma publicInfos_sorted (db : Db) (l : list Cursor.doc) :
  StronglySorted (fun a b : Cursor.doc => Message.created_at b.2 <= Message.created_at a.2) l →
  newest_first (MessageService.publicInfos db l).
Proof.
  unfold newest_first, MessageService.publicInfos.
  induction 1 as [|x r Hr IH Hx]; simpl; constructor; [done|].
  apply Forall_map, Forall_map. eapply Forall_impl; [exact Hx|]. done.
Qed.

Lemma publicInfos_ids (db : Db) (l : list Cursor.doc) :
  map Message.p_id (MessageService.publicInfos db l) = l.*1.
Proof. unfold MessageService.publicInfos. rewrite !map_map. done. Qed.

Lemma publicInfos_length (db : Db) (l : list Cursor.doc) :
  length (MessageService.publicInfos db l) = length l.
Proof. unfold MessageService.publicInfos. by rewrite !length_map. Qed.

Lemma publicInfos_app (db : Db) (l k : list Cursor.doc) :
  MessageService.publicInfos db (l ++ k)
  = MessageService.publicInfos db l ++ MessageService.publicInfos db k.
Proof. unfold MessageService.publicInfos. by rewrite !map_app. Qed.

Lemma publicInfos_take (db : Db) (n : nat) (l : list Cursor.doc) :
  take n (MessageService.publicInfos db l) = MessageService.publicInfos db (take n l).
Proof. unfold MessageService.publicInfos. by rewrite !firstn_map. Qed.

(** A listed message is the rendering of a stored one. *)
Lemma publicInfos_Forall (db : Db) (P : Cursor.doc → Prop) (l : list Cursor.doc) :
  Forall P l →
  Forall (fun p => ∃ m, P (Message.p_id p, m)
                        ∧ p = Message.getPublicInfo (populated db (Message.p_id p, m)))
         (MessageService.publicInfos db l).
Proof.
  unfold MessageService.publicInfos. intros H.
  apply Forall_map, Forall_map. eapply Forall_impl; [exact H|].
  intros [i m] Hd. simpl. by exists m.
Qed.

Lemma sublist_StronglySorted {A} (R : relation A) (l k : list A) :
  l `sublist_of` k → StronglySorted R k → StronglySorted R l.
Proof.
  induction 1 as [|x l k Hs IH|x l k Hs IH]; intros Hk.
  - constructor.
  - apply StronglySorted_inv in Hk as [Hk Hx]. constructor; [by apply IH|].
    apply Forall_forall. intros y Hy.
    eapply Forall_forall in Hx; [exact Hx|]. by eapply elem_of_sublist.
  - apply StronglySorted_inv in Hk as [Hk _]. by apply IH.
Qed.

(** X6. A page returned by [getChannelMessages] shows stored messages
    only, each of the channel asked for and none twice, each as
    [getPublicInfo] renders the populated document: the author and the
    message replied to appear as the previews looked up in the store,
    and as [null] when they are stored no longer. The store is left as
    it was. *)
Theorem getChannelMessages_shows_channel_only
    (db db' : Db) (channelId : ObjectId)
    (options : MessageService.ListOptions) (listing : MessageService.Listing) :
  MessageService.getChannelMessages channelId options db = (db', Ok listing) →
  db' = db
  ∧ Forall (fun p => ∃ m, messages db !! Message.p_id p = Some m
                         ∧ p = Message.getPublicInfo (populated db (Message.p_id p, m))
                         ∧ Message.channel_id m = channelId
                         ∧ (Message.p_user_id p = None
                            ↔ users db !! Message.user_id m = None)
                         ∧ (Message.p_reply_to p = None
                            ↔ ∀ r, Message.reply_to m = Some r →
                                   messages db !! r = None))
           (MessageService.l_messages listing)
  ∧ NoDup (map Message.p_id (MessageService.l_messages listing)).
Proof.
  intros Hcall. apply getChannelMessages_reads in Hcall as (-> & _ & _ & -> & _).
  set (page := Cursor.limit _ _).
  assert (Hsub : page `sublist_of`
                 Cursor.sort_created_desc (matching (in_channel_history channelId) db))
    by apply page_sublist.
  split_and!; [done | |].
  - eapply Forall_impl.
    + apply (publicInfos_Forall db
               (fun d => d ∈ matching (in_channel_history channelId) db)).
      apply Forall_forall. intros d Hd.
      rewrite <- sort_created_desc_Permutation. by eapply elem_of_sublist.
    + simpl. intros q (m & Hin & Hq).
      apply matching_elem in Hin as [Hstored [Hc _]%andb_true_iff]. simpl in *.
      exists m. split_and!; [done | done | by apply bool_decide_eq_true in Hc | |].
      * rewrite Hq. simpl. unfold populate_user_id.
        by destruct (users db !! Message.user_id m).
      * rewrite Hq. simpl. unfold populate_reply_to.
        destruct (Message.reply_to m) as [r|]; [|done].
        destruct (messages db !! r) eqn:Hr; simpl.
        -- split; [done|]. intros H. specialize (H r eq_refl). congruence.
        -- split; [|done]. by intros _ ? [= <-].
  - rewrite publicInfos_ids.
    apply (sublist_NoDup _
             (Cursor.sort_created_desc (matching (in_channel_history channelId) db)).*1).
    + rewrite sort_created_desc_Permutation. apply matching_NoDup.
    + by apply fmap_sublist.
Qed.

Lemma getChannelMessages_shows_channel_only_witness :
  ∃ listing,
    MessageService.getChannelMessages Example.general Example.first_page Example.db
    = (Example.db, Ok listing)
    ∧ Forall (fun p => Message.p_channel_id p = Example.general
                       ∧ Message.p_user_id p
                         = Some (Message.mkUserPreview Example.alice "alice" None))
             (MessageService.l_messages listing).
Proof.
  destruct (getChannelMessages_returns Example.db Example.general Example.first_page)
    as [listing Hlisting].
  - exists (Channel.mk "general" false). split; [by vm_compute | done].
  - by vm_compute.
  - by vm_compute.
  - exists listing. split; [exact Hlisting|].
    destruct (getChannelMessages_shows_channel_only _ _ _ _ _ Hlisting) as (_ & Hall & _).
    pose proof Hlisting as Hvalue. vm_compute in Hvalue. injection Hvalue as <-.
    repeat constructor.
Defined.

(** X7. The page is ordered newest first, and a limit other than zero
    caps its length; the total of the pagination counts all the
    messages of the channel that are not deleted, whatever the page. *)
Theorem getChannelMessages_order_and_size
    (db db' : Db) (channelId : ObjectId)
    (options : MessageService.ListOptions) (listing : MessageService.Listing) :
  MessageService.getChannelMessages channelId options db = (db', Ok listing) →
  let limit := default 50 (MessageService.o_limit options) in
  newest_first (MessageService.l_messages listing)
  ∧ (limit ≠ 0 →
     (length (MessageService.l_messages listing) <= Z.to_nat (Z.abs limit))%nat)
  ∧ MessageService.pg_total (MessageService.l_pagination listing)
    = Z.of_nat (length (matching (in_channel_history channelId) db)).
Proof.
  intros Hcall limit. subst limit.
  apply getChannelMessages_reads in Hcall as (-> & _ & _ & -> & ->).
  split_and!.
  - apply publicInfos_sorted.
    eapply sublist_StronglySorted; [apply page_sublist|].
    apply sort_created_desc_sorted.
  - intros Hn. rewrite publicInfos_length.
    by apply limit_length.
  - done.
Qed.

Lemma getChannelMessages_order_and_size_witness :
  ∃ listing,
    MessageService.getChannelMessages Example.general Example.first_page Example.db
    = (Example.db, Ok listing)
    ∧ newest_first (MessageService.l_messages listing)
    ∧ MessageService.pg_total (MessageService.l_pagination listing) = 2.
Proof.
  destruct (getChannelMessages_returns Example.db Example.general Example.first_page)
    as [listing Hlisting].
  - exists (Channel.mk "general" false). split; [by vm_compute | done].
  - by vm_compute.
  - by vm_compute.
  - exists listing. split; [exact Hlisting|].
    destruct (getChannelMessages_order_and_size _ _ _ _ _ Hlisting) as (Hsorted & _ & Htotal).
    split; [exact Hsorted|]. rewrite Htotal. by vm_compute.
Defined.

Lemma getChannelMessages_runs (db : Db) (channelId : ObjectId)
    (options : MessageService.ListOptions) :
  channel_open_to db channelId (MessageService.o_userId options) →
  0 <= (default 1 (MessageService.o_page options) - 1)
       * default 50 (MessageService.o_limit options) →
  ∃ listing,
    MessageService.getChannelMessages channelId options db = (db, Ok listing).
Proof.
  intros (ch & Hch & Hmember) Hskip.
  unfold MessageService.getChannelMessages.
  unfold bind at 1. unfold Channel_findById, read. rewrite Hch.
  assert (Hguard :
    (if Channel.is_private ch
     then let* member := isMember channelId (MessageService.o_userId options)
          in ret (negb member)
     else ret false) db = (db, Ok false)).
  { destruct (Channel.is_private ch); [|done].
    unfold bind. by rewrite (proj2 (isMember_true_iff _ _ _) (Hmember eq_refl)). }
  unfold bind at 1. rewrite Hguard.
  unfold Cursor.find, Cursor.skip, Cursor.countDocuments. unfold_m.
  destruct (_ <? 0) eqn:Hneg; [apply Z.ltb_lt in Hneg; lia|].
  by eexists.
Qed.

Lemma history_page_reads (db : Db) (channelId userId : ObjectId) (limit_ : Z) (k : nat) :
  channel_open_to db channelId userId →
  0 < limit_ →
  history_page db channelId userId limit_ (S k)
  = MessageService.publicInfos db
      (take (Z.to_nat limit_)
         (drop (k * Z.to_nat limit_)
            (Cursor.sort_created_desc (matching (in_channel_history channelId) db)))).
Proof.
  intros Hopen Hlimit. unfold history_page.
  set (options := {| MessageService.o_page := Some (Z.of_nat (S k));
                     MessageService.o_limit := Some limit_;
                     MessageService.o_userId := userId |}).
  destruct (getChannelMessages_runs db channelId options Hopen) as [listing Hcall].
  { simpl. nia. }
  rewrite Hcall.
  apply getChannelMessages_reads in Hcall as (_ & _ & _ & -> & _). simpl.
  unfold Cursor.limit. destruct (limit_ =? 0) eqn:H0; [lia|].
  do 3 f_equal; lia.
Qed.

(** X8. Paging through a channel the reader may read, with a positive
    limit, from page 1 on: the pages put one after the other are the
    beginning of the whole history, newest first; so each message that
    is not deleted turns up once, and once the pages cover the total
    they hold the whole history. *)
Theorem history_pages_tile
    (db : Db) (channelId userId : ObjectId) (limit_ : Z) (n : nat) :
  channel_open_to db channelId userId →
  0 < limit_ →
  let pages := map (history_page db channelId userId limit_) (seq 1 n) in
  concat pages = take (n * Z.to_nat limit_) (whole_history db channelId)
  ∧ ((length (whole_history db channelId) <= n * Z.to_nat limit_)%nat →
     concat pages = whole_history db channelId)
  ∧ NoDup (map Message.p_id (concat pages)).
Proof.
  intros Hopen Hlimit pages. subst pages.
  assert (Htile :
    concat (map (history_page db channelId userId limit_) (seq 1 n))
    = take (n * Z.to_nat limit_) (whole_history db channelId)).
  { induction n as [|n IH]; [done|].
    rewrite seq_S, map_app, concat_app, IH. simpl. rewrite app_nil_r.
    rewrite history_page_reads by done.
    unfold whole_history.
    rewrite !publicInfos_take, <- publicInfos_app, take_take_drop.
    do 2 f_equal. lia. }
  split_and!; [done | |].
  - intros Hall. rewrite Htile. by apply take_ge.
  - rewrite Htile. unfold whole_history.
    rewrite publicInfos_take, publicInfos_ids.
    set (sorted := Cursor.sort_created_desc _).
    apply (sublist_NoDup _ (sorted.*1)).
    + subst sorted. rewrite sort_created_desc_Permutation. apply matching_NoDup.
    + apply fmap_sublist, sublist_take.
Qed.

Lemma history_pages_tile_witness :
  history_page Example.db Example.general Example.bob 1 1
  ++ history_page Example.db Example.general Example.bob 1 2
  = whole_history Example.db Example.general.
Proof.
  destruct (history_pages_tile Example.db Example.general Example.bob 1 2)
    as (_ & Hall & _).
  - exists (Channel.mk "general" false). split; [by vm_compute | done].
  - lia.
  - rewrite <- Hall; [simpl; by rewrite app_nil_r | by vm_compute].
Defined.

(* ===================================================================== *)
(** ** Search                                                             *)
(* ===================================================================== *)

Lemma searchMessages_reads (regexMatch : JS.jsstring → JS.jsstring → bool)
    (db db' : Db) (channelId : ObjectId)
    (options : MessageService.SearchOptions) (listing : MessageService.Listing) :
  MessageService.searchMessages regexMatch channelId options db = (db', Ok listing) →
  ∃ query,
    MessageService.s_query options = Some query ∧ query ≠ []
    ∧ db' = db
    ∧ channel_open_to db channelId (MessageService.s_userId options)
    ∧ ∃ skip_,
        MessageService.l_messages listing
        = MessageService.publicInfos db
            (Cursor.limit (default 50 (MessageService.s_limit options))
               (drop skip_
                  (Cursor.sort_created_desc
                     (matching (fun m =>
                        bool_decide (Message.channel_id m = channelId)
                        && regexMatch query (Message.content m)
                        && negb (Message.is_deleted m)) db)))).
Proof.
  unfold MessageService.searchMessages.
  destruct (MessageService.s_query options) as [[|q0 q]|]; [done| |done].
  unfold bind at 1. unfold Channel_findById, read.
  destruct (channels db !! channelId) as [ch|] eqn:Hch; [|done].
  unfold bind at 1.
  assert (Hguard : ∃ b,
    (if Channel.is_private ch
     then let* member := isMember channelId (MessageService.s_userId options)
          in ret (negb member)
     else ret false) db = (db, Ok b)
    ∧ (b = false → Channel.is_private ch = true →
       active_member_at_least db channelId (MessageService.s_userId options)
         ChannelMember.member)).
  { destruct (Channel.is_private ch); [|by eexists].
    unfold bind. rewrite isMember_reads. eexists. split; [done|].
    intros Hb _. apply isMember_true_iff. rewrite isMember_reads.
    apply negb_false_iff in Hb. by rewrite Hb. }
  destruct Hguard as (b & -> & Hb). destruct b; [done|].
  unfold bind at 1. unfold throw_if at 1, ret at 1.
  unfold Cursor.find, Cursor.skip, Cursor.countDocuments. unfold_m.
  destruct (_ <? 0) eqn:Hneg; [done|].
  intros [= <- <-]. exists (q0 :: q). split_and!; try done.
  - exists ch. split; [done|]. by apply Hb.
  - by eexists.
Qed.

(** X9. [searchMessages] throws 'Search query is required' for a missing
    or empty query before it looks at the channel; and what it returns
    for a query are stored messages of the channel asked for, none
    deleted, each with a body the store's engine matched against that
    query, each as [getPublicInfo] renders the populated document (the
    author [null] when the user is stored no longer); the store is left
    as it was. *)
Theorem searchMessages_results
    (regexMatch : JS.jsstring → JS.jsstring → bool)
    (db : Db) (channelId : ObjectId) (options : MessageService.SearchOptions) :
  let call := MessageService.searchMessages regexMatch channelId options db in
  ((MessageService.s_query options = None ∨ MessageService.s_query options = Some []) →
   call = (db, Err SearchQueryRequired))
  ∧ (∀ listing, call.2 = Ok listing →
     call.1 = db
     ∧ ∃ query, MessageService.s_query options = Some query
        ∧ Forall (fun p => ∃ m, messages db !! Message.p_id p = Some m
                               ∧ p = Message.getPublicInfo
                                       (populated db (Message.p_id p, m))
                               ∧ (Message.p_user_id p = None
                                  ↔ users db !! Message.user_id m = None)
                               ∧ Message.channel_id m = channelId
                               ∧ Message.is_deleted m = false
                               ∧ regexMatch query (Message.content m) = true)
                 (MessageService.l_messages listing)).
Proof.
  intros call. subst call. split.
  - unfold MessageService.searchMessages. by intros [-> | ->].
  - intros listing Hcall.
    destruct (MessageService.searchMessages regexMatch channelId options db)
      as [db' r] eqn:Hrun. simpl in Hcall. subst r.
    apply searchMessages_reads in Hrun
      as (query & Hq & _ & -> & _ & skip_ & ->).
    split; [done|]. exists query. split; [done|].
    set (filter := fun m : Message.t =>
           bool_decide (Message.channel_id m = channelId)
           && regexMatch query (Message.content m)
           && negb (Message.is_deleted m)).
    eapply Forall_impl.
    + apply (publicInfos_Forall db (fun d => d ∈ matching filter db)).
      apply Forall_forall. intros d Hd.
      rewrite <- sort_created_desc_Permutation.
      eapply elem_of_sublist; [exact Hd|].
      etrans; [apply limit_sublist | apply sublist_drop].
    + simpl. intros q (m & Hin & Hrender).
      apply matching_elem in Hin
        as [Hstored [[Hc Hr]%andb_true_iff Hdel%negb_true_iff]%andb_true_iff].
      simpl in *. exists m. split_and!; try done.
      * rewrite Hrender. simpl. unfold populate_user_id.
        by destruct (users db !! Message.user_id m).
      * by apply bool_decide_eq_true in Hc.
Qed.

Lemma searchMessages_results_witness :
  ∃ found,
    (MessageService.searchMessages (fun _ _ => true) Example.general
       Example.search_o Example.db).2 = Ok found
    ∧ Forall (fun p => Message.p_channel_id p = Example.general)
             (MessageService.l_messages found).
Proof.
  destruct (MessageService.searchMessages (fun _ _ => true) Example.general
              Example.search_o Example.db) as [db' [found|e]] eqn:Hfound.
  - exists found. split; [done|].
    destruct (searchMessages_results (fun _ _ => true) Example.db Example.general
                Example.search_o) as [_ Hres].
    rewrite Hfound in Hres. destruct (Hres found eq_refl) as (_ & q & _ & Hall).
    eapply Forall_impl; [exact Hall|]. simpl.
    intros p (m & _ & -> & _ & Hc & _). exact Hc.
  - exfalso. vm_compute in Hfound. discriminate Hfound.
Defined.

(* ===================================================================== *)
(** ** Private channels                                                   *)
(* ===================================================================== *)

(** X10. Whoever is not an active member of a private channel gets
    'Access denied' from all four service operations that read or write
    its messages — sending (however the two ids are spelt), the
    history, the search and the fetch of one of its messages — and none
    of them touches the store. *)
Theorem private_channel_denies_outsiders
    (regexMatch : JS.jsstring → JS.jsstring → bool)
    (db : Db) (channelId userId : ObjectId) (ch : Channel.t) :
  channels db !! channelId = Some ch →
  Channel.is_private ch = true →
  ¬ active_member_at_least db channelId userId ChannelMember.member →
  (∀ newId now channel sender content replyTo messageType,
     denotes channel channelId → denotes sender userId →
     MessageService.sendMessage newId now
       {| MessageService.channelId := channel; MessageService.userId := sender;
          MessageService.content := content; MessageService.replyTo := replyTo;
          MessageService.messageType := messageType |} db
     = (db, Err AccessDenied))
  ∧ (∀ page_ limit_,
     MessageService.getChannelMessages channelId
       {| MessageService.o_page := page_; MessageService.o_limit := limit_;
          MessageService.o_userId := userId |} db
     = (db, Err AccessDenied))
  ∧ (∀ query page_ limit_, query ≠ [] →
     MessageService.searchMessages regexMatch channelId
       {| MessageService.s_query := Some query; MessageService.s_page := page_;
          MessageService.s_limit := limit_; MessageService.s_userId := userId |} db
     = (db, Err AccessDenied))
  ∧ (∀ messageId m,
     messages db !! messageId = Some m → Message.channel_id m = channelId →
     MessageService.getMessageById messageId userId db = (db, Err AccessDenied))
  ∧ kind AccessDenied = Forbidden.
Proof.
  intros Hch Hprivate Houtsider.
  assert (Hno : isMember channelId userId db = (db, Ok false)).
  { destruct (isMember channelId userId db) as [db' r] eqn:Hm.
    pose proof (isMember_reads db channelId userId) as Hr. rewrite Hm in Hr.
    injection Hr as -> ->.
    destruct (match channelMembers db !! (channelId, userId) with
              | Some m => ChannelMember.is_active m | None => false end) eqn:Hb; [|done].
    exfalso. apply Houtsider, isMember_true_iff. by rewrite isMember_reads, Hb. }
  split_and!.
  - intros newId now channel sender content replyTo messageType Hc Hu.
    rewrite sendMessage_reads. cbv zeta. simpl.
    unfold denotes in Hc, Hu. rewrite Hc, Hch, Hprivate, Hu.
    rewrite isMember_reads in Hno. by injection Hno as ->.
  - intros. unfold MessageService.getChannelMessages. simpl.
    unfold bind at 1. unfold Channel_findById, read. rewrite Hch, Hprivate.
    unfold bind at 1. unfold bind at 1. by rewrite Hno.
  - intros query page_ limit_ Hq. unfold MessageService.searchMessages. simpl.
    destruct query as [|q0 q]; [done|].
    unfold bind at 1. unfold Channel_findById, read. rewrite Hch, Hprivate.
    unfold bind at 1. unfold bind at 1. by rewrite Hno.
  - intros messageId m Hm <-. unfold MessageService.getMessageById.
    unfold bind at 1. unfold Message_findById, read. rewrite Hm.
    unfold bind at 1. unfold Channel_findById, read. rewrite Hch, Hprivate.
    unfold bind at 1. unfold bind at 1. by rewrite Hno.
  - done.
Qed.

Lemma private_channel_denies_outsiders_witness :
  MessageService.getMessageById Example.m_staff Example.bob Example.db
  = (Example.db, Err AccessDenied).
Proof.
  destruct (private_channel_denies_outsiders (fun _ _ => true) Example.db Example.staff
              Example.bob (Channel.mk "staff" true)) as (_ & _ & _ & Hfetch & _).
  - by vm_compute.
  - reflexivity.
  - intros (cm & Hcm & _). by vm_compute in Hcm.
  - apply (Hfetch Example.m_staff
             (Example.text_message Example.staff Example.carol "minutes"
                (Example.t0 + 5000))); [by vm_compute | reflexivity].
Defined.

(* ===================================================================== *)
(** ** Sending                                                            *)
(* ===================================================================== *)

(** X11. A send that passes the guards — the ids given are well
    formed, the channel is open to the sender, the body passed the
    validation middleware — and whose reply target, if one is given, is
    a stored message with the channel id printed as the [channelId]
    given, stores the new message under the new id: body trimmed, type
    [text] unless given, no attachment and no metadata, neither flagged
    nor deleted, created and updated at the time of the call. It
    returns this document populated, no other message changes, and
    whoever the channel is open to reads the new message back with
    [getMessageById]. Given the empty string as [replyTo] the call
    passes the reply check and then throws at [save]: nothing is
    stored. *)
Theorem sendMessage_stores
    (db : Db) (newId : ObjectId) (now : Date) (d : MessageService.MessageData)
    (channelId userId : ObjectId) :
  denotes (MessageService.channelId d) channelId →
  denotes (MessageService.userId d) userId →
  channel_open_to db channelId userId →
  Validation.validateMessage_content (Some (MessageService.content d)) = None →
  let call := MessageService.sendMessage newId now d db in
  (reply_resolves db (MessageService.channelId d) (MessageService.replyTo d) →
   ∃ sent,
     call.2 = Ok (populated call.1 (newId, sent))
     ∧ Message.channel_id sent = channelId
     ∧ Message.user_id sent = userId
     ∧ Message.content sent = JS.trim (MessageService.content d)
     ∧ Message.message_type sent = default Message.text (MessageService.messageType d)
     ∧ Message.reply_to sent = reply_id (MessageService.replyTo d)
     ∧ Message.attachments sent = [] ∧ Message.metadata sent = Message.no_metadata
     ∧ Message.is_flagged sent = false ∧ Message.is_deleted sent = false
     ∧ Message.created_at sent = now ∧ Message.updated_at sent = now
     ∧ messages call.1 = <[newId := sent]> (messages db)
     ∧ (∀ other, other ≠ newId → messages call.1 !! other = messages db !! other)
     ∧ (∀ reader, channel_open_to db channelId reader →
          ∃ ch, MessageService.getMessageById newId reader call.1
                = (call.1, Ok (newId, sent, Some ch, populate_user_id db userId))))
  ∧ (MessageService.replyTo d = Some "" → call = (db, Err ValidationFailed)).
Proof.
  intros Hc Hu Hopen Hvalid call. subst call.
  rewrite (sendMessage_past_guards db newId now d channelId userId) by done. cbv zeta.
  apply validated_content_saves in Hvalid.
  set (message := Message.create _ _ _ _ _ _).
  change (Message.content message) with (JS.trim (MessageService.content d)).
  rewrite Hvalid, andb_true_r. split.
  - intros Hreply.
    assert (Hcall :
      match MessageService.truthy (MessageService.replyTo d) with
      | Some raw =>
          match ObjectIds.cast raw with
          | Some replyId =>
              match messages db !! replyId with
              | Some replyMessage =>
                  if bool_decide (ObjectIds.toString (Message.channel_id replyMessage)
                                  = MessageService.channelId d)
                  then
                    if bool_decide (MessageService.replyTo d = None
                                    ∨ is_Some (reply_id (MessageService.replyTo d)))
                    then (saved_as now newId message db,
                          Ok (populated (saved_as now newId message db)
                                (newId, Message.set_updated_at now message)))
                    else (db, Err ValidationFailed)
                  else (db, Err InvalidReplyMessage)
              | None => (db, Err InvalidReplyMessage)
              end
          | None => (db, Err CastFailed)
          end
      | None =>
          if bool_decide (MessageService.replyTo d = None
                          ∨ is_Some (reply_id (MessageService.replyTo d)))
          then (saved_as now newId message db,
                Ok (populated (saved_as now newId message db)
                      (newId, Message.set_updated_at now message)))
          else (db, Err ValidationFailed)
      end = (saved_as now newId message db,
             Ok (populated (saved_as now newId message db)
                   (newId, Message.set_updated_at now message)))).
    { unfold reply_resolves in Hreply. unfold reply_id.
      destruct (MessageService.replyTo d) as [raw|].
      - destruct Hreply as (replyId & rm & Hcast & Hrm & Hprinted).
        assert (raw ≠ "") by (by intros ->).
        rewrite truthy_Some, Hcast, Hrm by done.
        rewrite bool_decide_true by done.
        rewrite bool_decide_true by (right; by eexists). done.
      - cbn [MessageService.truthy]. rewrite bool_decide_true by (by left). done. }
    rewrite Hcall. cbn [fst snd].
    exists (Message.set_updated_at now message). split_and!; try done.
    + intros other Hne. by apply saved_as_lookup_ne.
    + intros reader (ch & Hch & Hmember). exists ch.
      unfold MessageService.getMessageById.
      unfold bind at 1. unfold Message_findById, read. rewrite saved_as_lookup.
      unfold bind at 1. unfold Channel_findById, read.
      change (channels (saved_as now newId message db)) with (channels db).
      change (Message.channel_id (Message.set_updated_at now message))
        with channelId.
      rewrite Hch.
      destruct (Channel.is_private ch) eqn:Hp; [|done].
      unfold bind at 1. unfold bind at 1.
      pose proof (proj2 (isMember_true_iff db channelId reader)
                    (Hmember eq_refl)) as Hm.
      rewrite isMember_reads in Hm. rewrite isMember_reads.
      change (channelMembers (saved_as now newId message db)) with (channelMembers db).
      injection Hm as ->. done.
  - intros Hempty. rewrite Hempty. cbn [MessageService.truthy].
    rewrite bool_decide_true by done.
    rewrite bool_decide_false; [done|].
    intros [|[? Hsome]]; [done|]. by vm_compute in Hsome.
Qed.

Lemma sendMessage_stores_witness :
  (∃ sent,
    (MessageService.sendMessage Example.m_new (Example.t0 + 60000)
       Example.reply_in_channel Example.db).2
    = Ok (populated (MessageService.sendMessage Example.m_new (Example.t0 + 60000)
                       Example.reply_in_channel Example.db).1 (Example.m_new, sent))
    ∧ Message.reply_to sent = Some Example.m_hello
    ∧ Message.created_at sent = Example.t0 + 60000)
  ∧ MessageService.sendMessage Example.m_new (Example.t0 + 60000)
      (MessageService.mkMessageData Example.general Example.alice
         (JS.of_ascii "hello again") (Some "") None) Example.db
    = (Example.db, Err ValidationFailed).
Proof.
  split.
  - destruct (sendMessage_stores Example.db Example.m_new (Example.t0 + 60000)
                Example.reply_in_channel Example.general Example.alice)
      as [Hstores _].
    + by vm_compute.
    + by vm_compute.
    + exists (Channel.mk "general" false). split; [by vm_compute | done].
    + by vm_compute.
    + destruct Hstores
        as (sent & Hsent & _ & _ & _ & _ & Hreply & _ & _ & _ & _ & Hat & _).
      * exists Example.m_hello,
          (Example.text_message Example.general Example.alice "hello" Example.t0).
        split_and!; by vm_compute.
      * exists sent. split_and!; [exact Hsent | exact Hreply | exact Hat].
  - destruct (sendMessage_stores Example.db Example.m_new (Example.t0 + 60000)
                (MessageService.mkMessageData Example.general Example.alice
                   (JS.of_ascii "hello again") (Some "") None)
                Example.general Example.alice) as [_ Hempty].
    + by vm_compute.
    + by vm_compute.
    + exists (Channel.mk "general" false). split; [by vm_compute | done].
    + by vm_compute.
    + by apply Hempty.
Defined.

(* ===================================================================== *)
(** ** Membership queries                                                 *)
(* ===================================================================== *)

(** X12. The three membership queries read one and the same fact
    without writing: [isMember] holds exactly when [getUserRole] finds a
    role, and [hasRole] holds exactly when that role ranks at least the
    required one; so [isMember] is [hasRole] for member. A membership
    that is not active counts for nothing, whatever its role. *)
Theorem membership_queries_agree (db : Db) (channelId userId : ObjectId) :
  ∃ role,
    getUserRole channelId userId db = (db, Ok role)
    ∧ isMember channelId userId db = (db, Ok (bool_decide (is_Some role)))
    ∧ (∀ required,
         hasRole channelId userId required db
         = (db, Ok match role with
                   | Some r => ChannelMember.roleHierarchy r
                               >=? ChannelMember.roleHierarchy required
                   | None => false
                   end))
    ∧ isMember channelId userId db = hasRole channelId userId ChannelMember.member db
    ∧ (role = None ↔
       ∀ m, channelMembers db !! (channelId, userId) = Some m →
            ChannelMember.is_active m = false).
Proof.
  unfold_m.
  destruct (channelMembers db !! (channelId, userId)) as [m|] eqn:Hm.
  - destruct (ChannelMember.is_active m) eqn:Ha.
    + exists (Some (ChannelMember.role m)). split_and!; try done.
      * by destruct (ChannelMember.role m).
      * split; [done|]. intros H. specialize (H m eq_refl). congruence.
    + exists None. split_and!; try done. split; [|done].
      intros _ m' [= <-]. done.
  - exists None. split_and!; try done.
Qed.

Lemma membership_queries_agree_witness :
  isMember Example.general Example.carol Example.db
  = hasRole Example.general Example.carol ChannelMember.member Example.db.
Proof.
  destruct (membership_queries_agree Example.db Example.general Example.carol)
    as (role & _ & _ & _ & Hsame & _).
  exact Hsame.
Defined.

(** The number [getMemberCount] answers. *)
Lemma getMemberCount_reads (db : Db) (channelId : ObjectId) :
  ChannelMemberStatics.getMemberCount channelId db
  = (db, Ok (Z.of_nat (size (filter
       (fun kv : (ObjectId * ObjectId) * ChannelMember.t =>
          kv.1.1 = channelId ∧ ChannelMember.is_active kv.2 = true)
       (channelMembers db))))).
Proof. done. Qed.

(** X13. [addMember] makes the user an active member with the given
    role (member when none is given), whether or not a membership, even
    a deactivated one, existed: the membership queries see it at once,
    no other membership changes, and the member count of the channel
    grows by one unless the user was an active member already.
    [removeMember] then hands back that membership and the user is no
    member any more; removing a membership that is not there changes
    nothing. *)
Theorem addMember_removeMember
    (db : Db) (channelId userId : ObjectId) (role : option ChannelMember.Role) :
  let r := default ChannelMember.member role in
  let added := ChannelMemberStatics.addMember channelId userId role db in
  let removed := ChannelMemberStatics.removeMember channelId userId added.1 in
  let count := fun d => (ChannelMemberStatics.getMemberCount channelId d).2 in
  isMember channelId userId added.1 = (added.1, Ok true)
  ∧ getUserRole channelId userId added.1 = (added.1, Ok (Some r))
  ∧ (∀ c u, (c, u) ≠ (channelId, userId) →
       channelMembers added.1 !! (c, u) = channelMembers db !! (c, u))
  ∧ (∃ n, count db = Ok n
          ∧ (active_member_at_least db channelId userId ChannelMember.member →
             count added.1 = Ok n)
          ∧ (¬ active_member_at_least db channelId userId ChannelMember.member →
             count added.1 = Ok (n + 1)))
  ∧ removed.2 = Ok (Some (ChannelMember.mk r true))
  ∧ isMember channelId userId removed.1 = (removed.1, Ok false)
  ∧ (channelMembers db !! (channelId, userId) = None →
     removed.1 = db
     ∧ ChannelMemberStatics.removeMember channelId userId db = (db, Ok None)).
Proof.
  intros r added removed count. subst r added removed count.
  set (doc := ChannelMember.mk (default ChannelMember.member role) true).
  assert (Hadd : ChannelMemberStatics.addMember channelId userId role db
                 = (ChannelMemberStatics.with_channelMembers
                      (<[(channelId, userId) := doc]> (channelMembers db)) db, Ok doc)).
  { unfold ChannelMemberStatics.addMember.
    by destruct (channelMembers db !! (channelId, userId)). }
  rewrite Hadd. cbn [fst snd].
  set (P := fun kv : (ObjectId * ObjectId) * ChannelMember.t =>
              kv.1.1 = channelId ∧ ChannelMember.is_active kv.2 = true).
  split_and!.
  - rewrite isMember_reads. simpl. by rewrite lookup_insert_eq.
  - unfold_m. simpl. by rewrite lookup_insert_eq.
  - intros c u Hne. simpl. by rewrite lookup_insert_ne.
  - exists (Z.of_nat (size (filter P (channelMembers db)))). split; [done|].
    rewrite getMemberCount_reads. cbn [snd]. simpl channelMembers. fold P.
    rewrite map_filter_insert_True by done. rewrite map_size_insert.
    split.
    + intros (m & Hm & Ha & _).
      assert (Hin : filter P (channelMembers db) !! (channelId, userId) = Some m)
        by (by apply map_lookup_filter_Some).
      by rewrite Hin.
    + intros Hout.
      destruct (filter P (channelMembers db) !! (channelId, userId)) as [m|] eqn:Hin.
      * exfalso. apply map_lookup_filter_Some in Hin as [Hm [_ Ha]].
        apply Hout. exists m. split_and!; [done | done |].
        apply role_le_hierarchy. destruct (ChannelMember.role m); simpl; lia.
      * simpl. do 2 f_equal. lia.
  - unfold ChannelMemberStatics.removeMember. simpl. by rewrite lookup_insert_eq.
  - rewrite isMember_reads. simpl. by rewrite lookup_delete_eq.
  - intros Habsent. unfold ChannelMemberStatics.removeMember. simpl.
    rewrite delete_insert_id by done. rewrite delete_id by done. rewrite Habsent.
    by destruct db.
Qed.

Lemma addMember_removeMember_witness :
  (ChannelMemberStatics.getMemberCount Example.general
     (ChannelMemberStatics.addMember Example.general Example.root None Example.db).1).2
  = Ok 4.
Proof.
  destruct (addMember_removeMember Example.db Example.general Example.root None)
    as (_ & _ & _ & (n & Hn & _ & Hnew) & _).
  rewrite Hnew.
  - vm_compute in Hn. injection Hn as <-. reflexivity.
  - intros (cm & Hcm & _). by vm_compute in Hcm.
Defined.

(* ===================================================================== *)
(** ** What every write keeps                                             *)
(* ===================================================================== *)

Lemma contents_valid_saved (db : Db) (now : Date) (id : ObjectId) (m : Message.t) :
  contents_valid db →
  Message.content_valid (Message.content m) = true →
  contents_valid (saved_as now id m db).
Proof.
  intros Hdb Hm id' m'. unfold saved_as, with_messages. simpl.
  destruct (decide (id = id')) as [->|Hne].
  - rewrite lookup_insert_eq. by intros [= <-].
  - rewrite lookup_insert_ne by done. apply Hdb.
Qed.

Lemma Message_save_valid (validate : bool) (now : Date) (id : ObjectId) (m : Message.t)
    (db : Db) :
  contents_valid db →
  (validate = false → Message.content_valid (Message.content m) = true) →
  contents_valid (Message_save validate now id m db).1.
Proof.
  intros Hdb Hm. unfold_m.
  destruct validate; simpl.
  - destruct (Message.content_valid (Message.content m)) eqn:Hv; simpl; [|done].
    by apply (contents_valid_saved db now id m).
  - apply (contents_valid_saved db now id m); auto.
Qed.

(** X14. No operation ever stores a body the schema rejects: if every
    stored message has a body that is not empty and of at most 2000
    code units, so it is after each of the six writing operations of the
    service and after every event of the socket state machine, whatever
    their arguments. *)
Theorem writes_keep_contents_valid (db : Db) :
  contents_valid db →
  (∀ newId now d, contents_valid (MessageService.sendMessage newId now d db).1)
  ∧ (∀ now id content u, contents_valid (MessageService.updateMessage now id content u db).1)
  ∧ (∀ now id u, contents_valid (MessageService.deleteMessage now id u db).1)
  ∧ (∀ now id reason u, contents_valid (MessageService.flagMessage now id reason u db).1)
  ∧ (∀ now id, contents_valid (MessageService.unflagMessage now id db).1)
  ∧ (∀ now id u, contents_valid (MessageService.restoreMessage now id u db).1)
  ∧ (∀ st e, Socket.db st = db → contents_valid (Socket.db (Socket.step st e).1)).
Proof.
  intros Hdb. split_and!.
  - intros newId now d.
    destruct (sendMessage_outcome db newId now d)
      as [[e ->] | (message & _ & Hvalid & ->)]; [done|].
    by apply contents_valid_saved.
  - intros now id content u. rewrite updateMessage_reads.
    destruct (messages db !! id) as [m|]; [|done].
    destruct (negb _); [done|]. destruct (_ <? _); [done|].
    destruct (Message.content_valid (JS.trim content)) eqn:Hv; simpl; [|done].
    by apply contents_valid_saved.
  - intros now id u.
    destruct (messages db !! id) as [m|] eqn:Hm;
      [|by rewrite deleteMessage_absent].
    destruct (decide (Message.user_id m = u)) as [Ha|Ha];
      [|destruct (moderates_channel_of_dec db m u) as [Hmod|Hmod]].
    + rewrite (deleteMessage_allowed db now id u m Hm (or_introl Ha)).
      apply contents_valid_saved; [done | exact (Hdb id m Hm)].
    + rewrite (deleteMessage_allowed db now id u m Hm (or_intror Hmod)).
      apply contents_valid_saved; [done | exact (Hdb id m Hm)].
    + by rewrite (deleteMessage_refused db now id u m Hm Ha Hmod).
  - intros now id reason u. rewrite flagMessage_reads.
    destruct (messages db !! id) as [m|] eqn:Hm; [|done].
    destruct (Message.is_flagged m); [done|].
    apply contents_valid_saved; [done | exact (Hdb id m Hm)].
  - intros now id. rewrite unflagMessage_reads.
    destruct (messages db !! id) as [m|] eqn:Hm; [|done].
    destruct (Message.is_flagged m); [|done].
    apply contents_valid_saved; [done | exact (Hdb id m Hm)].
  - intros now id u. rewrite restoreMessage_reads.
    destruct (messages db !! id) as [m|] eqn:Hm; [|done].
    destruct (Message.is_deleted m); [|done].
    apply contents_valid_saved; [done | exact (Hdb id m Hm)].
  - intros st e Hst. subst db.
    destruct e as [s u l | s c | s c | s c | s c | s i t c b r | s t m | s t m | s];
      cbn [Socket.step].
    + unfold Socket.on_connection. cbn [fst].
      by destruct (join_listed_fold_keeps s u l
        {| Socket.db := Socket.db st;
           Socket.sockets := <[s := u]> (Socket.sockets st);
           Socket.rooms := Socket.rooms st;
           Socket.connectedUsers := <[u := s]> (Socket.connectedUsers st);
           Socket.userChannels := <[u := ∅]> (Socket.userChannels st);
           Socket.typingUsers := Socket.typingUsers st |}) as (_ & _ & _ & ->).
    + unfold Socket.on_join_channel, Socket.on_socket.
      destruct (Socket.sockets st !! s); [|done].
      by destruct (channels (Socket.db st) !! c).
    + unfold Socket.on_leave_channel, Socket.on_socket.
      destruct (Socket.sockets st !! s) as [u|]; [|done].
      by destruct (Socket.userChannels st !! u).
    + unfold Socket.on_typing_start, Socket.on_socket.
      destruct (Socket.sockets st !! s) as [u|]; [|done].
      destruct (Socket.userChannels st !! u) as [chans|]; [|done].
      by destruct (decide (c ∈ chans)).
    + unfold Socket.on_typing_stop, Socket.on_socket.
      by destruct (Socket.sockets st !! s).
    + unfold Socket.on_new_message, Socket.on_socket.
      destruct (Socket.sockets st !! s) as [u|]; [|done].
      destruct (ObjectIds.cast c) as [c0|]; [|done].
      destruct (channels (Socket.db st) !! c0); [|done].
      destruct (isMember c0 u (Socket.db st)) as [? [[|]|?]]; [|done|done].
      destruct (match r with
                | Some raw => Some <$> ObjectIds.cast raw
                | None => Some None
                end) as [r0|]; [|done].
      pose proof (Message_save_valid true t i
                    (Message.create c0 u b r0 Message.text t) (Socket.db st) Hdb) as Hsave.
      destruct (Message_save _ _ _ _ _) as [db' [saved|?]]; [|done].
      simpl in *. by apply Hsave.
    + unfold Socket.on_delete_message, Socket.on_socket.
      destruct (Socket.sockets st !! s) as [u|]; [|done].
      destruct (messages (Socket.db st) !! m) as [msg|] eqn:Hmsg; [|done].
      destruct (users (Socket.db st) !! u) as [usr|]; [|done].
      destruct (negb _ && negb _ && negb _); [done|].
      pose proof (Message_save_valid false t m (Message.set_softDelete u t msg)
                    (Socket.db st) Hdb) as Hsave.
      destruct (Message_save _ _ _ _ _) as [db' [saved|?]]; [|done].
      simpl in Hsave.
      destruct (channels (Socket.db st) !! Message.channel_id msg); simpl;
        apply Hsave; intros _; exact (Hdb m msg Hmsg).
    + unfold Socket.on_unflag_message, Socket.on_socket.
      destruct (Socket.sockets st !! s) as [u|]; [|done].
      destruct (users (Socket.db st) !! u) as [usr|]; [|done].
      destruct (negb (Socket.isGlobalModerator _)); [done|].
      destruct (messages (Socket.db st) !! m) as [msg|] eqn:Hmsg; [|done].
      destruct (negb (Message.is_flagged msg)); [done|].
      pose proof (Message_save_valid false t m (Message.set_unflag msg)
                    (Socket.db st) Hdb) as Hsave.
      destruct (Message_save _ _ _ _ _) as [db' [saved|?]]; [|done].
      simpl in Hsave. apply Hsave. intros _. exact (Hdb m msg Hmsg).
    + unfold Socket.on_disconnect, Socket.on_socket.
      by destruct (Socket.sockets st !! s).
Qed.

(** The invariant can be checked by running over the collection. *)
Lemma contents_valid_check (db : Db) :
  forallb (fun d : Cursor.doc => Message.content_valid (Message.content d.2))
          (map_to_list (messages db)) = true →
  contents_valid db.
Proof.
  intros Hall id m Hm. rewrite forallb_forall in Hall.
  apply (Hall (id, m)). apply list_elem_of_In. by apply elem_of_map_to_list.
Qed.

Lemma writes_keep_contents_valid_witness :
  contents_valid
    (MessageService.updateMessage (Example.t0 + 1000) Example.m_hello
       (repeat 120%N 2001) Example.alice Example.db).1.
Proof.
  destruct (writes_keep_contents_valid Example.db) as (_ & Hupdate & _).
  - apply contents_valid_check. by vm_compute.
  - apply Hupdate.
Defined.

(* ===================================================================== *)
(** ** The spam filter                                                    *)
(* ===================================================================== *)

Lemma Message_exists_iff (query : Message.t → bool) (db : Db) :
  Moderation.Message_exists query db = true
  ↔ ∃ id m, messages db !! id = Some m ∧ query m = true.
Proof.
  unfold Moderation.Message_exists. rewrite existsb_exists. split.
  - intros ([id m] & Hin & Hq). exists id, m. split; [|done].
    by apply elem_of_map_to_list, list_elem_of_In.
  - intros (id & m & Hm & Hq). exists (id, m). split; [|done].
    by apply list_elem_of_In, elem_of_map_to_list.
Qed.

Lemma recent_query_iff (db : Db) (userId channelId : ObjectId) (now window : Z) :
  Moderation.Message_exists (fun m =>
    bool_decide (Message.user_id m = userId)
    && bool_decide (Message.channel_id m = channelId)
    && (Message.created_at m >=? now - window)) db = true
  ↔ posted_within db userId channelId now window.
Proof.
  rewrite Message_exists_iff. unfold posted_within. split.
  - intros (id & m & Hm & [[Hu Hc]%andb_true_iff Ht]%andb_true_iff).
    apply bool_decide_eq_true in Hu, Hc. exists id, m. split_and!; [done..|lia].
  - intros (id & m & Hm & Hu & Hc & Ht). exists id, m. split; [done|].
    rewrite !andb_true_iff, !bool_decide_eq_true. split_and!; [done..|lia].
Qed.

(** [sendMessage] when it returns: what it stored. *)
Lemma sendMessage_returned (db db' : Db) (newId : ObjectId) (now : Date)
    (d : MessageService.MessageData) (sent : Message.Populated) :
  MessageService.sendMessage newId now d db = (db', Ok sent) →
  messages db' !! newId = Some (Message.pop_doc sent)
  ∧ denotes (MessageService.userId d) (Message.user_id (Message.pop_doc sent))
  ∧ denotes (MessageService.channelId d) (Message.channel_id (Message.pop_doc sent))
  ∧ Message.created_at (Message.pop_doc sent) = now.
Proof.
  destruct (sendMessage_outcome db newId now d)
    as [[e ->] | (message & Hnew & _ & ->)]; [done|].
  intros [= <- <-]. simpl. rewrite lookup_insert_eq.
  apply Message_new_inv in Hnew as (c & u & Hc & Hu & -> & _). done.
Qed.

Lemma spamPrevention_reads_cooldown
    (cast : JS.jsstring → JS.jsstring) (enabled : option string) (now : Date)
    (req : Moderation.Req) (db : Db) (userId channelId : ObjectId) :
  Moderation.disabled enabled = false →
  Moderation.userId req = Some userId →
  Moderation.paramsId req = Some channelId →
  Moderation.spamPrevention cast enabled now req db
  = Moderation.Respond 429 Moderation.Cooldown
  ↔ posted_within db userId channelId now (5 * 60 * 1000).
Proof.
  intros Hon Hu Hc. unfold Moderation.spamPrevention. rewrite Hon, Hu, Hc.
  rewrite <- recent_query_iff.
  destruct (Moderation.Message_exists _ db); [done|].
  destruct (Moderation.Message_exists _ db); split; intros; discriminate.
Qed.

(** X15. With the spam filter on, a request of a known user to a channel
    named in the path is answered 429 exactly when the store holds a
    message of that user in that channel created within the last five
    minutes — deleted or not, and whatever the new body. So after a
    send that returned, the sender's next request to the same channel
    within five minutes is answered 429. *)
Theorem spamPrevention_cooldown
    (cast : JS.jsstring → JS.jsstring) (enabled : option string) (now : Date) (req : Moderation.Req) (db : Db)
    (userId channelId : ObjectId) :
  Moderation.disabled enabled = false →
  Moderation.userId req = Some userId →
  Moderation.paramsId req = Some channelId →
  (Moderation.spamPrevention cast enabled now req db
   = Moderation.Respond 429 Moderation.Cooldown
   ↔ posted_within db userId channelId now (5 * 60 * 1000))
  ∧ (∀ newId sentAt d sent,
       denotes (MessageService.userId d) userId →
       denotes (MessageService.channelId d) channelId →
       (MessageService.sendMessage newId sentAt d db).2 = Ok sent →
       now - sentAt <= 5 * 60 * 1000 →
       Moderation.spamPrevention cast enabled now req
         (MessageService.sendMessage newId sentAt d db).1
       = Moderation.Respond 429 Moderation.Cooldown).
Proof.
  intros Hon Hu Hc.
  assert (Hiff : ∀ db0,
    Moderation.spamPrevention cast enabled now req db0
    = Moderation.Respond 429 Moderation.Cooldown
    ↔ posted_within db0 userId channelId now (5 * 60 * 1000))
    by (intros db0; by apply spamPrevention_reads_cooldown).
  split; [apply Hiff|].
  intros newId sentAt d sent Hdu Hdc Hsent Hnow. apply Hiff.
  destruct (MessageService.sendMessage newId sentAt d db) as [db' r] eqn:Hcall.
  simpl in Hsent. subst r.
  apply sendMessage_returned in Hcall as (Hm & Hsu & Hsc & Hat).
  unfold denotes in *.
  exists newId, (Message.pop_doc sent). simpl.
  split_and!; [done | congruence | congruence | lia].
Qed.

Lemma spamPrevention_cooldown_witness :
  Moderation.spamPrevention JS.trim (Some "true") (Example.t0 + 200000)
    (Moderation.mkReq (Some Example.carol) (Some Example.general) None
       (Some (JS.of_ascii "anything")))
    (MessageService.sendMessage Example.m_new (Example.t0 + 100000)
       (MessageService.mkMessageData Example.general Example.carol
          (JS.of_ascii "first") None None) Example.db).1
  = Moderation.Respond 429 Moderation.Cooldown.
Proof.
  destruct (spamPrevention_cooldown JS.trim (Some "true") (Example.t0 + 200000)
              (Moderation.mkReq (Some Example.carol) (Some Example.general) None
                 (Some (JS.of_ascii "anything")))
              Example.db Example.carol Example.general) as [_ Hafter];
    [reflexivity | reflexivity | reflexivity |].
  destruct (MessageService.sendMessage Example.m_new (Example.t0 + 100000)
              (MessageService.mkMessageData Example.general Example.carol
                 (JS.of_ascii "first") None None) Example.db) as [db' [sent|e]] eqn:Hsend.
  - specialize (Hafter Example.m_new (Example.t0 + 100000)
                  (MessageService.mkMessageData Example.general Example.carol
                     (JS.of_ascii "first") None None) sent).
    rewrite Hsend in Hafter. apply Hafter; [by vm_compute | by vm_compute | reflexivity | lia].
  - exfalso. vm_compute in Hsend. discriminate Hsend.
Defined.

Lemma no_message_of_channel_check (db : Db) (channelId : ObjectId) :
  forallb (fun d : Cursor.doc =>
             negb (bool_decide (Message.channel_id d.2 = channelId)))
          (map_to_list (messages db)) = true →
  ∀ id m, messages db !! id = Some m → Message.channel_id m ≠ channelId.
Proof.
  intros Hall id m Hm Hc. rewrite forallb_forall in Hall.
  assert (Hin : In (id, m) (map_to_list (messages db))).
  { rewrite <- list_elem_of_In. by rewrite elem_of_map_to_list. }
  specialize (Hall _ Hin). simpl in Hall.
  by rewrite bool_decide_true in Hall.
Qed.

(** X16. The spam filter lets a request through without a verdict when
    it is off (variable unset, empty or [false]), when the request
    carries no user or no channel id, and when no stored message belongs
    to the channel named by [req.params.id], which takes precedence over
    [req.body.channel_id]: so on a route whose [:id] is a message id,
    as the edit route, it never answers. *)
Theorem spamPrevention_lets_through
    (cast : JS.jsstring → JS.jsstring) (enabled : option string) (now : Date) (req : Moderation.Req) (db : Db) :
  (enabled = None ∨ enabled = Some "" ∨ enabled = Some "false"
   ∨ Moderation.userId req = None
   ∨ (Moderation.paramsId req = None ∧ Moderation.bodyChannelId req = None)
   ∨ (∃ p, Moderation.paramsId req = Some p
           ∧ ∀ id m, messages db !! id = Some m → Message.channel_id m ≠ p)) →
  Moderation.spamPrevention cast enabled now req db = Moderation.Next.
Proof.
  unfold Moderation.spamPrevention.
  intros [-> | [-> | [-> | [Hu | [[Hp Hb] | (p & Hp & Hnone)]]]]]; try done.
  - destruct (Moderation.disabled enabled); [done|]. by rewrite Hu.
  - destruct (Moderation.disabled enabled); [done|]. rewrite Hp, Hb.
    by destruct (Moderation.userId req).
  - destruct (Moderation.disabled enabled); [done|]. rewrite Hp.
    destruct (Moderation.userId req) as [u|]; [|done].
    assert (Hno : ∀ q : Message.t → bool,
      Moderation.Message_exists (fun m =>
        q m && bool_decide (Message.channel_id m = p)) db = false).
    { intros q. apply not_true_is_false. intros H.
      apply Message_exists_iff in H as (id & m & Hm & [_ Hc]%andb_true_iff).
      apply bool_decide_eq_true in Hc. by apply (Hnone id m). }
    assert (H1 : Moderation.Message_exists (fun m =>
        bool_decide (Message.user_id m = u) && bool_decide (Message.channel_id m = p)
        && (Message.created_at m >=? now - 5 * 60 * 1000)) db = false).
    { apply not_true_is_false. intros H.
      apply Message_exists_iff in H
        as (id & m & Hm & [[_ Hc]%andb_true_iff _]%andb_true_iff).
      apply bool_decide_eq_true in Hc. by apply (Hnone id m). }
    assert (H2 : Moderation.Message_exists (fun m =>
        bool_decide (Message.user_id m = u) && bool_decide (Message.channel_id m = p)
        && bool_decide (Some (Message.content m) = cast <$> Moderation.content req)
        && (Message.created_at m >=? now - 60 * 60 * 1000)) db = false).
    { apply not_true_is_false. intros H.
      apply Message_exists_iff in H
        as (id & m & Hm & [[[_ Hc]%andb_true_iff _]%andb_true_iff _]%andb_true_iff).
      apply bool_decide_eq_true in Hc. by apply (Hnone id m). }
    by rewrite H1, H2.
Qed.

Lemma spamPrevention_lets_through_witness :
  Moderation.spamPrevention JS.trim (Some "true") (Example.t0 + 1000)
    (Moderation.mkReq (Some Example.alice) (Some Example.m_hello)
       (Some Example.general) (Some (JS.of_ascii "hello")))
    Example.db
  = Moderation.Next.
Proof.
  apply spamPrevention_lets_through.
  do 5 right. exists Example.m_hello. split; [reflexivity|].
  apply no_message_of_channel_check. by vm_compute.
Defined.

(* ===================================================================== *)
(** ** The URL filter                                                     *)
(* ===================================================================== *)

Lemma urlValidation_reads (req : Moderation.Req) (body : JS.jsstring) :
  Moderation.content req = Some body →
  Moderation.urlValidation req
  = if (3 <? Moderation.url_matches false body)%nat
    then Moderation.Respond 400 Moderation.TooManyUrls else Moderation.Next.
Proof.
  unfold Moderation.urlValidation. intros ->. by destruct body.
Qed.

(** A match needs white space before the next one can start. *)
Lemma url_matches_bound (s : JS.jsstring) (inside : bool) :
  (Moderation.url_matches inside s
   <= (if inside then 0 else 1) + white_space_count s)%nat.
Proof.
  revert inside. induction s as [|c r IH]; intros inside.
  - destruct inside; simpl; lia.
  - unfold white_space_count in *. cbn [List.filter].
    destruct inside.
    + cbn [Moderation.url_matches].
      specialize (IH (negb (JS.isTrimmable c))).
      destruct (JS.isTrimmable c); simpl in *; lia.
    + cbn [Moderation.url_matches].
      destruct (Moderation.url_match_here (c :: r)).
      * specialize (IH true). destruct (JS.isTrimmable c); simpl in *; lia.
      * specialize (IH false). destruct (JS.isTrimmable c); simpl in *; lia.
Qed.

Lemma url_matches_skips_word (w rest : JS.jsstring) :
  Forall (fun c => JS.isTrimmable c = false) w →
  Moderation.url_matches true (w ++ 32%N :: rest)
  = Moderation.url_matches false rest.
Proof.
  induction 1 as [|c w Hc _ IH]; [reflexivity|].
  cbn [app Moderation.url_matches]. by rewrite Hc.
Qed.

Lemma url_matches_links (ws : list JS.jsstring) :
  Forall is_word ws →
  Moderation.url_matches false (links ws) = length ws.
Proof.
  induction 1 as [|w ws [Hne Hw] _ IH]; [reflexivity|].
  assert (Hcons : links (w :: ws)
                  = ([104; 116; 116; 112; 58; 47; 47]%N ++ w) ++ 32%N :: links ws).
  { unfold links. cbn [map concat]. by rewrite <- !app_assoc. }
  rewrite Hcons. clear Hcons.
  destruct w as [|c w]; [done|].
  apply Forall_cons in Hw as [Hc Hw].
  assert (Hhere : ∀ tail, Moderation.url_match_here
            (104 :: 116 :: 116 :: 112 :: 58 :: 47 :: 47 :: c :: tail)%N = true).
  { intros tail. unfold Moderation.url_match_here, Moderation.after_scheme.
    assert (JS.of_ascii "http" = [104; 116; 116; 112]%N) as -> by reflexivity.
    assert (JS.of_ascii "://" = [58; 47; 47]%N) as -> by reflexivity.
    cbn. by rewrite Hc. }
  cbn [app Moderation.url_matches]. rewrite Hhere.
  change (JS.isTrimmable 116) with false. change (JS.isTrimmable 112) with false.
  change (JS.isTrimmable 58) with false. change (JS.isTrimmable 47) with false.
  cbn [negb]. rewrite Hc. cbn [negb length].
  rewrite url_matches_skips_word by done. by rewrite IH.
Qed.

(** X17. The URL filter counts runs, not links: a body with fewer than
    three white-space code units is let through however many URLs it
    holds, while a body made of links [http://w] each followed by a
    space is refused exactly when it has more than three of them. *)
Theorem urlValidation_counts_runs (req : Moderation.Req) (body : JS.jsstring) :
  Moderation.content req = Some body →
  ((white_space_count body < 3)%nat →
   Moderation.urlValidation req = Moderation.Next)
  ∧ (∀ ws, Forall is_word ws → body = links ws →
       (Moderation.urlValidation req = Moderation.Respond 400 Moderation.TooManyUrls
        ↔ (3 < length ws)%nat)).
Proof.
  intros Hbody. rewrite (urlValidation_reads req body Hbody). split.
  - intros Hfew. pose proof (url_matches_bound body false) as Hle.
    destruct (3 <? Moderation.url_matches false body)%nat eqn:Hcmp; [|done].
    apply Nat.ltb_lt in Hcmp. simpl in Hle. lia.
  - intros ws Hws ->. rewrite url_matches_links by done.
    destruct (3 <? length ws)%nat eqn:Hcmp.
    + apply Nat.ltb_lt in Hcmp. by split.
    + apply Nat.ltb_ge in Hcmp. split; [done | lia].
Qed.

Lemma urlValidation_counts_runs_witness :
  Moderation.urlValidation
    (Moderation.mkReq (Some Example.alice) (Some Example.general) None
       (Some (JS.of_ascii "http://a,http://b,http://c,http://d,http://e")))
  = Moderation.Next
  ∧ Moderation.urlValidation
      (Moderation.mkReq (Some Example.alice) (Some Example.general) None
         (Some (links (map JS.of_ascii ["a"; "b"; "c"; "d"]))))
    = Moderation.Respond 400 Moderation.TooManyUrls.
Proof.
  split.
  - destruct (urlValidation_counts_runs
                (Moderation.mkReq (Some Example.alice) (Some Example.general) None
                   (Some (JS.of_ascii "http://a,http://b,http://c,http://d,http://e")))
                (JS.of_ascii "http://a,http://b,http://c,http://d,http://e")
                eq_refl) as [Hpass _].
    apply Hpass. vm_compute. lia.
  - destruct (urlValidation_counts_runs
                (Moderation.mkReq (Some Example.alice) (Some Example.general) None
                   (Some (links (map JS.of_ascii ["a"; "b"; "c"; "d"]))))
                (links (map JS.of_ascii ["a"; "b"; "c"; "d"]))
                eq_refl) as [_ Hlinks].
    apply (Hlinks (map JS.of_ascii ["a"; "b"; "c"; "d"])); [|reflexivity|simpl; lia].
    repeat constructor; by vm_compute.
Defined.

(* ===================================================================== *)
(** ** The chain of filters                                               *)
(* ===================================================================== *)

(** X18. What the chain [contentModeration] guarantees of a request it
    hands on, for a non-empty body of a known user to the channel named
    in the path: the body is not profane when the profanity filter is
    on; with the spam filter on, the user has put no message in the
    channel in the last five minutes and none with this content in the
    last hour; the body has at most 2000 code units, no code unit other
    than a line terminator eleven times in a row, and at most three URL
    matches. The filters answer in the order of the array: a cooldown is
    answered 429 whatever the length of the body. *)
Theorem contentModeration_hands_on
    (isProfane : JS.jsstring → bool) (cast : JS.jsstring → JS.jsstring)
    (profanityEnabled spamEnabled : option string)
    (now : Date) (req : Moderation.Req) (db : Db)
    (userId channelId : ObjectId) (body : JS.jsstring) :
  Moderation.userId req = Some userId →
  Moderation.paramsId req = Some channelId →
  Moderation.content req = Some body →
  body ≠ [] →
  (Moderation.contentModeration isProfane cast profanityEnabled spamEnabled now req db
   = Moderation.Next →
     (Moderation.disabled profanityEnabled = false → isProfane body = false)
     ∧ (Moderation.disabled spamEnabled = false →
          ¬ posted_within db userId channelId now (5 * 60 * 1000)
          ∧ ∀ id m, messages db !! id = Some m →
              Message.user_id m = userId → Message.channel_id m = channelId →
              Message.content m = cast body →
              now - Message.created_at m > 60 * 60 * 1000)
     ∧ (length body <= 2000)%nat
     ∧ (¬ ∃ c, JS.isLineTerminator c = false ∧ has_run c 11 body)
     ∧ (Moderation.url_matches false body <= 3)%nat)
  ∧ (Moderation.profanityFilter isProfane profanityEnabled req = Moderation.Next →
     Moderation.disabled spamEnabled = false →
     posted_within db userId channelId now (5 * 60 * 1000) →
     Moderation.contentModeration isProfane cast profanityEnabled spamEnabled now req db
     = Moderation.Respond 429 Moderation.Cooldown).
Proof.
  intros Hu Hc Hbody Hne.
  unfold Moderation.contentModeration. split.
  - intros Hchain.
    destruct (Moderation.profanityFilter isProfane profanityEnabled req)
      as [|] eqn:Hprof; [|done].
    destruct (Moderation.spamPrevention cast spamEnabled now req db)
      as [|] eqn:Hspam; [|done].
    destruct (Moderation.contentLengthValidation req) as [|] eqn:Hlen; [|done].
    cbn [Moderation.and_then] in Hchain.
    split_and!.
    + intros Hon. unfold Moderation.profanityFilter in Hprof.
      rewrite Hon, Hbody in Hprof.
      destruct body; [done|]. by destruct (isProfane _).
    + intros Hon. unfold Moderation.spamPrevention in Hspam.
      rewrite Hon, Hu, Hc, Hbody in Hspam.
      destruct (Moderation.Message_exists _ db) eqn:Hrecent in Hspam; [done|].
      destruct (Moderation.Message_exists _ db) eqn:Hdup in Hspam; [done|].
      split.
      * intros Hposted%recent_query_iff. congruence.
      * intros id m Hm Hmu Hmc Hcontent.
        destruct (decide (now - Message.created_at m > 60 * 60 * 1000)) as [|Hle];
          [done|].
        exfalso. apply not_true_iff_false in Hdup. apply Hdup.
        apply Message_exists_iff. exists id, m. split; [done|].
        rewrite !andb_true_iff, !bool_decide_eq_true.
        split_and!; [done | done | by rewrite Hcontent | lia].
    + unfold Moderation.contentLengthValidation, ContentModeration.contentLengthValidation
        in Hlen.
      rewrite Hbody in Hlen. destruct body; [done|].
      destruct (2000 <? _)%nat eqn:Hcmp in Hlen; [done|].
      by apply Nat.ltb_ge in Hcmp.
    + unfold Moderation.contentLengthValidation, ContentModeration.contentLengthValidation
        in Hlen.
      rewrite Hbody in Hlen. destruct body as [|c0 body]; [done|].
      destruct (2000 <? _)%nat in Hlen; [done|].
      destruct (JS.repeatedChars_test (c0 :: body)) eqn:Htest; [done|].
      intros Hrun%repeatedChars_test_iff. congruence.
    + rewrite (urlValidation_reads req body Hbody) in Hchain.
      destruct (3 <? _)%nat eqn:Hcmp in Hchain; [done|].
      by apply Nat.ltb_ge in Hcmp.
  - intros -> Hon Hposted. cbn [Moderation.and_then].
    destruct (spamPrevention_reads_cooldown cast spamEnabled now req db
                userId channelId Hon Hu Hc) as [_ Hcool].
    by rewrite (Hcool Hposted).
Qed.

Lemma contentModeration_hands_on_witness :
  (¬ posted_within Example.db Example.bob Example.general
       (Example.t0 + 3600000) (5 * 60 * 1000)
   ∧ (Moderation.url_matches false (JS.of_ascii "see http://a and http://b") <= 3)%nat)
  ∧ Moderation.contentModeration (fun _ => false) JS.trim (Some "true") (Some "true")
      (Example.t0 + 10000)
      (Moderation.mkReq (Some Example.alice) (Some Example.general) None
         (Some (repeat 120%N 5000)))
      Example.db
    = Moderation.Respond 429 Moderation.Cooldown.
Proof.
  split.
  - destruct (contentModeration_hands_on (fun _ => false) JS.trim
                (Some "true") (Some "true") (Example.t0 + 3600000)
                (Moderation.mkReq (Some Example.bob) (Some Example.general) None
                   (Some (JS.of_ascii "see http://a and http://b")))
                Example.db Example.bob Example.general
                (JS.of_ascii "see http://a and http://b")
                eq_refl eq_refl eq_refl) as [Hpass _]; [by vm_compute|].
    destruct Hpass as (_ & Hspam & _ & _ & Hurls); [by vm_compute|].
    split; [|exact Hurls]. by destruct Hspam.
  - destruct (contentModeration_hands_on (fun _ => false) JS.trim
                (Some "true") (Some "true") (Example.t0 + 10000)
                (Moderation.mkReq (Some Example.alice) (Some Example.general) None
                   (Some (repeat 120%N 5000)))
                Example.db Example.alice Example.general (repeat 120%N 5000)
                eq_refl eq_refl eq_refl) as [_ Hcool]; [by vm_compute|].
    apply Hcool; [reflexivity | reflexivity |].
    exists Example.m_hello, (Example.text_message Example.general Example.alice
                               "hello" Example.t0).
    split_and!; [by vm_compute | reflexivity | reflexivity | vm_compute; discriminate].
Defined.

(* ===================================================================== *)
(** ** The moderation queue                                               *)
(* ===================================================================== *)

Lemma date_le_trans (a b c : option Date) :
  Flagged.date_le a b = true → Flagged.date_le b c = true → Flagged.date_le a c = true.
Proof.
  destruct a, b, c; simpl; try done. rewrite !Z.leb_le. lia.
Qed.

Lemma date_le_total (a b : option Date) :
  Flagged.date_le a b = false → Flagged.date_le b a = true.
Proof.
  destruct a, b; simpl; try done. rewrite Z.leb_gt, Z.leb_le. lia.
Qed.

Lemma insert_flagged_desc_Permutation (d : Cursor.doc) (l : list Cursor.doc) :
  Flagged.insert_flagged_desc d l ≡ₚ d :: l.
Proof.
  induction l as [|y r IH]; simpl; [done|].
  destruct (Flagged.date_le _ _); [done|]. rewrite IH. apply Permutation_swap.
Qed.

Lemma sort_flagged_desc_Permutation (l : list Cursor.doc) :
  Flagged.sort_flagged_desc l ≡ₚ l.
Proof.
  unfold Flagged.sort_flagged_desc. induction l as [|d l IH]; [done|]. simpl.
  by rewrite insert_flagged_desc_Permutation, IH.
Qed.

Lemma sort_flagged_desc_sorted (l : list Cursor.doc) :
  latest_flag_first (Flagged.sort_flagged_desc l).
Proof.
  unfold latest_flag_first, Flagged.sort_flagged_desc.
  induction l as [|d l IH]; simpl; [constructor|].
  revert IH. generalize (foldr Flagged.insert_flagged_desc [] l). clear l.
  induction 1 as [|x r Hr IH Hx]; simpl.
  - repeat constructor.
  - destruct (Flagged.date_le (Message.flagged_at x.2) (Message.flagged_at d.2))
      eqn:Hle.
    + constructor; [by constructor|].
      constructor; [done|]. eapply Forall_impl; [exact Hx|]. simpl.
      intros y Hy. by eapply date_le_trans.
    + constructor; [done|].
      rewrite insert_flagged_desc_Permutation. constructor; [|done].
      by apply date_le_total.
Qed.

Lemma stored_part_populated (db : Db) (l : list Cursor.doc) :
  map stored_part (map (Flagged.populated_flagged db) l) = l.
Proof.
  rewrite map_map. induction l as [|[i m] l IH]; [done|]. simpl. by rewrite IH.
Qed.

(** X19. The moderation queue [getFlaggedMessages] with a page of at
    least one and a limit that is not negative returns without touching
    the store. Each entry is a stored message, flagged and not
    soft-deleted, with its author, its flagger and its channel
    populated — [null] where the user or the channel is stored no
    longer —, each message once, the most recently flagged first;
    [total] counts all such messages; and when they fit the first page
    (or the limit is 0, which the store reads as no limit) every one of
    them is listed. *)
Theorem getFlaggedMessages_queue (page_ limit_ : option Z) (db : Db) :
  0 <= (default 1 page_ - 1) * default 20 limit_ →
  ∃ listing,
    Flagged.getFlaggedMessages page_ limit_ db = (db, Ok listing)
    ∧ (∀ d, d ∈ Flagged.f_messages listing →
         ∃ m, messages db !! Flagged.fd_id d = Some m
              ∧ d = Flagged.populated_flagged db (Flagged.fd_id d, m)
              ∧ Message.is_flagged m = true ∧ Message.is_deleted m = false
              ∧ (Flagged.fd_user_id d = None ↔ users db !! Message.user_id m = None)
              ∧ (Flagged.fd_channel_id d = None
                 ↔ channels db !! Message.channel_id m = None))
    ∧ NoDup (map Flagged.fd_id (Flagged.f_messages listing))
    ∧ latest_flag_first (map stored_part (Flagged.f_messages listing))
    ∧ MessageService.pg_total (Flagged.f_pagination listing)
      = Z.of_nat (length (matching Flagged.in_queue db))
    ∧ (default 1 page_ = 1 →
       default 20 limit_ = 0
       ∨ Z.of_nat (length (matching Flagged.in_queue db)) <= Z.abs (default 20 limit_) →
       ∀ id m, messages db !! id = Some m →
               Message.is_flagged m = true → Message.is_deleted m = false →
               Flagged.populated_flagged db (id, m) ∈ Flagged.f_messages listing).
Proof.
  intros Hskip.
  set (page := default 1 page_) in *. set (limit := default 20 limit_) in *.
  set (sorted := Flagged.sort_flagged_desc (matching Flagged.in_queue db)).
  assert (Hcall : Flagged.getFlaggedMessages page_ limit_ db
    = (db, Ok {| Flagged.f_messages :=
                   map (Flagged.populated_flagged db)
                     (Cursor.limit limit (drop (Z.to_nat ((page - 1) * limit)) sorted));
                 Flagged.f_pagination :=
                   {| MessageService.pg_page := page; MessageService.pg_limit := limit;
                      MessageService.pg_total :=
                        Z.of_nat (length (matching Flagged.in_queue db));
                      MessageService.pg_pages :=
                        MessageService.ceil_div
                          (Z.of_nat (length (matching Flagged.in_queue db))) limit |} |})).
  { unfold Flagged.getFlaggedMessages, Flagged.Message_getFlaggedMessages,
      Cursor.countDocuments, Cursor.find, Cursor.skip.
    cbn [from_option id]. fold page limit.
    assert (Hneg : ((page - 1) * limit <? 0) = false) by (apply Z.ltb_ge; lia).
    unfold_m. rewrite Hneg. reflexivity. }
  eexists. split; [exact Hcall|]. cbn [Flagged.f_messages Flagged.f_pagination
                                        MessageService.pg_total].
  assert (Hsub : Cursor.limit limit (drop (Z.to_nat ((page - 1) * limit)) sorted)
                 `sublist_of` sorted)
    by (etrans; [apply limit_sublist | apply sublist_drop]).
  split_and!.
  - intros d Hd. apply list_elem_of_In, in_map_iff in Hd as ([i m] & <- & Hin).
    apply list_elem_of_In in Hin.
    eapply elem_of_sublist in Hin; [|exact Hsub].
    unfold sorted in Hin. rewrite sort_flagged_desc_Permutation in Hin.
    apply matching_elem in Hin as [Hm [Hf Hdel]%andb_true_iff]. simpl in *.
    exists m. split_and!; [done | done | done | by apply negb_true_iff | |].
    + unfold Flagged.populate_username. by destruct (users db !! Message.user_id m).
    + unfold Flagged.populate_channel_name.
      by destruct (channels db !! Message.channel_id m).
  - rewrite map_map. simpl.
    change (map (fun d : Cursor.doc => d.1)
              (Cursor.limit limit (drop (Z.to_nat ((page - 1) * limit)) sorted)))
      with ((Cursor.limit limit (drop (Z.to_nat ((page - 1) * limit)) sorted)).*1).
    apply (sublist_NoDup _ (sorted.*1)); [|by apply fmap_sublist].
    unfold sorted. rewrite sort_flagged_desc_Permutation. apply matching_NoDup.
  - rewrite stored_part_populated.
    eapply sublist_StronglySorted; [exact Hsub | apply sort_flagged_desc_sorted].
  - done.
  - intros Hpage Hfits id m Hm Hf Hdel.
    assert (Hall : Cursor.limit limit (drop (Z.to_nat ((page - 1) * limit)) sorted)
                   = sorted).
    { rewrite Hpage. simpl. unfold Cursor.limit.
      destruct (limit =? 0) eqn:H0; [done|].
      apply Z.eqb_neq in H0. destruct Hfits as [|Hfits]; [done|].
      apply take_ge. unfold sorted. rewrite sort_flagged_desc_Permutation. lia. }
    rewrite Hall. apply list_elem_of_In, in_map, list_elem_of_In.
    unfold sorted. rewrite sort_flagged_desc_Permutation.
    apply matching_elem. simpl. split; [done|].
    unfold Flagged.in_queue. by rewrite Hf, Hdel.
Qed.

Lemma getFlaggedMessages_queue_witness :
  ∃ listing,
    Flagged.getFlaggedMessages None None Example.db = (Example.db, Ok listing)
    ∧ map Flagged.fd_id (Flagged.f_messages listing) = [Example.m_flagged]
    ∧ map Flagged.fd_flagged_by (Flagged.f_messages listing)
      = [Some (Flagged.mkNamePreview Example.bob "bob")].
Proof.
  destruct (getFlaggedMessages_queue None None Example.db) as (listing & Hcall & _);
    [by vm_compute|].
  exists listing. split; [exact Hcall|].
  vm_compute in Hcall. injection Hcall as <-. split; reflexivity.
Defined.

(** X20. The route [POST /channel/:id], for a well-formed id of a
    channel that exists, a body the validation middleware accepted and a
    [reply_to] that is absent, empty or a stored message with the
    channel id printed as the id given: it answers 201 exactly when the
    caller is an active member of the channel, and then stores the
    message with the request's address and user agent as metadata, and
    with no reply target for an empty [reply_to]; any other caller gets
    403 and nothing is stored. The service's [sendMessage] given the
    same strings stores the same message without the metadata, also for
    a caller who is no member of a public channel, and throws for an
    empty [reply_to]. *)
Theorem route_post_needs_membership
    (db : Db) (newId : ObjectId) (now : Date) (reqUser : MessageController.ReqUser)
    (ip userAgent : option JS.jsstring) (channel : string) (channelId : ObjectId)
    (content : JS.jsstring) (reply_to : option string)
    (message_type : option Message.MessageType) (ch : Channel.t) :
  denotes channel channelId →
  channels db !! channelId = Some ch →
  Validation.validateMessage_content (Some content) = None →
  reply_to = Some "" ∨ reply_resolves db channel reply_to →
  let call := MessageRoutes.post_channel_message newId now reqUser ip userAgent
                channel content reply_to message_type db in
  let member := active_member_at_least db channelId (MessageController.id reqUser)
                  ChannelMember.member in
  let message := Message.create channelId (MessageController.id reqUser) content
                   (reply_id reply_to) (default Message.text message_type) now in
  (call.2 = MessageRoutes.Json 201 ↔ member)
  ∧ (member →
     call.1 = saved_as now newId (Message.set_metadata ip userAgent message) db)
  ∧ (¬ member → call = (db, MessageRoutes.Json 403))
  ∧ (∀ sender, denotes sender (MessageController.id reqUser) →
       let service := MessageService.sendMessage newId now
                        {| MessageService.channelId := channel;
                           MessageService.userId := sender;
                           MessageService.content := content;
                           MessageService.replyTo := reply_to;
                           MessageService.messageType := message_type |} db in
       (reply_to = Some "" → member ∨ Channel.is_private ch = false →
          service = (db, Err ValidationFailed))
       ∧ (reply_to ≠ Some "" → member ∨ Channel.is_private ch = false →
          service.1 = saved_as now newId message db)).
Proof.
  intros Hc Hch Hvalid Hreply call member message.
  assert (Hcontent : Message.content_valid (JS.trim content) = true)
    by (by apply validated_content_saves).
  set (active := match channelMembers db !! (channelId, MessageController.id reqUser) with
                 | Some cm => ChannelMember.is_active cm
                 | None => false
                 end).
  assert (Hmember : member ↔ active = true).
  { unfold member. rewrite <- isMember_true_iff, isMember_reads. fold active.
    split; [by intros [= ->] | by intros ->]. }
  assert (Hcheck :
    match MessageService.truthy reply_to with
    | Some raw =>
        match ObjectIds.cast raw with
        | None => inl (MessageRoutes.Thrown CastFailed)
        | Some replyId =>
            match messages db !! replyId with
            | None => inl (MessageRoutes.Json 400)
            | Some replyMessage =>
                if bool_decide (ObjectIds.toString (Message.channel_id replyMessage)
                                = channel)
                then inr (Some replyId)
                else inl (MessageRoutes.Json 400)
            end
        end
    | None => inr None
    end = (inr (reply_id reply_to) : MessageRoutes.Response + option ObjectId)).
  { destruct Hreply as [-> | Hreply]; [done|].
    unfold reply_resolves in Hreply. destruct reply_to as [raw|]; [|done].
    destruct Hreply as (replyId & rm & Hcast & Hrm & Hprinted).
    assert (raw ≠ "") by (by intros ->).
    rewrite truthy_Some by done. cbn [reply_id].
    by rewrite Hcast, Hrm, bool_decide_true. }
  assert (Hcall : call = if active
                         then (saved_as now newId
                                 (Message.set_metadata ip userAgent message) db,
                               MessageRoutes.Json 201)
                         else (db, MessageRoutes.Json 403)).
  { unfold call, MessageRoutes.post_channel_message.
    unfold denotes in Hc. rewrite Hc, Hch.
    rewrite isMember_reads. fold active. destruct active; [|done].
    rewrite Hcheck. fold message.
    unfold Message_save. unfold_m.
    change (Message.content (Message.set_metadata ip userAgent message))
      with (JS.trim content).
    by rewrite Hcontent. }
  rewrite Hcall. split_and!.
  - rewrite Hmember. by destruct active.
  - intros Hm%Hmember. by rewrite Hm.
  - intros Hm. destruct active eqn:Hactive; [by destruct Hm; apply Hmember|]. done.
  - intros sender Hsender service.
    assert (Hopen : member ∨ Channel.is_private ch = false →
                    channel_open_to db channelId (MessageController.id reqUser)).
    { intros [Hm | Hpublic]; exists ch; split; try done. by rewrite Hpublic. }
    split.
    + intros -> Hpasses. unfold service.
      rewrite (sendMessage_past_guards db newId now _ channelId
                 (MessageController.id reqUser)) by auto.
      cbv zeta. cbn [MessageService.replyTo MessageService.truthy].
      rewrite bool_decide_true by done.
      rewrite bool_decide_false; [done|].
      intros [|[? Hsome]]; [done|]. by vm_compute in Hsome.
    + intros Hne Hpasses. unfold service.
      rewrite (sendMessage_past_guards db newId now _ channelId
                 (MessageController.id reqUser)) by auto.
      cbv zeta. cbn [MessageService.replyTo MessageService.content
                     MessageService.messageType MessageService.channelId].
      fold message.
      change (Message.content message) with (JS.trim content).
      rewrite Hcontent, andb_true_r.
      destruct Hreply as [-> | Hreply]; [done|].
      unfold reply_resolves in Hreply. destruct reply_to as [raw|].
      * destruct Hreply as (replyId & rm & Hcast & Hrm & Hprinted).
        assert (raw ≠ "") by (by intros ->).
        rewrite truthy_Some, Hcast, Hrm by done.
        rewrite bool_decide_true by done.
        rewrite bool_decide_true; [done|].
        right. unfold reply_id. rewrite Hcast. by eexists.
      * cbn [MessageService.truthy]. rewrite bool_decide_true by (by left). done.
Qed.

Lemma route_post_needs_membership_witness :
  MessageRoutes.post_channel_message Example.m_new (Example.t0 + 6000)
    (MessageController.mkReqUser Example.root User.admin)
    (Some (JS.of_ascii "203.0.113.7")) None Example.general
    (JS.of_ascii "hello all") (Some Example.m_hello) None Example.db
  = (Example.db, MessageRoutes.Json 403)
  ∧ (MessageRoutes.post_channel_message Example.m_new (Example.t0 + 6000)
       (MessageController.mkReqUser Example.bob User.user)
       (Some (JS.of_ascii "203.0.113.7")) None Example.general
       (JS.of_ascii "hello all") (Some "") None Example.db).2
    = MessageRoutes.Json 201.
Proof.
  split.
  - destruct (route_post_needs_membership Example.db Example.m_new (Example.t0 + 6000)
                (MessageController.mkReqUser Example.root User.admin)
                (Some (JS.of_ascii "203.0.113.7")) None
                Example.general Example.general
                (JS.of_ascii "hello all") (Some Example.m_hello) None
                (Channel.mk "general" false)) as (_ & _ & Hrefused & _).
    + by vm_compute.
    + by vm_compute.
    + by vm_compute.
    + right. exists Example.m_hello,
        (Example.text_message Example.general Example.alice "hello" Example.t0).
      split_and!; by vm_compute.
    + apply Hrefused. intros (cm & Hcm & _). vm_compute in Hcm. discriminate Hcm.
  - destruct (route_post_needs_membership Example.db Example.m_new (Example.t0 + 6000)
                (MessageController.mkReqUser Example.bob User.user)
                (Some (JS.of_ascii "203.0.113.7")) None
                Example.general Example.general
                (JS.of_ascii "hello all") (Some "") None
                (Channel.mk "general" false)) as (Hstatus & _).
    + by vm_compute.
    + by vm_compute.
    + by vm_compute.
    + by left.
    + apply Hstatus. exists (ChannelMember.mk ChannelMember.member true).
      split_and!; [by vm_compute | reflexivity | by left].
Defined.

(* ===================================================================== *)
(** ** The three ways to edit a message                                   *)
(* ===================================================================== *)

Lemma set_updated_at_twice (now : Date) (m : Message.t) :
  Message.set_updated_at now (Message.set_updated_at now m)
  = Message.set_updated_at now m.
Proof. by destruct m. Qed.

(** X21. The route [PUT /:id] and the socket handler [update_message]
    decide an edit as the service's [updateMessage] does and leave the
    same store: not found, not the author, older than five minutes and a
    body the schema refuses (empty once trimmed, or longer than 2000) are
    refused in this order without a write. They differ in the answer
    only: the route throws the validation error on and the socket
    handler reports [Failed to update message]. The socket handler
    changes nothing of the registries. *)
Theorem edit_paths_agree
    (st : Socket.State) (socket : Socket.SocketId) (now : Date)
    (reqUser : MessageController.ReqUser) (messageId : ObjectId)
    (content : JS.jsstring) :
  Socket.sockets st !! socket = Some (MessageController.id reqUser) →
  let db := Socket.db st in
  let service := MessageService.updateMessage now messageId content
                   (MessageController.id reqUser) db in
  let route := MessageRoutes.put_message now reqUser messageId content db in
  let handler := SocketMessages.on_update_message socket now messageId content st in
  route.1 = service.1
  ∧ handler.1 = Socket.with_db service.1 st
  ∧ route.2 = match service.2 with
              | Ok _ => MessageRoutes.Json 200
              | Err MessageNotFound => MessageRoutes.Json 404
              | Err EditOwnOnly => MessageRoutes.Json 403
              | Err EditWindowPassed => MessageRoutes.Json 400
              | Err e => MessageRoutes.Thrown e
              end
  ∧ handler.2 = match service.2 with
                | Ok _ => Socket.Handled
                | Err ValidationFailed => Socket.ErrorEvent HandlerFailed
                | Err e => Socket.ErrorEvent e
                end
  ∧ (service.1 ≠ db →
       ∃ m, messages db !! messageId = Some m
            ∧ Message.user_id m = MessageController.id reqUser
            ∧ now - Message.created_at m <= 5 * 60 * 1000
            ∧ Message.content_valid (JS.trim content) = true).
Proof.
  intros Hsocket db service route handler.
  assert (Hst : Socket.with_db db st = st) by (by destruct st).
  unfold service, route, handler, SocketMessages.on_update_message, Socket.on_socket,
    MessageRoutes.put_message.
  rewrite updateMessage_reads, Hsocket. fold db.
  destruct (messages db !! messageId) as [m|] eqn:Hm; [|done].
  destruct (bool_decide (Message.user_id m = MessageController.id reqUser)) eqn:Hauthor;
    cbn [negb]; [|done].
  apply bool_decide_eq_true in Hauthor.
  destruct (Message.created_at m <? now - 5 * 60 * 1000) eqn:Hold; [done|].
  apply Z.ltb_ge in Hold.
  unfold Message_save. unfold_m.
  change (Message.content (Message.set_updated_at now (Message.set_content content m)))
    with (JS.trim content).
  destruct (Message.content_valid (JS.trim content)) eqn:Hvalid; cbn.
  - rewrite set_updated_at_twice. split_and!; try done.
    intros _. exists m. split_and!; [done | done | lia | done].
  - split_and!; done.
Qed.

Lemma edit_paths_agree_witness :
  (SocketMessages.on_update_message Example.s1 (Example.t0 + 1000) Example.m_hello
     (JS.of_ascii "   ")
     (Socket.run (Socket.init Example.db)
        [Socket.connection Example.s1 Example.alice [Example.general]])).2
  = Socket.ErrorEvent HandlerFailed.
Proof.
  destruct (edit_paths_agree
              (Socket.run (Socket.init Example.db)
                 [Socket.connection Example.s1 Example.alice [Example.general]])
              Example.s1 (Example.t0 + 1000)
              (MessageController.mkReqUser Example.alice User.user) Example.m_hello
              (JS.of_ascii "   ")) as (_ & _ & _ & Hreply & _); [by vm_compute|].
  rewrite Hreply. by vm_compute.
Defined.

(* ===================================================================== *)
(** ** Flagging over the socket                                           *)
(* ===================================================================== *)

(** X22. The socket handler [flag_message] answers [Valid flag reason
    is required] to a payload without a reason of the enumeration before
    it looks for the message, and changes nothing. With a reason it
    decides and writes as the service's [flagMessage] for the user of
    the socket — any connected user may flag, a message that is
    soft-deleted included — and leaves the registries as they were. *)
Theorem flag_message_as_service
    (st : Socket.State) (socket : Socket.SocketId) (now : Date)
    (messageId : ObjectId) (reason : option Message.FlagReason) (userId : ObjectId) :
  Socket.sockets st !! socket = Some userId →
  let handler := SocketMessages.on_flag_message socket now messageId reason st in
  match reason with
  | None => handler = (st, SocketMessages.ReasonRequired)
  | Some r =>
      let service := MessageService.flagMessage now messageId r userId (Socket.db st) in
      handler.1 = Socket.with_db service.1 st
      ∧ handler.2 = SocketMessages.Replied
                      match service.2 with
                      | Ok _ => Socket.Handled
                      | Err e => Socket.ErrorEvent e
                      end
      ∧ (∀ m, messages (Socket.db st) !! messageId = Some m →
              Message.is_flagged m = false →
              handler.2 = SocketMessages.Replied Socket.Handled
              ∧ messages (Socket.db handler.1) !! messageId
                = Some (Message.set_updated_at now (Message.set_flag r userId now m)))
  end.
Proof.
  intros Hsocket handler. unfold handler, SocketMessages.on_flag_message.
  rewrite Hsocket. destruct reason as [r|]; [|done].
  assert (Hst : Socket.with_db (Socket.db st) st = st) by (by destruct st).
  rewrite flagMessage_reads.
  destruct (messages (Socket.db st) !! messageId) as [m|] eqn:Hm; [|done].
  destruct (Message.is_flagged m) eqn:Hflagged.
  - split_and!; [done | done |]. intros ? [= <-]. congruence.
  - unfold Message_save. unfold_m. cbn.
    split_and!; [done | done |]. intros ? [= <-] _. split; [done|].
    by rewrite lookup_insert_eq.
Qed.

Lemma flag_message_as_service_witness :
  SocketMessages.on_flag_message Example.s1 (Example.t0 + 6000) Example.m_new None
    (Socket.run (Socket.init Example.db)
       [Socket.connection Example.s1 Example.bob [Example.general]])
  = (Socket.run (Socket.init Example.db)
       [Socket.connection Example.s1 Example.bob [Example.general]],
     SocketMessages.ReasonRequired)
  ∧ (SocketMessages.on_flag_message Example.s1 (Example.t0 + 6000) Example.m_deleted
       (Some Message.spam)
       (Socket.run (Socket.init Example.db)
          [Socket.connection Example.s1 Example.bob [Example.general]])).2
    = SocketMessages.Replied Socket.Handled.
Proof.
  split.
  - apply (flag_message_as_service
             (Socket.run (Socket.init Example.db)
                [Socket.connection Example.s1 Example.bob [Example.general]])
             Example.s1 (Example.t0 + 6000) Example.m_new None Example.bob).
    by vm_compute.
  - destruct (flag_message_as_service
                (Socket.run (Socket.init Example.db)
                   [Socket.connection Example.s1 Example.bob [Example.general]])
                Example.s1 (Example.t0 + 6000) Example.m_deleted (Some Message.spam)
                Example.bob) as (_ & _ & Hflag); [by vm_compute|].
    destruct (Hflag (Message.set_softDelete Example.alice (Example.t0 + 4000)
                       (Example.text_message Example.general Example.alice "oops"
                          (Example.t0 + 3000)))) as [Hreply _];
      [by vm_compute | reflexivity | exact Hreply].
Defined.
